(** * DataKEngineerLab: the analytics core of [datakengineerLAB_v1.py]

    A shallow embedding of the table registry ([DataManager]), the
    row/column filter pipeline of the statistics tab, the descriptive
    statistics, the rating (scoring) task and the join / SQL commands.

    Conventions of the embedding:
    - a pandas [DataFrame] is column-major: an index (row labels) and a
      list of named, typed columns, as pandas stores it;
    - float64 numbers are modelled as exact rationals ([Q]); rounding
      error of the hardware floats and the infinities are not modelled;
    - the Tk widgets are modelled by the values they hold; the log panel
      and the message boxes by a list of UI events;
    - what pandas, NumPy, scikit-learn and sqlite3 compute but this
      program does not define (comparison masks, the random generator,
      [pd.merge], the SQL evaluator, the shortest float repr) is taken
      from a [Library] of primitives. *)

From Stdlib Require Import String Ascii List Bool Arith ZArith QArith Qround.
From Stdlib Require Import Qminmax Qabs DecimalNat.
From Stdlib Require Import Qreals Reals Psatz Permutation Sorted DecimalString.
Import ListNotations.

Local Open Scope string_scope.
Local Open Scope list_scope.

Set Implicit Arguments.

(* ====================================================================== *)
(** * Python builtins *)
(* ====================================================================== *)

(** Whitespace accepted around an integer literal by [int()] and removed
    by [str.strip()] (ASCII part). *)
Definition is_space (c : ascii) : bool :=
  let n := nat_of_ascii c in
  (n =? 32)%nat || ((9 <=? n)%nat && (n <=? 13)%nat)
  || ((28 <=? n)%nat && (n <=? 31)%nat).

Fixpoint lstrip (s : list ascii) : list ascii :=
  match s with
  | c :: r => if is_space c then lstrip r else s
  | [] => []
  end.

Definition strip (s : list ascii) : list ascii :=
  rev (lstrip (rev (lstrip s))).

Definition str_strip (s : string) : string :=
  string_of_list_ascii (strip (list_ascii_of_string s)).

Definition digit_of (c : ascii) : option Z :=
  let n := nat_of_ascii c in
  if ((48 <=? n) && (n <=? 57))%nat then Some (Z.of_nat (n - 48)) else None.

(** Digits after the first one; a single underscore may separate two
    digits.  [us] records that the previous character was an underscore. *)
Fixpoint int_digits (acc : Z) (us : bool) (s : list ascii) : option Z :=
  match s with
  | [] => if us then None else Some acc
  | c :: r =>
      match digit_of c with
      | Some d => int_digits (10 * acc + d) false r
      | None =>
          if Ascii.eqb c "_"%char && negb us then int_digits acc true r
          else None
      end
  end.

Definition int_body (s : list ascii) : option Z :=
  match s with
  | c :: r =>
      match digit_of c with
      | Some d => int_digits d false r
      | None => None
      end
  | [] => None
  end.

(** [int(s)] in base 10; [None] stands for [ValueError]. *)
Definition py_int (s : string) : option Z :=
  match strip (list_ascii_of_string s) with
  | c :: r =>
      if Ascii.eqb c "-"%char then option_map Z.opp (int_body r)
      else if Ascii.eqb c "+"%char then int_body r
      else int_body (c :: r)
  | [] => None
  end.

(** [str(n)] of a non-negative integer. *)
Definition str_of_nat (n : nat) : string :=
  NilZero.string_of_uint (Nat.to_uint n).

(** [str(z)] of an integer. *)
Definition str_of_Z (z : Z) : string :=
  match z with
  | Zneg p => "-" ++ str_of_nat (Pos.to_nat p)
  | _ => str_of_nat (Z.to_nat z)
  end.

(** Bounds of a slice [l[a:b]]: a negative bound counts from the end,
    and both are clamped to [0, len]. *)
Definition slice_bound (len : nat) (i : Z) : nat :=
  if (i <? 0)%Z then Z.to_nat (Z.max 0 (i + Z.of_nat len))
  else Z.to_nat (Z.min i (Z.of_nat len)).

Definition py_slice {A} (a b : Z) (l : list A) : list A :=
  let start := slice_bound (length l) a in
  let stop := slice_bound (length l) b in
  firstn (stop - start) (skipn start l).

(** Positional selection [l[i] for i in pos]; positions out of range are
    skipped. *)
Fixpoint take_pos {A} (pos : list nat) (l : list A) : list A :=
  match pos with
  | [] => []
  | i :: r =>
      match nth_error l i with
      | Some x => x :: take_pos r l
      | None => take_pos r l
      end
  end.

(** Boolean-mask selection. *)
Fixpoint take_mask {A} (mask : list bool) (l : list A) : list A :=
  match mask, l with
  | m :: ms, x :: xs => if m then x :: take_mask ms xs else take_mask ms xs
  | _, _ => []
  end.

(* ====================================================================== *)
(** * pandas data model *)
(* ====================================================================== *)

Inductive Cell :=
| CInt (z : Z)
| CFloat (q : Q)
| CNaN
| CStr (s : string)
| CBool (b : bool).

Inductive Dtype := int64 | float64 | bool_ | object_.

Record Series := mkSeries {
  name : string;
  dtype : Dtype;
  values : list Cell
}.

Record DataFrame := mkDF {
  index : list Z;
  data : list Series
}.

Definition columns (df : DataFrame) : list string := map name (data df).

(** [len(df)]: the number of rows. *)
Definition len (df : DataFrame) : nat := length (index df).

(** [df.empty]: true when any axis has length 0. *)
Definition empty (df : DataFrame) : bool :=
  (len df =? 0)%nat || (length (data df) =? 0)%nat.

Definition map_rows (f : forall A, list A -> list A) (df : DataFrame)
  : DataFrame :=
  mkDF (f _ (index df))
       (map (fun s => mkSeries (name s) (dtype s) (f _ (values s))) (data df)).

(** [df.iloc[a:b]] *)
Definition iloc_slice (a b : Z) (df : DataFrame) : DataFrame :=
  map_rows (fun A => @py_slice A a b) df.

(** [df.iloc[pos]] for a list of positions *)
Definition iloc_take (pos : list nat) (df : DataFrame) : DataFrame :=
  map_rows (fun A => @take_pos A pos) df.

(** [df[mask]] for a boolean mask *)
Definition loc_mask (mask : list bool) (df : DataFrame) : DataFrame :=
  map_rows (fun A => @take_mask A mask) df.

(** [df[col]]; [None] stands for [KeyError].  Column names are taken to
    be unique, as they are in a frame read from a file. *)
Definition get_column (col : string) (df : DataFrame) : option Series :=
  find (fun s => String.eqb (name s) col) (data df).

Definition has_column (col : string) (df : DataFrame) : bool :=
  existsb (String.eqb col) (columns df).

(** [df[cols]] for a list of labels; [None] stands for [KeyError]. *)
Fixpoint get_columns (cols : list string) (df : DataFrame)
  : option (list Series) :=
  match cols with
  | [] => Some []
  | c :: r =>
      match get_column c df, get_columns r df with
      | Some s, Some ss => Some (s :: ss)
      | _, _ => None
      end
  end.

Definition project (cols : list string) (df : DataFrame) : option DataFrame :=
  option_map (mkDF (index df)) (get_columns cols df).

Definition is_null (c : Cell) : bool :=
  match c with CNaN => true | _ => false end.

(** Row [i] of the frame has a null in some column. *)
Definition row_has_null (df : DataFrame) (i : nat) : bool :=
  existsb (fun s => match nth_error (values s) i with
                    | Some c => is_null c
                    | None => false
                    end) (data df).

(** [df.dropna()]: whole rows with any null are removed. *)
Definition dropna (df : DataFrame) : DataFrame :=
  loc_mask (map (fun i => negb (row_has_null df i)) (seq 0 (len df))) df.

(** [select_dtypes(include=[np.number])] *)
Definition is_number (d : Dtype) : bool :=
  match d with int64 | float64 => true | _ => false end.

Definition select_number (df : DataFrame) : DataFrame :=
  mkDF (index df) (filter (fun s => is_number (dtype s)) (data df)).

(** [pd.api.types.is_numeric_dtype] also accepts booleans. *)
Definition is_numeric_dtype (d : Dtype) : bool :=
  match d with int64 | float64 | bool_ => true | object_ => false end.

(** [fillna(0)] *)
Definition fillna0 (c : Cell) : Cell :=
  match c with CNaN => CInt 0 | _ => c end.

(** [df[col] = vals]: replaces the column of that name, or appends a new
    float column at the end. *)
Fixpoint set_column (s : Series) (l : list Series) : list Series :=
  match l with
  | [] => [s]
  | x :: r => if String.eqb (name x) (name s) then s :: r
              else x :: set_column s r
  end.

(** Numeric value of a cell of a numeric column.  Texts and booleans are
    not numbers here: the column selectors of the program only offer
    numeric columns, and a reduction that meets another cell is modelled
    as raising. *)
Definition cell_num (c : Cell) : option Q :=
  match c with
  | CInt z => Some (inject_Z z)
  | CFloat q => Some q
  | _ => None
  end.

Fixpoint cells_num (l : list Cell) : option (list Q) :=
  match l with
  | [] => Some []
  | c :: r =>
      match cell_num c, cells_num r with
      | Some q, Some qs => Some (q :: qs)
      | _, _ => None
      end
  end.

(** Python equality of two cell values, as [nunique] hashes them. *)
Definition cell_eqb (a b : Cell) : bool :=
  match a, b with
  | CStr s, CStr t => String.eqb s t
  | CNaN, _ | _, CNaN => false
  | CStr _, _ | _, CStr _ => false
  | _, _ =>
      let v c := match c with
                 | CInt z => inject_Z z
                 | CFloat q => q
                 | CBool true => 1%Q
                 | _ => 0%Q
                 end in
      Qeq_bool (v a) (v b)
  end.

(** [Series.nunique()]: distinct values, nulls excluded. *)
Fixpoint distinct (seen : list Cell) (l : list Cell) : list Cell :=
  match l with
  | [] => rev seen
  | c :: r =>
      if is_null c || existsb (cell_eqb c) seen then distinct seen r
      else distinct (c :: seen) r
  end.

Definition nunique (s : Series) : nat := length (distinct [] (values s)).

(* ====================================================================== *)
(** * Library primitives *)
(* ====================================================================== *)

(** A raised exception carries its message ([str(e)]). *)
Definition Exc (A : Type) : Type := (string + A)%type.

(** What the imported libraries compute.  A NumPy generator state is
    encoded as an integer. *)
Class Library := {
  (** [float(s)]; [None] stands for [ValueError] *)
  py_float : string -> option Cell;
  (** [str(x)] of a float64 *)
  float_repr : Q -> string;
  (** [series <op> val] for the six comparison operators *)
  series_cmp : string -> Series -> Cell -> Exc (list bool);
  (** [series.astype(str).str.contains(val, case=False, na=False)] *)
  series_contains : Series -> Cell -> Exc (list bool);
  (** [np.random.RandomState(seed)] *)
  seed_state : Z -> Z;
  (** [n] positions out of [len], drawn without replacement, and the
      generator state after the draw *)
  choice : Z -> nat -> nat -> list nat * Z;
  (** [pd.merge(df1, df2, left_on=k1, right_on=k2, how=how)] *)
  pd_merge : DataFrame -> DataFrame -> string -> string -> string
             -> Exc DataFrame;
  (** [df.to_sql("data", conn)] followed by [pd.read_sql_query(query, conn)]
      on a fresh in-memory database *)
  read_sql : DataFrame -> string -> Exc DataFrame
}.

(* ====================================================================== *)
(** * Application state *)
(* ====================================================================== *)

(** ** The table registry, [class DataManager] *)

(** A Python [dict]: insertion-ordered, assignment to an existing key
    keeps its position. *)
Fixpoint dict_get {V} (k : string) (d : list (string * V)) : option V :=
  match d with
  | [] => None
  | (k', v) :: r => if String.eqb k' k then Some v else dict_get k r
  end.

Fixpoint dict_set {V} (k : string) (v : V) (d : list (string * V))
  : list (string * V) :=
  match d with
  | [] => [(k, v)]
  | (k', v') :: r =>
      if String.eqb k' k then (k, v) :: r else (k', v') :: dict_set k v r
  end.

Definition dict_keys {V} (d : list (string * V)) : list string := map fst d.

Record DataManager := mkDM {
  tables : list (string * DataFrame);
  active_table : option string
}.

(** Truth value of [self.active_table]: [None] and [""] are false. *)
Definition truthy (s : string) : bool := negb (String.eqb s "").

Definition get_active_df (m : DataManager) : option DataFrame :=
  match active_table m with
  | Some a => if truthy a then dict_get a (tables m) else None
  | None => None
  end.

Definition add_table (nm : string) (df : DataFrame) (m : DataManager)
  : DataManager :=
  mkDM (dict_set nm df (tables m)) (Some nm).

(** ** Widgets and the log panel *)

Inductive Level := INFO | SUCCESS | ERROR | WARNING.

Inductive Event :=
| Log (msg : string) (lvl : Level)
| MessageBox (kind title text : string)
| Status (text : string).

(** [self.row_filter_entries]: a field is [None] when no widget is
    registered under that key. *)
Record Entries := mkEntries {
  index_from : option string;
  index_to : option string;
  value_col : option string;
  value_op : option string;
  value_val : option string;
  sample_n : option string;
  sample_random : option bool
}.

Record App := mkApp {
  dm : DataManager;
  stats_col_vars : list (string * bool);
  stats_selected_cols : list string;
  row_filter_mode : string;
  row_filter_entries : Entries;
  id_column_var : string;
  rating_vars : list (string * bool);
  rating_weight_scale : Q;
  join_left : string;
  join_right : string;
  join_key_a : string;
  join_key_b : string;
  join_type : string;
  sql_entry : string;
  ui : list Event;
  np_random : Z
}.

Definition with_dm (m : DataManager) (a : App) : App :=
  mkApp m (stats_col_vars a) (stats_selected_cols a) (row_filter_mode a)
        (row_filter_entries a) (id_column_var a) (rating_vars a)
        (rating_weight_scale a) (join_left a) (join_right a) (join_key_a a)
        (join_key_b a) (join_type a) (sql_entry a) (ui a) (np_random a).

Definition with_selected (l : list string) (a : App) : App :=
  mkApp (dm a) (stats_col_vars a) l (row_filter_mode a)
        (row_filter_entries a) (id_column_var a) (rating_vars a)
        (rating_weight_scale a) (join_left a) (join_right a) (join_key_a a)
        (join_key_b a) (join_type a) (sql_entry a) (ui a) (np_random a).

Definition with_ui (u : list Event) (a : App) : App :=
  mkApp (dm a) (stats_col_vars a) (stats_selected_cols a) (row_filter_mode a)
        (row_filter_entries a) (id_column_var a) (rating_vars a)
        (rating_weight_scale a) (join_left a) (join_right a) (join_key_a a)
        (join_key_b a) (join_type a) (sql_entry a) u (np_random a).

Definition with_random (g : Z) (a : App) : App :=
  mkApp (dm a) (stats_col_vars a) (stats_selected_cols a) (row_filter_mode a)
        (row_filter_entries a) (id_column_var a) (rating_vars a)
        (rating_weight_scale a) (join_left a) (join_right a) (join_key_a a)
        (join_key_b a) (join_type a) (sql_entry a) (ui a) g.

(** ** Methods run in the state of the application *)

Definition M (A : Type) : Type := App -> A * App.

Definition ret {A} (x : A) : M A := fun a => (x, a).

Definition bind {A B} (m : M A) (k : A -> M B) : M B :=
  fun a => let (x, a') := m a in k x a'.

Declare Scope app_scope.
Delimit Scope app_scope with app.
Notation "x <- m ;; k" := (bind m (fun x => k))
  (at level 61, m at next level, right associativity) : app_scope.
Notation "m ;; k" := (bind m (fun _ => k))
  (at level 61, right associativity) : app_scope.
Local Open Scope app_scope.

Definition gets {A} (f : App -> A) : M A := fun a => (f a, a).

(** [self.logger.log(msg, level)] *)
Definition log (msg : string) (lvl : Level) : M unit :=
  fun a => (tt, with_ui (ui a ++ [Log msg lvl]) a).

Definition messagebox (kind title text : string) : M unit :=
  fun a => (tt, with_ui (ui a ++ [MessageBox kind title text]) a).

(** [widget.get() or default] *)
Definition _get_entry_value (w : option string) (default : string) : string :=
  match w with
  | Some s => if truthy s then s else default
  | None => default
  end.

(** the [tk.BooleanVar] case of [_get_entry_value] *)
Definition _get_entry_bool (w : option bool) (default : bool) : bool :=
  match w with
  | Some b => b
  | None => default
  end.

Section Program.

Context {L : Library}.

(** [df.sample(n=n, random_state=rs)]: a seeded draw leaves the global
    generator alone, [random_state=None] draws from it and advances it. *)
Definition df_sample (n : nat) (rs : option Z) (df : DataFrame)
  : M DataFrame :=
  match rs with
  | Some seed =>
      ret (iloc_take (fst (choice (seed_state seed) (len df) n)) df)
  | None =>
      fun a =>
        let draw := choice (np_random a) (len df) n in
        (iloc_take (fst draw) df, with_random (snd draw) a)
  end.

Definition is_cmp_op (op : string) : bool :=
  existsb (String.eqb op) ["=="; "!="; ">"; "<"; ">="; "<="].

(** [_apply_row_filter(df)] for a frame that is not [None] (every caller
    tests that before the call).  The result [None] is the [return None]
    of the [except] branches. *)
Definition _apply_row_filter (df : DataFrame) : M (option DataFrame) :=
  if empty df then ret (Some df)
  else
    mode <- gets row_filter_mode ;;
    e <- gets row_filter_entries ;;
    if String.eqb mode "all" then ret (Some df)
    else if String.eqb mode "index" then
      match py_int (_get_entry_value (index_from e) "0") with
      | None =>
          log "Índice inválido no filtro de linhas." ERROR ;; ret None
      | Some from_idx =>
          let to_val :=
            _get_entry_value (index_to e) (str_of_nat (len df)) in
          match (if truthy to_val then py_int to_val
                 else Some (Z.of_nat (len df))) with
          | None =>
              log "Índice inválido no filtro de linhas." ERROR ;; ret None
          | Some to_idx => ret (Some (iloc_slice from_idx to_idx df))
          end
      end
    else if String.eqb mode "value" then
      let col := _get_entry_value (value_col e) "" in
      let op := _get_entry_value (value_op e) "==" in
      let val := _get_entry_value (value_val e) "" in
      if negb (truthy col) || String.eqb val "" then
        log "Preencha coluna e valor para filtrar." WARNING ;;
        ret (Some df)
      else
        match get_column col df with
        | None =>
            log ("Erro no filtro por valor: '" ++ col ++ "'") ERROR ;;
            ret None
        | Some series =>
            let v :=
              if is_numeric_dtype (dtype series) then
                match py_float val with
                | Some f => f
                | None => CStr val
                end
              else CStr val in
            let mask :=
              if is_cmp_op op then series_cmp op series v
              else if String.eqb op "contains" then series_contains series v
              else inr (repeat true (len df)) in
            match mask with
            | inl msg =>
                log ("Erro no filtro por valor: " ++ msg) ERROR ;; ret None
            | inr m =>
                let result := loc_mask m df in
                (if empty result then
                   log "Filtro por valor não retornou linhas. Verifique os critérios." WARNING
                 else ret tt) ;;
                ret (Some result)
            end
        end
    else if String.eqb mode "sample" then
      match py_int (_get_entry_value (sample_n e) "100") with
      | None => log "Tamanho de amostra inválido." ERROR ;; ret None
      | Some n =>
          let randomize := _get_entry_bool (sample_random e) true in
          if (Z.of_nat (len df) <=? n)%Z then ret (Some df)
          else if (n <? 0)%Z then
            (* [df.sample] raises [ValueError] on a negative size *)
            log "Tamanho de amostra inválido." ERROR ;; ret None
          else
            r <- df_sample (Z.to_nat n)
                   (if randomize then Some 42%Z else None) df ;;
            ret (Some r)
      end
    else ret (Some df).

(** [_get_filtered_df_for_stats()] *)
Definition _get_filtered_df_for_stats : M (option DataFrame) :=
  m <- gets dm ;;
  match get_active_df m with
  | None => ret None
  | Some df =>
      r <- _apply_row_filter df ;;
      match r with
      | None => ret None
      | Some df_filtered =>
          if empty df_filtered then ret None
          else
            vars <- gets stats_col_vars ;;
            match vars with
            | [] => ret (Some (dropna (select_number df_filtered)))
            | _ =>
                let selected :=
                  map fst (filter (fun cv => snd cv) vars) in
                match selected with
                | [] => ret None
                | _ =>
                    let available :=
                      filter (fun c => has_column c df_filtered) selected in
                    match available with
                    | [] => ret None
                    | _ =>
                        match project available df_filtered with
                        | Some p => ret (Some (dropna p))
                        | None => ret None
                        end
                    end
                end
            end
      end
  end.

(** [_update_selected_stats_cols()] *)
Definition _update_selected_stats_cols : M unit :=
  fun a =>
    (tt, with_selected
           (map fst (filter (fun cv => snd cv) (stats_col_vars a))) a).

(** [_get_id_column()] *)
Definition _get_id_column : M (option string) :=
  v <- gets id_column_var ;;
  let id_col := str_strip v in
  if truthy id_col && negb (String.eqb id_col "(nenhum)")
  then ret (Some id_col) else ret None.

End Program.

(* ====================================================================== *)
(** * Descriptive statistics *)
(* ====================================================================== *)

Definition qsum (l : list Q) : Q := fold_right Qplus 0 l.

Definition qlen (l : list Q) : Q := inject_Z (Z.of_nat (length l)).

Definition mean (l : list Q) : Q := qsum l / qlen l.

Fixpoint insert_asc (x : Q) (l : list Q) : list Q :=
  match l with
  | [] => [x]
  | y :: r => if Qle_bool x y then x :: l else y :: insert_asc x r
  end.

Definition sort_asc (l : list Q) : list Q := fold_right insert_asc [] l.

(** middle value of a sorted column, or the mean of the two middle
    values *)
Definition middle (s : list Q) : Q :=
  let n := length s in
  if Nat.even n
  then (nth (n / 2 - 1) s 0 + nth (n / 2) s 0) / 2
  else nth (n / 2) s 0.

Definition median (l : list Q) : Q := middle (sort_asc l).

Definition qmin (l : list Q) : Q :=
  match l with [] => 0 | x :: r => fold_left Qmin r x end.

Definition qmax (l : list Q) : Q :=
  match l with [] => 0 | x :: r => fold_left Qmax r x end.

(** sum of the [k]-th powers of the deviations from the mean *)
Definition dev_sum (k : positive) (l : list Q) : Q :=
  let m := mean l in
  qsum (map (fun x => Qpower_positive (x - m) k) l).

(** [Series.var()], [ddof=1] *)
Definition variance (l : list Q) : Q :=
  dev_sum 2 l / (qlen l - 1).

(** central moment of order [k], as [scipy.stats.moment] *)
Definition moment (k : positive) (l : list Q) : Q :=
  dev_sum k l / qlen l.

(** [scipy.stats.kurtosis(a)] with its defaults [fisher=True, bias=True]:
    [m4 / m2**2 - 3]. *)
Definition kurtosis_value (l : list Q) : Q :=
  moment 4 l / (moment 2 l * moment 2 l) - 3.

(** Follows the spec's words, for comparison with the call above: the
    bias-corrected excess kurtosis (what [bias=False] selects),
    [(n-1)/((n-2)(n-3)) * ((n+1) * g2 + 6)]. *)
Definition kurtosis_bias_corrected (l : list Q) : Q :=
  let n := qlen l in
  (n - 1) / ((n - 2) * (n - 3)) * ((n + 1) * kurtosis_value l + 6).

(** A value shown in a statistics table.  [SSqrt q] is the non-negative
    square root of [q] and [SSkew m3 m2] is [m3 / m2**1.5]: the two
    statistics that are not rational are kept in closed form. *)
Inductive StatVal :=
| SNum (q : Q)
| SSqrt (q : Q)
| SSkew (m3 m2 : Q)
| SNaN
| SCount (n : nat)
| SStr (s : string).

(** The real number a numeric table value stands for. *)
Definition denote (v : StatVal) : option R :=
  match v with
  | SNum q => Some (Q2R q)
  | SSqrt q => Some (sqrt (Q2R q))
  | SSkew m3 m2 => Some (Q2R m3 / (Q2R m2 * sqrt (Q2R m2)))%R
  | SCount n => Some (INR n)
  | SNaN | SStr _ => None
  end.

Definition stat_mean (l : list Q) : StatVal :=
  match l with [] => SNaN | _ => SNum (mean l) end.

Definition stat_median (l : list Q) : StatVal :=
  match l with [] => SNaN | _ => SNum (median l) end.

(** [Series.std()]: sample standard deviation, [NaN] below two values *)
Definition stat_std (l : list Q) : StatVal :=
  if (length l <=? 1)%nat then SNaN else SSqrt (variance l).

Definition stat_min (l : list Q) : StatVal :=
  match l with [] => SNaN | _ => SNum (qmin l) end.

Definition stat_max (l : list Q) : StatVal :=
  match l with [] => SNaN | _ => SNum (qmax l) end.

(** [scipy.stats.skew(a)], [bias=True]; [NaN] on a constant column *)
Definition stat_skew (l : list Q) : StatVal :=
  if Qeq_bool (moment 2 l) 0 then SNaN
  else SSkew (moment 3 l) (moment 2 l).

Definition stat_kurtosis (l : list Q) : StatVal :=
  if Qeq_bool (moment 2 l) 0 then SNaN else SNum (kurtosis_value l).

Definition stat_names : list string :=
  ["Média"; "Mediana"; "Desvio"; "Mín"; "Máx"; "Assimetria"; "Curtose"].

Definition describe (l : list Q) : list StatVal :=
  [stat_mean l; stat_median l; stat_std l; stat_min l; stat_max l;
   stat_skew l; stat_kurtosis l].

(** The [stats] frame: its columns are [stat_names], its rows are
    labelled by the columns of the filtered data. *)
Record StatsTable := mkStats {
  stat_columns : list string;
  stat_rows : list (string * list StatVal)
}.

(** One row per data column; [None] when a column holds a value the
    numeric reductions reject (the exception is not caught by
    [run_desc_stats]). *)
Fixpoint describe_all (cols : list Series)
  : option (list (string * list StatVal)) :=
  match cols with
  | [] => Some []
  | s :: r =>
      match cells_num (values s), describe_all r with
      | Some qs, Some rows => Some ((name s, describe qs) :: rows)
      | _, _ => None
      end
  end.

(** [stats.loc[label] = vals]: overwrites the rows of that label, or
    appends a new row. *)
Definition loc_set (label : string) (vals : list StatVal) (t : StatsTable)
  : StatsTable :=
  if existsb (String.eqb label) (map fst (stat_rows t))
  then mkStats (stat_columns t)
         (map (fun r => if String.eqb (fst r) label then (label, vals) else r)
              (stat_rows t))
  else mkStats (stat_columns t) (stat_rows t ++ [(label, vals)]).

Section Statistics.

Context {L : Library}.

(** [str(x)] of a cell value *)
Definition py_str (c : Cell) : string :=
  match c with
  | CInt z => str_of_Z z
  | CFloat q => float_repr q
  | CNaN => "nan"
  | CStr s => s
  | CBool true => "True"
  | CBool false => "False"
  end.

(** The three rows written when an identifier column is set:
    [id_data] is the column of the active table. *)
Definition id_rows (id_data : Series) (t : StatsTable) : StatsTable :=
  let k := length (stat_columns t) in
  let n := length (values id_data) in
  let first_ := if (0 <? n)%nat
                then py_str (nth 0 (values id_data) CNaN) else "N/A" in
  let last_ := if (0 <? n)%nat
               then py_str (nth (n - 1) (values id_data) CNaN) else "N/A" in
  loc_set "ID_Último" (repeat (SStr last_) k)
    (loc_set "ID_Primeiro" (repeat (SStr first_) k)
       (loc_set "ID_Únicos" (repeat (SCount (nunique id_data)) k) t)).

(** [run_desc_stats()].  The result is the table handed to
    [show_stats_table]; [None] when the method returns before that, or
    leaves through an exception of a numeric reduction. *)
Definition run_desc_stats : M (option StatsTable) :=
  _update_selected_stats_cols ;;
  r <- _get_filtered_df_for_stats ;;
  id_col <- _get_id_column ;;
  match r with
  | None =>
      log "Nenhum dado válido após filtros de colunas e linhas." ERROR ;;
      messagebox "warning" "Aviso"
        "Selecione colunas numéricas e ajuste o filtro de linhas." ;;
      ret None
  | Some df =>
      if empty df then
        log "Dados filtrados resultaram em dataframe vazio." ERROR ;;
        ret None
      else
        match describe_all (data df) with
        | None => ret None
        | Some rows =>
            let stats := mkStats stat_names rows in
            let dims := (str_of_nat (len df) ++ " linhas × "
                         ++ str_of_nat (length (data df)) ++ " colunas.")%string in
            m <- gets dm ;;
            match id_col, get_active_df m with
            | Some c, Some active =>
                match get_column c active with
                | Some id_data =>
                    log ("Estatísticas geradas com ID '" ++ c ++ "': " ++ dims)
                        SUCCESS ;;
                    ret (Some (id_rows id_data stats))
                | None =>
                    log ("Estatísticas geradas: " ++ dims) SUCCESS ;;
                    ret (Some stats)
                end
            | _, _ =>
                log ("Estatísticas geradas: " ++ dims) SUCCESS ;;
                ret (Some stats)
            end
        end
  end.

End Statistics.

(* ====================================================================== *)
(** * Rating *)
(* ====================================================================== *)

(** [MinMaxScaler((0, 100)).fit_transform] on one feature:
    [scale_ = 100 / range] with a zero range replaced by 1,
    [min_ = 0 - data_min * scale_], and [X * scale_ + min_]. *)
Definition minmax_scale (col : list Q) : list Q :=
  let data_min := qmin col in
  let data_range := (qmax col - data_min)%Q in
  let scale_ := (100 / (if Qeq_bool data_range 0 then 1 else data_range))%Q in
  let min_ := (0 - data_min * scale_)%Q in
  map (fun x => x * scale_ + min_)%Q col.

(** [np.ones(k) / k] *)
Definition weights (k : nat) : list Q :=
  repeat (1 / inject_Z (Z.of_nat k))%Q k.

Fixpoint zip_with {A B C} (f : A -> B -> C) (l : list A) (m : list B)
  : list C :=
  match l, m with
  | x :: xs, y :: ys => f x y :: zip_with f xs ys
  | _, _ => []
  end.

(** [np.dot(scaled, w)] for a matrix given by its columns, [n] rows *)
Fixpoint dot (n : nat) (cols : list (list Q)) (w : list Q) : list Q :=
  match cols, w with
  | c :: cs, x :: ws =>
      zip_with Qplus (map (fun v => v * x)%Q c) (dot n cs ws)
  | _, _ => repeat 0%Q n
  end.

(** [rint]: to the nearest integer, ties to the even one *)
Definition rint (q : Q) : Z :=
  let f := Qfloor q in
  match (q - inject_Z f ?= 1 # 2)%Q with
  | Lt => f
  | Gt => (f + 1)%Z
  | Eq => if Z.even f then f else (f + 1)%Z
  end.

(** [x.round(2)] *)
Definition round2 (q : Q) : Q := rint (q * 100)%Q # 100.

(** Order in which [sort_values(by=..., ascending=False)] lists the
    rows: positions by decreasing key.  Equal keys are kept in their
    original order here; pandas leaves their order unspecified. *)
Fixpoint insert_desc (key : nat -> Q) (i : nat) (l : list nat) : list nat :=
  match l with
  | [] => [i]
  | j :: r =>
      if Qle_bool (key j) (key i) then i :: l
      else j :: insert_desc key i r
  end.

Definition argsort_desc (keys : list Q) : list nat :=
  fold_right (insert_desc (fun i => nth i keys 0%Q)) []
             (seq 0 (length keys)).

(** [subset.fillna(0)] read as a float matrix, column by column; [None]
    when a cell is not a number. *)
Fixpoint filled_columns (l : list Series) : option (list (list Q)) :=
  match l with
  | [] => Some []
  | s :: r =>
      match cells_num (map fillna0 (values s)), filled_columns r with
      | Some c, Some cs => Some (c :: cs)
      | _, _ => None
      end
  end.

(** The scores of the rows: the [try] block of [task] up to [round(2)].
    [inl] is the message of the exception. *)
Definition rating_scores (selected_cols : list string) (df : DataFrame)
  : Exc (list Q) :=
  match get_columns selected_cols df with
  | None => inl "not in index"
  | Some subset =>
      match filled_columns subset with
      | None => inl "could not convert string to float"
      | Some cols =>
          if (len df =? 0)%nat
          then inl "Found array with 0 sample(s)"
          else
            let scaled_data := map minmax_scale cols in
            let w := weights (length selected_cols) in
            let scores := dot (len df) scaled_data w in
            inr (map round2 scores)
      end
  end.

Definition score_series (scores : list Q) : Series :=
  mkSeries "Score_Rating" float64 (map CFloat scores).

(** [df_result]: the copy with its score column, sorted. *)
Definition rating_result (scores : list Q) (df : DataFrame) : DataFrame :=
  iloc_take (argsort_desc scores)
            (mkDF (index df) (set_column (score_series scores) (data df))).

Section Commands.

Context {L : Library}.

(** [calculate_rating_thread()] with the body of its task; [now] is
    [datetime.now().strftime('%H%M%S')]. *)
Definition calculate_rating_thread (now : string) : M unit :=
  m <- gets dm ;;
  match get_active_df m with
  | None =>
      messagebox "warning" "Aviso" "Selecione uma tabela na aba Dados."
  | Some df =>
      vars <- gets rating_vars ;;
      let selected_cols := map fst (filter (fun cv => snd cv) vars) in
      match selected_cols with
      | [] =>
          messagebox "warning" "Aviso"
            "Selecione pelo menos uma coluna numérica."
      | _ =>
          match rating_scores selected_cols df with
          | inl msg => log ("Erro no Rating: " ++ msg) ERROR
          | inr scores =>
              let df_result := rating_result scores df in
              log "Rating calculado com sucesso." SUCCESS ;;
              fun a =>
                (tt, with_dm (add_table ("Rating_" ++ now) df_result (dm a)) a)
          end
      end
  end.

(** [run_join()] *)
Definition run_join (now : string) : M unit :=
  t1 <- gets join_left ;;
  t2 <- gets join_right ;;
  k1 <- gets join_key_a ;;
  k2 <- gets join_key_b ;;
  how <- gets join_type ;;
  if negb (truthy t1) || negb (truthy t2) then
    messagebox "warning" "Erro" "Selecione as tabelas."
  else
    m <- gets dm ;;
    match dict_get t1 (tables m), dict_get t2 (tables m) with
    | Some df1, Some df2 =>
        match pd_merge df1 df2 k1 k2 how with
        | inr res =>
            let nm := ("Join_" ++ t1 ++ "_" ++ t2 ++ "_" ++ now)%string in
            (fun a => (tt, with_dm (add_table nm res (dm a)) a)) ;;
            log ("Join realizado: " ++ nm) SUCCESS
        | inl msg => log ("Erro no Join: " ++ msg) ERROR
        end
    | _, _ => ret tt
    end.

(** [run_sql()] *)
Definition run_sql (now : string) : M unit :=
  m <- gets dm ;;
  match get_active_df m with
  | None => log "Nenhuma tabela selecionada para SQL." ERROR
  | Some df =>
      query <- gets sql_entry ;;
      match read_sql df query with
      | inr res =>
          let nm := ("SQL_" ++ now)%string in
          (fun a => (tt, with_dm (add_table nm res (dm a)) a)) ;;
          (fun a => (tt, with_ui
             (ui a ++ [Status ("Sucesso! " ++ str_of_nat (len res)
                               ++ " linhas.")]) a)) ;;
          log "Query SQL executada." SUCCESS
      | inl msg =>
          (fun a => (tt, with_ui (ui a ++ [Status ("Erro: " ++ msg)]) a)) ;;
          log ("SQL Error: " ++ msg) ERROR
      end
  end.

End Commands.

(* ====================================================================== *)
(** * A reference instance of the library primitives *)
(* ====================================================================== *)

(** Used to run the program on concrete tables.  It covers integer
    literals, comparisons of numbers and of texts, plain substrings, a
    linear congruential generator, the inner join and the query
    [SELECT * FROM data]; every general statement below is proved for an
    arbitrary [Library]. *)

Definition lower (c : ascii) : ascii :=
  let n := nat_of_ascii c in
  if ((65 <=? n) && (n <=? 90))%nat then ascii_of_nat (n + 32) else c.

Definition lower_str (s : string) : string :=
  string_of_list_ascii (map lower (list_ascii_of_string s)).

Fixpoint is_infix (fuel : nat) (p s : string) : bool :=
  String.prefix p s ||
  match fuel, s with
  | S f, String _ r => is_infix f p r
  | _, _ => false
  end.

Definition ref_float (s : string) : option Cell :=
  option_map (fun z => CFloat (inject_Z z)) (py_int s).

Definition ref_repr (q : Q) : string :=
  (if Pos.eqb (Qden (Qred q)) 1
   then str_of_Z (Qnum (Qred q)) ++ ".0"
   else str_of_Z (Qnum (Qred q)) ++ "/"
        ++ str_of_nat (Pos.to_nat (Qden (Qred q))))%string.

Definition ref_cmp_num (op : string) (x y : Q) : bool :=
  if String.eqb op "==" then Qeq_bool x y
  else if String.eqb op "!=" then negb (Qeq_bool x y)
  else if String.eqb op ">" then negb (Qle_bool x y)
  else if String.eqb op "<" then negb (Qle_bool y x)
  else if String.eqb op ">=" then Qle_bool y x
  else Qle_bool x y.

Definition ref_cmp_cell (op : string) (c v : Cell) : Exc bool :=
  match cell_num c, cell_num v with
  | Some x, Some y => inr (ref_cmp_num op x y)
  | _, _ =>
      if String.eqb op "==" then inr (cell_eqb c v)
      else if String.eqb op "!=" then inr (negb (cell_eqb c v))
      else match c with
           | CNaN => inr false
           | _ => inl ("'" ++ op ++ "' not supported between these instances")%string
           end
  end.

Fixpoint ref_mask (f : Cell -> Exc bool) (l : list Cell) : Exc (list bool) :=
  match l with
  | [] => inr []
  | c :: r =>
      match f c, ref_mask f r with
      | inr b, inr bs => inr (b :: bs)
      | inl e, _ => inl e
      | _, inl e => inl e
      end
  end.

Definition ref_cmp (op : string) (s : Series) (v : Cell) : Exc (list bool) :=
  ref_mask (fun c => ref_cmp_cell op c v) (values s).

Definition ref_cell_str (c : Cell) : string :=
  match c with
  | CInt z => str_of_Z z
  | CFloat q => ref_repr q
  | CNaN => "nan"
  | CStr s => s
  | CBool true => "True"
  | CBool false => "False"
  end.

Definition ref_contains (s : Series) (v : Cell) : Exc (list bool) :=
  match v with
  | CStr p =>
      inr (map (fun c =>
                  negb (is_null c) &&
                  let t := lower_str (ref_cell_str c) in
                  is_infix (String.length t) (lower_str p) t)
               (values s))
  | _ => inl "first argument must be string or compiled pattern"
  end.

Definition lcg (g : Z) : Z := ((g * 1103515245 + 12345) mod 2147483648)%Z.

(** [n] draws from the positions still available *)
Fixpoint ref_draw (n : nat) (g : Z) (pool : list nat) : list nat * Z :=
  match n, pool with
  | S k, _ :: _ =>
      let g' := lcg g in
      let i := Z.to_nat (g' mod Z.of_nat (length pool)) in
      let (rest, g'') :=
        ref_draw k g' (firstn i pool ++ skipn (S i) pool) in
      (nth i pool 0%nat :: rest, g'')
  | _, _ => ([], g)
  end.

Definition ref_choice (g : Z) (population n : nat) : list nat * Z :=
  ref_draw n g (seq 0 population).

(** Inner join on [k1 = k2]: for each left row, the right rows with an
    equal key, in order.  A name that both tables have gets the suffixes
    [_x] and [_y]; a key column of the same name on both sides is kept
    once. *)
Definition ref_merge (df1 df2 : DataFrame) (k1 k2 how : string)
  : Exc DataFrame :=
  match get_column k1 df1, get_column k2 df2 with
  | None, _ => inl ("'" ++ k1 ++ "'")%string
  | _, None => inl ("'" ++ k2 ++ "'")%string
  | Some a, Some b =>
      if String.eqb how "inner" then
        let pairs :=
          flat_map (fun i =>
            map (fun j => (i, j))
              (filter (fun j => cell_eqb (nth i (values a) CNaN)
                                         (nth j (values b) CNaN))
                      (seq 0 (len df2))))
            (seq 0 (len df1)) in
        let shared n := String.eqb k1 k2 && String.eqb n k1 in
        let overlap n :=
          has_column n df1 && has_column n df2 && negb (shared n) in
        let rename sfx s :=
          if overlap (name s)
          then mkSeries (name s ++ sfx) (dtype s) (values s) else s in
        let left := iloc_take (map fst pairs) df1 in
        let right := iloc_take (map snd pairs) df2 in
        inr (mkDF (map Z.of_nat (seq 0 (length pairs)))
                  (map (rename "_x") (data left) ++
                   map (rename "_y")
                       (filter (fun s => negb (shared (name s)))
                               (data right))))
      else inl "join kind outside the reference instance"
  end.

Definition ref_sql (df : DataFrame) (query : string) : Exc DataFrame :=
  if String.eqb (str_strip query) "SELECT * FROM data" then inr df
  else inl "near the query text: syntax error".

Definition ref_library : Library :=
  Build_Library ref_float ref_repr ref_cmp ref_contains
                (fun seed => seed) ref_choice ref_merge ref_sql.

(* ====================================================================== *)
(** * Concrete tables and states *)
(* ====================================================================== *)

Definition no_entries : Entries :=
  mkEntries None None None None None None None.

(** The state built by [__init__], before any table is loaded. *)
Definition init_app : App :=
  mkApp (mkDM [] None) [] [] "all" no_entries "" [] 1
        "" "" "id" "id" "inner" "SELECT * FROM data LIMIT 50" [] 0.

Definition range_index (n : nat) : list Z := map Z.of_nat (seq 0 n).

Definition int_col (nm : string) (l : list Z) : Series :=
  mkSeries nm int64 (map CInt l).

Definition text_col (nm : string) (l : list string) : Series :=
  mkSeries nm object_ (map CStr l).

Definition frame (n : nat) (cols : list Series) : DataFrame :=
  mkDF (range_index n) cols.

(** A state with one loaded table, active, and the widgets of the
    statistics and rating tabs as given. *)
Definition loaded (nm : string) (df : DataFrame) (mode : string)
  (e : Entries) (vars : list (string * bool)) (id_col : string) : App :=
  mkApp (mkDM [(nm, df)] (Some nm)) vars [] mode e id_col vars 1
        nm nm "id" "id" "inner" "SELECT * FROM data" [] 0.

Definition index_entries (a b : string) : Entries :=
  mkEntries (Some a) (Some b) None None None None None.

Definition sample_entries (n : string) (randomize : bool) : Entries :=
  mkEntries None None None None None (Some n) (Some randomize).

(** id = a, b, c and x = 1, 2, 3 *)
Definition t_abc : DataFrame :=
  frame 3 [text_col "id" ["a"; "b"; "c"]; int_col "x" [1; 2; 3]%Z].

(** one column 1, 2, 3, 4, 5 *)
Definition t_12345 : DataFrame := frame 5 [int_col "x" [1; 2; 3; 4; 5]%Z].

(** one column 0, 1, 3 *)
Definition t_013 : DataFrame := frame 3 [int_col "x" [0; 1; 3]%Z].

(** one column 0, 10, 20 *)
Definition t_0_10_20 : DataFrame := frame 3 [int_col "x" [0; 10; 20]%Z].

(** The state after the index mode has rejected a bound. *)
Definition invalid_index_logged (app : App) : App :=
  with_ui (ui app ++ [Log "Índice inválido no filtro de linhas." ERROR]) app.

(** States that differ at most in the log panel and in the global random
    generator: what a filter or a statistics run may change. *)
Definition same_widgets (a b : App) : Prop :=
  exists u g, b = with_random g (with_ui u a).

(** The checked column selectors, in the order of the dictionary. *)
Definition selected_of (vars : list (string * bool)) : list string :=
  map fst (filter (fun cv => snd cv) vars).

(** ** The statistics as the documentation words them *)

(** The row of a column [qs] in the table of descriptive statistics:
    mean, median, standard deviation with the N-1 denominator, minimum,
    maximum, skewness [m3 / m2^1.5] and excess kurtosis [m4 / m2^2 - 3]
    on the central moments [m_k = sum (x - mean)^k / N]. *)
Definition is_description (qs : list Q) (row : list StatVal) : Prop :=
  let n := qlen qs in
  exists m md v mn mx m2 m3 m4 : Q,
    (m * n == qsum qs)%Q
    /\ (exists s, Permutation s qs /\ StronglySorted Qle s
                  /\ (md == middle s)%Q)
    /\ (v * (n - 1) == qsum (map (fun x => (x - m) ^ 2) qs))%Q
    /\ (In mn qs /\ forall x, In x qs -> (mn <= x)%Q)
    /\ (In mx qs /\ forall x, In x qs -> (x <= mx)%Q)
    /\ (m2 * n == qsum (map (fun x => (x - m) ^ 2) qs))%Q
    /\ (m3 * n == qsum (map (fun x => (x - m) ^ 3) qs))%Q
    /\ (m4 * n == qsum (map (fun x => (x - m) ^ 4) qs))%Q
    /\ row = [SNum m; SNum md;
              if (length qs <=? 1)%nat then SNaN else SSqrt v;
              SNum mn; SNum mx;
              if Qeq_bool m2 0 then SNaN else SSkew m3 m2;
              if Qeq_bool m2 0 then SNaN
              else SNum (m4 / (m2 * m2) - 3)%Q].

(** Follows the spec's words: the identifier values of the rows that
    remain after the row and column filters, that is, of the rows of the
    active table whose label is still in the filtered dataset. *)
Definition remaining_ids (id_data : Series) (active filtered : DataFrame)
  : list Cell :=
  take_mask
    (map (fun lbl => existsb (Z.eqb lbl) (index filtered)) (index active))
    (values id_data).

(** ** States used in the examples *)

(** rows 1 and 2 of [t_abc], column x checked, identifier column id *)
Definition st_abc_rows_1_2 : App :=
  loaded "t" t_abc "index" (index_entries "1" "3") [("x", true)] "id".

(** [t_abc] with the bounds 2 and 1 *)
Definition st_abc_reversed : App :=
  loaded "t" t_abc "index" (index_entries "2" "1") [("x", true)] "".

(** [t_abc] before any column selector exists *)
Definition st_abc_no_selectors : App :=
  loaded "t" t_abc "all" no_entries [] "".

(** [t_12345], all rows, column x checked *)
Definition st_12345 : App :=
  loaded "t" t_12345 "all" no_entries [("x", true)] "".

(** [t_12345], a sample of two rows with the randomize box unchecked *)
Definition st_sample_fixed : App :=
  loaded "t" t_12345 "sample" (sample_entries "2" false) [("x", true)] "".

(** an empty table, with entries that no mode would accept *)
Definition t_empty : DataFrame := frame 0 [int_col "x" []].

Definition st_empty_invalid : App :=
  loaded "t" t_empty "index" (index_entries "abc" "1.5") [] "".

(** Every column has one value per row. *)
Definition wf (df : DataFrame) : Prop :=
  Forall (fun s => length (values s) = len df) (data df).


(** two columns x and y, both 0, 1, 3 *)
Definition t_013_twice : DataFrame :=
  frame 3 [int_col "x" [0; 1; 3]%Z; int_col "y" [0; 1; 3]%Z].

(** [t_013_twice] with both columns checked in the rating tab *)
Definition st_rating_twice : App :=
  loaded "t" t_013_twice "all" no_entries [("x", true); ("y", true)] "".

(** [t_0_10_20] with its column checked in the rating tab *)
Definition st_rating : App :=
  loaded "t" t_0_10_20 "all" no_entries [("x", true)] "".

(** The widgets of the engineering tab set for a join of [t] with itself
    on the keys [k1] and [k2], and for the query [q]. *)
Definition engine_state (df : DataFrame) (k1 k2 q : string) : App :=
  mkApp (mkDM [("t", df)] (Some "t")) [] [] "all" no_entries "" [] 1
        "t" "t" k1 k2 "inner" q [] 0.

From Stdlib Require HexadecimalString.

(* ====================================================================== *)
(** * Further methods of the application *)
(* ====================================================================== *)

(** ** Text helpers *)

(** [a in b] for two strings: [a] occurs in [b]. *)
Fixpoint py_in (a b : string) : bool :=
  String.prefix a b ||
  match b with
  | String _ r => py_in a r
  | EmptyString => false
  end.

(** [s.replace(old, "")] for a non-empty [old]: the occurrences are
    removed from left to right; [skip] counts the characters of a removed
    occurrence that are still to be passed over. *)
Fixpoint remove_all (old : string) (skip : nat) (s : string) : string :=
  match s with
  | EmptyString => EmptyString
  | String c r =>
      match skip with
      | S k => remove_all old k r
      | O =>
          if String.prefix old s
          then remove_all old (String.length old - 1) r
          else String c (remove_all old 0 r)
      end
  end.

(** [s.endswith(suffix)] *)
Definition endswith (s suffix : string) : bool :=
  let n := String.length s in
  let k := String.length suffix in
  (k <=? n)%nat && String.eqb (String.substring (n - k) k s) suffix.

(** the two icons of the table list, as UTF-8 text *)
Definition icon_book : string := "📑".
Definition icon_page : string := "📄".

(** ** Setters of the remaining widgets *)

Definition with_vars (v : list (string * bool)) (a : App) : App :=
  mkApp (dm a) v (stats_selected_cols a) (row_filter_mode a)
        (row_filter_entries a) (id_column_var a) (rating_vars a)
        (rating_weight_scale a) (join_left a) (join_right a) (join_key_a a)
        (join_key_b a) (join_type a) (sql_entry a) (ui a) (np_random a).

Definition with_mode (m : string) (a : App) : App :=
  mkApp (dm a) (stats_col_vars a) (stats_selected_cols a) m
        (row_filter_entries a) (id_column_var a) (rating_vars a)
        (rating_weight_scale a) (join_left a) (join_right a) (join_key_a a)
        (join_key_b a) (join_type a) (sql_entry a) (ui a) (np_random a).

Definition with_entries (e : Entries) (a : App) : App :=
  mkApp (dm a) (stats_col_vars a) (stats_selected_cols a) (row_filter_mode a)
        e (id_column_var a) (rating_vars a)
        (rating_weight_scale a) (join_left a) (join_right a) (join_key_a a)
        (join_key_b a) (join_type a) (sql_entry a) (ui a) (np_random a).

Definition with_id (v : string) (a : App) : App :=
  mkApp (dm a) (stats_col_vars a) (stats_selected_cols a) (row_filter_mode a)
        (row_filter_entries a) v (rating_vars a)
        (rating_weight_scale a) (join_left a) (join_right a) (join_key_a a)
        (join_key_b a) (join_type a) (sql_entry a) (ui a) (np_random a).

Definition with_rating_vars (v : list (string * bool)) (a : App) : App :=
  mkApp (dm a) (stats_col_vars a) (stats_selected_cols a) (row_filter_mode a)
        (row_filter_entries a) (id_column_var a) v
        (rating_weight_scale a) (join_left a) (join_right a) (join_key_a a)
        (join_key_b a) (join_type a) (sql_entry a) (ui a) (np_random a).

Definition with_join_tables (l r : string) (a : App) : App :=
  mkApp (dm a) (stats_col_vars a) (stats_selected_cols a) (row_filter_mode a)
        (row_filter_entries a) (id_column_var a) (rating_vars a)
        (rating_weight_scale a) l r (join_key_a a)
        (join_key_b a) (join_type a) (sql_entry a) (ui a) (np_random a).

(** ** Column selectors *)

(** One checked selector per numeric column; a dictionary, so a repeated
    name keeps a single entry. *)
Definition numeric_vars (df : DataFrame) : list (string * bool) :=
  fold_left (fun d c => dict_set c true d) (columns (select_number df)) [].

(** [refresh_stats_columns()] *)
Definition refresh_stats_columns : M unit :=
  fun a =>
    match get_active_df (dm a) with
    | None => (tt, with_vars [] a)
    | Some df =>
        match columns (select_number df) with
        | [] => (tt, with_vars [] a)
        | _ => _update_selected_stats_cols (with_vars (numeric_vars df) a)
        end
    end.

(** [_set_all_stats_cols(value)] *)
Definition _set_all_stats_cols (value : bool) : M unit :=
  fun a =>
    _update_selected_stats_cols
      (with_vars (map (fun cv => (fst cv, value)) (stats_col_vars a)) a).

(** [refresh_rating_cols()] *)
Definition refresh_rating_cols : M unit :=
  fun a =>
    match get_active_df (dm a) with
    | None => (tt, with_rating_vars [] a)
    | Some df => (tt, with_rating_vars (numeric_vars df) a)
    end.

(** [_on_id_column_selected()]; [selected] is the text of the combo box *)
Definition _on_id_column_selected (selected : string) : M unit :=
  (fun a => (tt, with_id (if String.eqb selected "(nenhum)" then ""
                          else selected) a)) ;;
  log ("Coluna ID definida: " ++ selected) INFO.

(** [update_engine_combos()] *)
Definition update_engine_combos : M unit :=
  fun a =>
    match dict_keys (tables (dm a)) with
    | [] => (tt, a)
    | v0 :: rest =>
        (tt, with_join_tables v0
               (match rest with v1 :: _ => v1 | [] => join_right a end) a)
    end.

(** ** The identifier column *)

(** [str.lower()], a primitive of Python's Unicode tables. *)
Class Text := {
  str_lower : string -> string
}.

(** The column names that make a column an identifier candidate. *)
Definition id_names : list string :=
  ["id"; "codigo"; "código"; "cpf"; "cnpj"; "nome"; "email"; "chave"; "key"].

(** [refresh_id_column_selector()]; the result is the text shown in the
    combo box, if it is set. *)
Definition refresh_id_column_selector {T : Text} : M (option string) :=
  fun a =>
    match get_active_df (dm a) with
    | None => (None, with_id "" a)
    | Some df =>
        match filter (fun c => existsb (String.eqb (str_lower c)) id_names)
                     (columns df) with
        | c :: _ => (Some c, with_id c a)
        | [] => (Some "(nenhum)", with_id "" a)
        end
    end.

Section RowFilterWidgets.

Context {L : Library} {T : Text}.

(** [_update_row_count_label()], once the label exists; the result is
    the text written on the label. *)
Definition _update_row_count_label : M string :=
  m <- gets dm ;;
  match get_active_df m with
  | None => ret "Linhas: 0 (selecione uma tabela)"
  | Some df =>
      filtered <- _apply_row_filter df ;;
      match filtered with
      | Some f =>
          ret ("Linhas: " ++ str_of_nat (len f) ++ " de "
               ++ str_of_nat (len df) ++ " (após filtro)")%string
      | None => ret "Linhas: erro no filtro"
      end
  end.

(** The entry widgets that [_toggle_row_filter_ui] builds for a mode,
    with their initial contents. *)
Definition fresh_entries (mode : string) (df : option DataFrame) : Entries :=
  if String.eqb mode "index" then
    match df with
    | Some d =>
        mkEntries (Some "0") (Some (str_of_nat (len d)))
                  None None None None None
    | None => mkEntries (Some "") (Some "") None None None None None
    end
  else if String.eqb mode "value" then
    mkEntries None None
              (Some (match df with
                     | Some d => hd "" (columns d)
                     | None => ""
                     end))
              (Some "==") (Some "") None None
  else if String.eqb mode "sample" then
    mkEntries None None None None None (Some "100") (Some true)
  else mkEntries None None None None None None None.

(** [_toggle_row_filter_ui()] *)
Definition _toggle_row_filter_ui : M string :=
  (fun a =>
     (tt, with_entries
            (fresh_entries (row_filter_mode a) (get_active_df (dm a))) a)) ;;
  _update_row_count_label.

(** [refresh_row_filter()] *)
Definition refresh_row_filter : M string :=
  _toggle_row_filter_ui ;; _update_row_count_label.

(** A click on a radio button of the row filter: the variable is set
    and the command [_toggle_row_filter_ui] runs. *)
Definition choose_row_filter_mode (mode : string) : M string :=
  (fun a => (tt, with_mode mode a)) ;; _toggle_row_filter_ui.

(** ** The table list *)

(** What [file_sheets] records for a table read from a workbook. *)
Record SheetInfo := mkSheetInfo {
  sheet_path : string;
  sheets : list string;
  current_sheet : string
}.

(** The lines that [refresh_table_list] puts in the list box. *)
Definition table_list_entries (file_sheets : list (string * SheetInfo))
  (m : DataManager) : list string :=
  map (fun nm =>
         let sh := match dict_get nm file_sheets with
                   | Some i => sheets i
                   | None => []
                   end in
         ((if (1 <? length sh)%nat then icon_book else icon_page)
          ++ " " ++ nm)%string)
      (dict_keys (tables m)).

(** The name read back from a line of the list box. *)
Definition entry_name (line : string) : string :=
  remove_all (icon_page ++ " ") 0 (remove_all (icon_book ++ " ") 0 line).

(** [on_table_select(event)]; [lines] is the content of the list box and
    [sel] its current selection.  [update_preview] only draws. *)
Definition on_table_select (lines : list string) (sel : list nat)
  : M unit :=
  match sel with
  | [] => ret tt
  | i :: _ =>
      let nm := entry_name (nth i lines "") in
      (fun a =>
         match find (fun table_name =>
                       py_in nm table_name || py_in table_name nm)
                    (dict_keys (tables (dm a))) with
         | Some table_name =>
             (tt, with_dm (mkDM (tables (dm a)) (Some table_name)) a)
         | None => (tt, a)
         end) ;;
      refresh_stats_columns ;;
      refresh_row_filter ;;
      refresh_id_column_selector ;;
      ret tt
  end.

End RowFilterWidgets.

(** ** Rows *)

(** Row [i] of a frame: its label and its cell in every column. *)
Definition row (df : DataFrame) (i : nat)
  : option Z * list (option Cell) :=
  (nth_error (index df) i,
   map (fun s => nth_error (values s) i) (data df)).

(** A selection of list elements is positional when the place it reads
    for each place of the result depends on the length of the list
    only: it then picks the same rows in every column. *)
Definition positional (f : forall A : Set, list A -> list A) : Prop :=
  forall n j, exists i, forall (A : Set) (l : list A),
    length l = n -> nth_error (f A l) j = nth_error l i.

(* ====================================================================== *)
(** * Files *)
(* ====================================================================== *)

(** Outcome of a writer: done, [ImportError] (a codec is missing) or
    another exception, each with its message. *)
Inductive Written :=
| WriteOk
| WriteImportError (msg : string)
| WriteError (msg : string).

(** What the file readers and writers of pandas and [os.path] do. *)
Class Files := {
  (** [pd.read_csv(path)] *)
  read_csv : string -> Exc DataFrame;
  (** [pd.ExcelFile(path).sheet_names] *)
  excel_sheet_names : string -> Exc (list string);
  (** [pd.read_excel(path, sheet_name=sheet)] *)
  read_excel : string -> string -> Exc DataFrame;
  (** [os.path.basename(path)] *)
  basename : string -> string;
  (** [df.to_csv], [df.to_excel], [df.to_parquet], [df.to_json] on a
      path, by the name of the format *)
  write_file : string -> DataFrame -> string -> Written
}.

(** [DataManager.load_file(path, sheet_name)]: the registry and the
    [file_sheets] dictionary are passed and returned; [now] is the time
    text of the name.  The result is the triple the method returns. *)
Definition load_file {F : Files} (path : string) (sheet_name : option string)
  (now : string) (m : DataManager) (file_sheets : list (string * SheetInfo))
  : (bool * string * list string)
    * (DataManager * list (string * SheetInfo)) :=
  if endswith path ".csv" then
    match read_csv path with
    | inl e => ((false, e, []), (m, file_sheets))
    | inr df =>
        let table_name := (basename path ++ "_" ++ now)%string in
        ((true, table_name, []),
         (mkDM (dict_set table_name df (tables m)) (Some table_name),
          file_sheets))
    end
  else
    match excel_sheet_names path with
    | inl e => ((false, e, []), (m, file_sheets))
    | inr sheet_names =>
        match (match sheet_name with
               | Some s => inr s
               | None =>
                   match sheet_names with
                   | s :: _ => inr s
                   | [] => inl "list index out of range"
                   end
               end) with
        | inl e => ((false, e, []), (m, file_sheets))
        | inr sheet =>
            match read_excel path sheet with
            | inl e => ((false, e, []), (m, file_sheets))
            | inr df =>
                let base_name := basename path in
                let table_name :=
                  (if (1 <? length sheet_names)%nat
                   then base_name ++ "_" ++ sheet ++ "_" ++ now
                   else base_name ++ "_" ++ now)%string in
                ((true, table_name, sheet_names),
                 (mkDM (dict_set table_name df (tables m))
                       (Some table_name),
                  dict_set table_name (mkSheetInfo path sheet_names sheet)
                           file_sheets))
            end
        end
    end.

(** [_save_dataframe(df, title)] once the dialog has returned [path].
    The result is the format handed to a writer, if any. *)
Definition _save_dataframe {F : Files} (df : DataFrame) (path : string)
  : M (option string) :=
  if negb (truthy path) then ret None
  else
    let fmt :=
      if endswith path ".csv" then Some "csv"
      else if endswith path ".xlsx" then Some "xlsx"
      else if endswith path ".json" then Some "json"
      else None in
    match (match fmt with
           | Some f => write_file f df path
           | None => WriteOk
           end) with
    | WriteOk =>
        log ("Resultados salvos: " ++ basename path) SUCCESS ;; ret fmt
    | WriteImportError msg | WriteError msg =>
        log ("Erro ao salvar: " ++ msg) ERROR ;; ret fmt
    end.

(** [save_data()] with the body of its task, once the dialog has
    returned [path]; [size] is the text of the file size in the log.
    The result is the format handed to a writer, if any, and the last
    text of the status bar, if it was set. *)
Definition save_data {F : Files} (path size : string)
  : M (option string * option string) :=
  m <- gets dm ;;
  match get_active_df m with
  | None =>
      messagebox "warning" "Aviso" "Nenhuma tabela selecionada para salvar." ;;
      log "Nenhuma tabela para exportar." ERROR ;;
      ret (None, None)
  | Some df =>
      if negb (truthy path) then ret (None, None)
      else
        let fmt :=
          if endswith path ".csv" then "csv"
          else if endswith path ".xlsx" then "xlsx"
          else if endswith path ".parquet" then "parquet"
          else if endswith path ".json" then "json"
          else "csv" in
        match write_file fmt df path with
        | WriteOk =>
            log ("Arquivo salvo: " ++ basename path ++ " (" ++ size
                 ++ " KB)") SUCCESS ;;
            ret (Some fmt, Some ("Salvo: " ++ basename path)%string)
        | WriteImportError _ =>
            log "Biblioteca faltando: pip install openpyxl ou pyarrow"
                ERROR ;;
            messagebox "error" "Erro de Dependência"
              ("Excel: pip install openpyxl" ++ String "010"%char
               "Parquet: pip install pyarrow") ;;
            ret (Some fmt, Some "Salvando arquivo..."%string)
        | WriteError msg =>
            log ("Erro ao salvar: " ++ msg) ERROR ;;
            ret (Some fmt, Some "Erro ao salvar"%string)
        end
  end.

(* ====================================================================== *)
(** * Colours of the rating table *)
(* ====================================================================== *)

(** [int(x)] of a float: the fraction is dropped *)
Definition py_trunc (q : Q) : Z := Z.quot (Qnum q) (Zpos (Qden q)).

Definition hex (n : N) : string :=
  HexadecimalString.NilZero.string_of_uint (N.to_hex_uint n).

Definition zfill (width : nat) (s : string) : string :=
  (string_of_list_ascii (repeat "0"%char (width - String.length s)) ++ s)
    %string.

(** the format [{z:02x}] *)
Definition fmt_02x (z : Z) : string :=
  if (z <? 0)%Z then ("-" ++ zfill 1 (hex (Z.to_N (- z))))%string
  else zfill 2 (hex (Z.to_N z)).

Definition qlt (a b : Q) : bool := negb (Qle_bool b a).

(** [max(0, min(100, score))] *)
Definition clamp_score (score : Q) : Q :=
  let m := if qlt score 100 then score else 100%Q in
  if qlt 0 m then m else 0%Q.

(** [score_to_color(score, alpha)].  The arithmetic is that of exact
    rationals: where a float sum falls just below an integer (as
    [30 * (1 - 0.8)], which is 5.999999999999999), the truncated channel
    of the program is one less than here. *)
Definition score_to_color (score alpha : Q) : string :=
  let score := clamp_score score in
  let rg :=
    if qlt score 50
    then (255%Q, inject_Z (py_trunc (255 * (score / 50))))
    else (inject_Z (py_trunc (255 * (1 - (score - 50) / 50))), 255%Q) in
  let mix c := py_trunc (c * alpha + 30 * (1 - alpha)) in
  ("#" ++ fmt_02x (mix (fst rg)) ++ fmt_02x (mix (snd rg))
       ++ fmt_02x (mix 0%Q))%string.

(** A colour of Tk in the form [#rrggbb], with lower-case hexadecimal
    digits. *)
Definition is_hex_digit (c : ascii) : bool :=
  let n := nat_of_ascii c in
  ((48 <=? n)%nat && (n <=? 57)%nat) || ((97 <=? n)%nat && (n <=? 102)%nat).

Definition is_color (s : string) : bool :=
  match s with
  | String c r =>
      Ascii.eqb c "#" && (String.length r =? 6)%nat
      && forallb is_hex_digit (list_ascii_of_string r)
  | EmptyString => false
  end.

(* ====================================================================== *)
(** * Outliers and regression *)
(* ====================================================================== *)

(** Linear interpolation in a sorted column at the fractional position
    [h]: between the neighbours [i] and [i + 1] (the latter kept within
    the column). *)
Definition interpolate (s : list Q) (h : Q) : Q :=
  let i := Z.to_nat (Qfloor h) in
  let j := Nat.min (S i) (length s - 1) in
  (nth i s 0 + (h - inject_Z (Qfloor h)) * (nth j s 0 - nth i s 0))%Q.

(** [Series.quantile(q)] with the default linear interpolation: the
    value at the position [(n - 1) * q] of the sorted column.  [None] is
    the [NaN] of an empty column. *)
Definition quantile (q : Q) (l : list Q) : option Q :=
  match l with
  | [] => None
  | _ => Some (interpolate (sort_asc l) ((qlen l - 1) * q))
  end.

(** One column of [(df < Q1 - 1.5 * IQR) | (df > Q3 + 1.5 * IQR)] *)
Definition iqr_flags (l : list Q) : list bool :=
  match quantile (1 # 4) l, quantile (3 # 4) l with
  | Some q1, Some q3 =>
      let iqr := (q3 - q1)%Q in
      map (fun x => qlt x (q1 - (3 # 2) * iqr)
                    || qlt (q3 + (3 # 2) * iqr) x) l
  | _, _ => map (fun _ => false) l
  end.

Definition count_true (l : list bool) : nat := length (filter (fun b => b) l).

(** One row per column of the [Qtd_Outliers] table *)
Fixpoint count_all (flags : list Q -> list bool) (cols : list Series)
  : option (list (string * nat)) :=
  match cols with
  | [] => Some []
  | s :: r =>
      match cells_num (values s), count_all flags r with
      | Some qs, Some rows => Some ((name s, count_true (flags qs)) :: rows)
      | _, _ => None
      end
  end.

(** One column of [np.abs(zscore(df)) > 3]: [zscore] divides the
    deviation from the mean by the population standard deviation, so
    [|z| > 3] is [(x - mean)^2 > 9 * m2]; on a constant column [z] is
    [NaN] and the comparison is false. *)
Definition zscore_flags (l : list Q) : list bool :=
  let m2 := moment 2 l in
  map (fun x => negb (Qeq_bool m2 0)
                && qlt (9 * m2) ((x - mean l) ^ 2)) l.

(** [LinearRegression().fit(x, y)] on one predictor, with its
    [score(x, y)]: slope, intercept and R².  [None] where exact
    arithmetic does not tell what the solver returns: a constant
    predictor, or a constant response for R². *)
Definition linear_regression (x y : list Q) : option (Q * Q * option Q) :=
  let mx := mean x in
  let my := mean y in
  let sxx := qsum (map (fun a => (a - mx) ^ 2) x) in
  let sxy := qsum (zip_with (fun a b => (a - mx) * (b - my)) x y) in
  if Qeq_bool sxx 0 then None
  else
    let coef := (sxy / sxx)%Q in
    let intercept := (my - coef * mx)%Q in
    let ss_res :=
      qsum (zip_with (fun a b => (b - (coef * a + intercept)) ^ 2) x y) in
    let ss_tot := qsum (map (fun b => (b - my) ^ 2) y) in
    Some (coef, intercept,
          if Qeq_bool ss_tot 0 then None else Some (1 - ss_res / ss_tot)%Q).

Section OutlierRuns.

Context {L : Library}.

(** [run_outliers_iqr()]: the table handed to [show_stats_table]; [None]
    when the method returns before that or leaves through an exception
    of a numeric reduction. *)
Definition run_outliers_iqr : M (option (list (string * nat))) :=
  _update_selected_stats_cols ;;
  r <- _get_filtered_df_for_stats ;;
  _ <- _get_id_column ;;
  match r with
  | None =>
      log "Nenhuma coluna selecionada para outliers." ERROR ;; ret None
  | Some df =>
      match count_all iqr_flags (data df) with
      | None => ret None
      | Some rows => log "Outliers IQR calculados." SUCCESS ;; ret (Some rows)
      end
  end.

End OutlierRuns.

(* ====================================================================== *)
(** * The import handler and the preview *)
(* ====================================================================== *)

(** How the sheet dialog is closed: with its Cancel button, or with its
    OK button while the line [sel] of the list, if any, is selected. *)
Inductive DialogAction :=
| DialogCancel
| DialogOk (sel : option nat).

(** [SheetSelectorDialog(parent, sheet_names, path).result] *)
Definition sheet_dialog_result (sheet_names : list string)
  (act : DialogAction) : option string :=
  match act with
  | DialogCancel => None
  | DialogOk None => None
  | DialogOk (Some i) =>
      Some (remove_all (icon_page ++ " ") 0
              (icon_page ++ " " ++ nth i sheet_names ""))
  end.


Section ImportHandler.

Context {L : Library} {T : Text} {F : Files}.

(** The calls queued after a successful import, in their order;
    [refresh_table_list] and [update_preview] only draw. *)
Definition after_import : M unit :=
  update_engine_combos ;;
  refresh_stats_columns ;;
  refresh_row_filter ;;
  refresh_id_column_selector ;;
  ret tt.

(** What follows a call [dm.load_file(...)] with the result [r]:
    [ok_text] words the message of a success. *)
Definition finish_import (ok_text : string -> string)
  (r : (bool * string * list string)
       * (DataManager * list (string * SheetInfo)))
  (a : App) : App * list (string * SheetInfo) :=
  let a1 := with_dm (fst (snd r)) a in
  let result := snd (fst (fst r)) in
  if fst (fst (fst r))
  then (snd ((log (ok_text result) SUCCESS ;; after_import) a1), snd (snd r))
  else (snd (log ("Erro: " ++ result) ERROR a1), snd (snd r)).

(** [_show_sheet_selector(path, sheet_names)] with the task it starts;
    [act] is what the user does in the dialog. *)
Definition _show_sheet_selector (path : string) (sheet_names : list string)
  (act : DialogAction) (now : string)
  (s : App * list (string * SheetInfo)) : App * list (string * SheetInfo) :=
  let (a, fs) := s in
  match sheet_dialog_result sheet_names act with
  | Some r =>
      if truthy r then
        finish_import
          (fun result => "Sheet '" ++ r ++ "' carregada: " ++ result)%string
          (load_file path (Some r) now (dm a) fs) a
      else (snd (log "Seleção de sheet cancelada." INFO a), fs)
  | None => (snd (log "Seleção de sheet cancelada." INFO a), fs)
  end.

(** [load_file_thread()] with the body of its task, once the file dialog
    has returned [path]. *)
Definition load_file_thread (path : string) (act : DialogAction)
  (now : string) (s : App * list (string * SheetInfo))
  : App * list (string * SheetInfo) :=
  let (a, fs) := s in
  if negb (truthy path) then s
  else if endswith path ".csv" then
    finish_import (fun result => "Arquivo carregado: " ++ result)%string
                  (load_file path None now (dm a) fs) a
  else
    match excel_sheet_names path with
    | inl e => (snd (log ("Erro: " ++ e) ERROR a), fs)
    | inr sheet_names =>
        if (1 <? length sheet_names)%nat
        then _show_sheet_selector path sheet_names act now s
        else
          finish_import (fun result => "Arquivo carregado: " ++ result)%string
                        (load_file path None now (dm a) fs) a
    end.

End ImportHandler.

(* ====================================================================== *)
(** * Sessions *)
(* ====================================================================== *)

(** The registry is sound when the active table, if any, is one of its
    keys and no key is the empty name. *)
Definition registry_ok (m : DataManager) : Prop :=
  match active_table m with
  | None => True
  | Some a => In a (dict_keys (tables m))
  end
  /\ ~ In "" (dict_keys (tables m)).

(** One step of the registry: the tables are kept and the active table
    is kept or becomes one of the keys, or a table is stored under a
    non-empty name and becomes active. *)
Definition registry_step (m m' : DataManager) : Prop :=
  (tables m' = tables m
   /\ (active_table m' = active_table m
       \/ exists k, In k (dict_keys (tables m)) /\ active_table m' = Some k))
  \/ exists nm df, truthy nm = true /\ m' = add_table nm df m.

(** The application together with [DataManager.file_sheets]. *)
Definition Session : Type := (App * list (string * SheetInfo))%type.

(** The calls that the handlers of the window are made of: a handler
    is a sequence of them.  [Widgets w] stands for any editing of the
    widgets (entries, check boxes, combo boxes, the query text): they
    take the values they have in [w], and the registry is kept. *)
Inductive Command :=
| LoadFile (path : string) (sheet_name : option string) (now : string)
| ImportFile (path : string) (act : DialogAction) (now : string)
| SelectTable (lines : list string) (sel : list nat)
| RefreshStatsColumns
| SetAllStatsCols (value : bool)
| RefreshRatingCols
| RefreshIdColumnSelector
| IdColumnSelected (selected : string)
| RefreshRowFilter
| ChooseRowFilterMode (mode : string)
| RunDescStats
| RunOutliersIqr
| CalculateRating (now : string)
| UpdateEngineCombos
| RunJoin (now : string)
| RunSql (now : string)
| SaveData (path size : string)
| SaveDataframe (df : DataFrame) (path : string)
| Widgets (w : App).

Definition exec {L : Library} {T : Text} {F : Files} (c : Command)
  (s : Session) : Session :=
  let (a, fs) := s in
  match c with
  | LoadFile path sheet_name now =>
      let (m, fs') := snd (load_file path sheet_name now (dm a) fs) in
      (with_dm m a, fs')
  | ImportFile path act now => load_file_thread path act now (a, fs)
  | SelectTable lines sel => (snd (on_table_select lines sel a), fs)
  | RefreshStatsColumns => (snd (refresh_stats_columns a), fs)
  | SetAllStatsCols value => (snd (_set_all_stats_cols value a), fs)
  | RefreshRatingCols => (snd (refresh_rating_cols a), fs)
  | RefreshIdColumnSelector => (snd (refresh_id_column_selector a), fs)
  | IdColumnSelected selected => (snd (_on_id_column_selected selected a), fs)
  | RefreshRowFilter => (snd (refresh_row_filter a), fs)
  | ChooseRowFilterMode mode => (snd (choose_row_filter_mode mode a), fs)
  | RunDescStats => (snd (run_desc_stats a), fs)
  | RunOutliersIqr => (snd (run_outliers_iqr a), fs)
  | CalculateRating now => (snd (calculate_rating_thread now a), fs)
  | UpdateEngineCombos => (snd (update_engine_combos a), fs)
  | RunJoin now => (snd (run_join now a), fs)
  | RunSql now => (snd (run_sql now a), fs)
  | SaveData path size => (snd (save_data path size a), fs)
  | SaveDataframe df path => (snd (_save_dataframe df path a), fs)
  | Widgets w => (with_dm (dm a) w, fs)
  end.

Definition run {L : Library} {T : Text} {F : Files} (cmds : list Command)
  (s : Session) : Session :=
  fold_left (fun s c => exec c s) cmds s.

(** No character of the name is the byte 240, the first byte of the two
    icons. *)
Definition no_icon_byte (nm : string) : Prop :=
  Forall (fun c => c <> "240"%char) (list_ascii_of_string nm).

(** [k1] comes before any occurrence of [k2] in the list. *)
Definition precedes (k1 k2 : string) (keys : list string) : Prop :=
  exists l1 l2, keys = l1 ++ k1 :: l2 /\ ~ In k2 l1.

(** A reference instance of the file primitives: every path holds the
    table [t_abc]; a workbook has the sheets [Plan1] and [Plan2]; a path
    that contains [missing] cannot be read.  Writers succeed. *)
Definition ref_basename (path : string) : string :=
  string_of_list_ascii
    (rev ((fix take (l : list ascii) : list ascii :=
             match l with
             | [] => []
             | c :: r => if Ascii.eqb c "/" then [] else c :: take r
             end) (rev (list_ascii_of_string path)))).

(** ASCII letters in lower case; other bytes are kept. *)
Definition ref_text : Text := Build_Text lower_str.

Definition ref_files : Files :=
  Build_Files
    (fun path => if py_in "missing" path
                 then inl "No such file or directory" else inr t_abc)
    (fun path => if py_in "missing" path
                 then inl "No such file or directory"
                 else inr ["Plan1"; "Plan2"])
    (fun path sheet => if String.eqb sheet "Plan1" || String.eqb sheet "Plan2"
                       then inr t_abc else inl "Worksheet not found")
    ref_basename
    (fun _ _ _ => WriteOk).

(** ** Further states used in the examples *)

(** two loaded tables, the first one active *)
Definition st_two_tables : App :=
  mkApp (mkDM [("vendas.csv_101010", t_abc); ("clientes.csv_101011", t_12345)]
              (Some "vendas.csv_101010"))
        [] [] "all" no_entries "" [] 1
        "" "" "x" "x" "inner" "SELECT * FROM data" [] 0.

(** an import, the selectors, a query and a click on the first line *)
Definition session_example : list Command :=
  [LoadFile "dados/vendas.csv" None "101010"; RefreshStatsColumns;
   RunSql "101011"; SelectTable ["📄 vendas.csv_101010"] [0%nat];
   RunJoin "101012"].

(** one float column with a missing value *)
Definition t_with_null : DataFrame :=
  mkDF (range_index 3) [mkSeries "x" float64 [CFloat 1; CNaN; CFloat 3]].


(** ** The distinct values of a column, as the documentation words them *)

(** Follows the spec's words ("distinct-value count"): [d] lists the
    distinct values of the column [vals], each of them once; a null is
    not a value.  Two cells hold the same value when Python finds them
    equal ([cell_eqb]). *)
Definition distinct_values (vals d : list Cell) : Prop :=
  (forall c, In c d -> In c vals /\ is_null c = false)
  /\ (forall c, In c vals -> is_null c = false ->
                exists c', In c' d /\ cell_eqb c c' = true)
  /\ ForallOrdPairs (fun a b => cell_eqb a b = false) d.

(** A cell that holds a text or an integer: for two of them, being equal
    in Python is being the same cell. *)
Definition plain_cell (c : Cell) : Prop :=
  (exists s, c = CStr s) \/ (exists z, c = CInt z).

(** id = a, b, a and x = 1, 2, 3: an identifier that repeats *)
Definition t_aba : DataFrame :=
  frame 3 [text_col "id" ["a"; "b"; "a"]; int_col "x" [1; 2; 3]%Z].

(** [t_aba], all rows, column x checked, identifier column id *)
Definition st_aba : App :=
  loaded "t" t_aba "all" no_entries [("x", true)] "id".

(** ** The steps of a rating, as the documentation words them *)





(** The registry [m'] is the registry [m] after the table [res] has been
    put under the name [nm] and made the active one: the other names
    keep their tables, and the list of names grows by [nm] only when
    [nm] was not in it. *)
Definition registered_as (nm : string) (res : DataFrame)
  (m m' : DataManager) : Prop :=
  active_table m' = Some nm
  /\ In nm (dict_keys (tables m'))
  /\ dict_get nm (tables m') = Some res
  /\ get_active_df m' = Some res
  /\ (forall k, k <> nm -> dict_get k (tables m') = dict_get k (tables m))
  /\ dict_keys (tables m')
     = (if existsb (String.eqb nm) (dict_keys (tables m))
        then dict_keys (tables m)
        else dict_keys (tables m) ++ [nm]).



(** the column 0, missing, 20 and the same column in degrees Fahrenheit *)
Definition t_celsius_null : DataFrame :=
  mkDF (range_index 3)
       [mkSeries "x" float64 [CFloat 0; CNaN; CFloat 20]].

Definition t_fahrenheit_null : DataFrame :=
  mkDF (range_index 3)
       [mkSeries "x" float64 [CFloat 32; CNaN; CFloat 68]].

(** a registry that already holds a table named [SQL_120000]; the table
    t is the active one *)
Definition st_sql_same_name : App :=
  mkApp (mkDM [("t", t_abc); ("SQL_120000", t_12345)] (Some "t"))
        [] [] "all" no_entries "" [] 1
        "t" "t" "id" "id" "inner" "SELECT * FROM data" [] 0.


(* ====================================================================== *)
(** * Properties of the Python builtins *)
(* ====================================================================== *)

Lemma lstrip_head (c : ascii) (r : list ascii) :
  is_space c = false -> lstrip (c :: r) = c :: r.
Proof. intros H; simpl; now rewrite H. Qed.

Lemma strip_no_space (l : list ascii) :
  Forall (fun c => is_space c = false) l -> strip l = l.
Proof.
  intros H. unfold strip.
  assert (E : forall m, Forall (fun c => is_space c = false) m -> lstrip m = m).
  { intros m Hm. destruct Hm as [|c r Hc _]; [reflexivity|].
    now apply lstrip_head. }
  rewrite (E l H), (E (rev l)) by now apply Forall_rev.
  apply rev_involutive.
Qed.

Lemma uint_chars_no_space (d : Decimal.uint) :
  Forall (fun c => is_space c = false)
         (list_ascii_of_string (NilEmpty.string_of_uint d)).
Proof.
  induction d; simpl; constructor; auto.
Qed.

Lemma int_digits_uint (d : Decimal.uint) (acc : nat) :
  int_digits (Z.of_nat acc) false
             (list_ascii_of_string (NilEmpty.string_of_uint d))
  = Some (Z.of_nat (Nat.of_uint_acc d acc)).
Proof.
  revert acc.
  induction d; intros acc; simpl NilEmpty.string_of_uint;
    simpl list_ascii_of_string; [reflexivity|..];
    cbn [int_digits]; cbv [digit_of]; cbn [nat_of_ascii];
    simpl Nat.leb; simpl andb; cbv iota;
    cbn [Nat.of_uint_acc]; rewrite Nat.tail_mul_spec, <- IHd; f_equal;
    set (k := (nat_of_ascii _ - 48)%nat); vm_compute in k; subst k; lia.
Qed.

Lemma py_int_uint (d : Decimal.uint) :
  d <> Decimal.Nil ->
  py_int (NilEmpty.string_of_uint d) = Some (Z.of_nat (Nat.of_uint d)).
Proof.
  intros Hd. unfold py_int, Nat.of_uint.
  rewrite strip_no_space by apply uint_chars_no_space.
  destruct d; [congruence|..];
    simpl NilEmpty.string_of_uint; simpl list_ascii_of_string;
    cbv [Ascii.eqb Bool.eqb]; cbv iota;
    cbn [int_body]; cbv [digit_of]; cbn [nat_of_ascii];
    simpl Nat.leb; simpl andb; cbv iota;
    cbn [Nat.of_uint_acc]; rewrite <- int_digits_uint; f_equal.
Qed.

(** [int(str(n)) == n]: the default of the upper bound reads back as the
    row count. *)
Lemma py_int_str_of_nat (n : nat) : py_int (str_of_nat n) = Some (Z.of_nat n).
Proof.
  unfold str_of_nat.
  rewrite <- (DecimalNat.Unsigned.of_to n) at 2.
  destruct (Nat.to_uint n) eqn:E; try (apply py_int_uint; discriminate).
  reflexivity.
Qed.

Lemma truthy_str_of_nat (n : nat) : truthy (str_of_nat n) = true.
Proof.
  unfold str_of_nat. destruct (Nat.to_uint n); reflexivity.
Qed.

Lemma slice_bound_in_range (n : nat) (i : Z) :
  (0 <= i <= Z.of_nat n)%Z -> slice_bound n i = Z.to_nat i.
Proof.
  intros H. unfold slice_bound.
  destruct (Z.ltb_spec i 0); [lia|]. f_equal. lia.
Qed.

Lemma slice_bound_mono (n : nat) (a b : Z) :
  (0 <= b <= a)%Z -> (slice_bound n b <= slice_bound n a)%nat.
Proof.
  intros H. unfold slice_bound.
  destruct (Z.ltb_spec a 0), (Z.ltb_spec b 0); lia.
Qed.

Lemma py_slice_in_range {A} (a b : Z) (l : list A) :
  (0 <= a <= b)%Z -> (b <= Z.of_nat (length l))%Z ->
  py_slice a b l = firstn (Z.to_nat (b - a)) (skipn (Z.to_nat a) l).
Proof.
  intros H1 H2. unfold py_slice.
  rewrite !slice_bound_in_range by lia. f_equal. lia.
Qed.

Lemma py_slice_reversed {A} (a b : Z) (l : list A) :
  (0 <= b <= a)%Z -> py_slice a b l = [].
Proof.
  intros H. unfold py_slice.
  pose proof (slice_bound_mono (length l) H) as M.
  replace (slice_bound (length l) b - slice_bound (length l) a)%nat
    with 0%nat by lia.
  reflexivity.
Qed.

Lemma len_map_rows (f : forall A, list A -> list A) (df : DataFrame) :
  len (map_rows f df) = length (f _ (index df)).
Proof. reflexivity. Qed.

Lemma columns_map_rows (f : forall A, list A -> list A) (df : DataFrame) :
  columns (map_rows f df) = columns df.
Proof.
  unfold columns, map_rows; simpl. rewrite map_map. reflexivity.
Qed.

(* ====================================================================== *)
(** * The row filter *)
(* ====================================================================== *)

Section RowFilter.

Context {L : Library}.

(** C10. On an empty table (no rows, or no columns) the row filter
    returns the table itself in every mode and for every content of the
    entry widgets: nothing is parsed or validated, nothing is logged and
    the state is left as it was. *)
Theorem row_filter_empty_table (df : DataFrame) (app : App) :
  empty df = true ->
  _apply_row_filter df app = (Some df, app).
Proof.
  intros H. unfold _apply_row_filter. rewrite H. reflexivity.
Qed.

Ltac enter_mode Hne Hmode :=
  unfold _apply_row_filter, bind, gets, ret, log;
  rewrite Hne, Hmode; cbn [String.eqb Ascii.eqb Bool.eqb].

(** C2 (amended). On a non-empty table the index mode returns the
    positional slice [from, to) of the rows: with integer bounds
    0 <= from <= to <= len it has exactly to - from rows, the rows at the
    positions from, ..., to - 1 of every column; an omitted
    upper bound stands for the row count; a bound that is not an integer
    makes the filter log an error and return no table.  A lower bound
    above the upper bound is not an error: the slice is then empty. *)
Theorem index_range_filter (df : DataFrame) (app : App) :
  empty df = false ->
  row_filter_mode app = "index" ->
  (forall a b tb,
      py_int (_get_entry_value (index_from (row_filter_entries app)) "0")
      = Some a ->
      index_to (row_filter_entries app) = Some tb -> tb <> "" ->
      py_int tb = Some b ->
      _apply_row_filter df app = (Some (iloc_slice a b df), app))
  /\ (forall a b,
         (0 <= a <= b)%Z -> (b <= Z.of_nat (len df))%Z ->
         len (iloc_slice a b df) = Z.to_nat (b - a)
         /\ index (iloc_slice a b df)
            = firstn (Z.to_nat (b - a)) (skipn (Z.to_nat a) (index df))
         /\ (wf df ->
             data (iloc_slice a b df)
             = map (fun s =>
                      mkSeries (name s) (dtype s)
                        (firstn (Z.to_nat (b - a))
                                (skipn (Z.to_nat a) (values s))))
                   (data df)))
  /\ (forall a,
         py_int (_get_entry_value (index_from (row_filter_entries app)) "0")
         = Some a ->
         index_to (row_filter_entries app) = None
         \/ index_to (row_filter_entries app) = Some "" ->
         _apply_row_filter df app
         = (Some (iloc_slice a (Z.of_nat (len df)) df), app))
  /\ (py_int (_get_entry_value (index_from (row_filter_entries app)) "0")
      = None
      \/ (exists tb, index_to (row_filter_entries app) = Some tb
                     /\ tb <> "" /\ py_int tb = None) ->
      _apply_row_filter df app = (None, invalid_index_logged app))
  /\ (forall a b, (0 <= b <= a)%Z -> len (iloc_slice a b df) = 0%nat).
Proof.
  intros Hne Hmode.
  assert (Tr : forall tb, tb <> "" -> truthy tb = true).
  { intros tb Htb. unfold truthy.
    destruct (String.eqb_spec tb ""); [contradiction|reflexivity]. }
  assert (Ev : forall tb d, tb <> "" -> _get_entry_value (Some tb) d = tb).
  { intros tb d Htb. unfold _get_entry_value. now rewrite (Tr tb Htb). }
  repeat split.
  - intros a b tb Ha Hto Htb Hb. enter_mode Hne Hmode.
    rewrite Ha, Hto, (Ev tb _ Htb), (Tr tb Htb), Hb. reflexivity.
  - unfold iloc_slice. rewrite len_map_rows, py_slice_in_range by assumption.
    rewrite length_firstn, length_skipn. unfold len in *. lia.
  - unfold iloc_slice, map_rows; cbn [index].
    apply py_slice_in_range; assumption.
  - intros Hwf. unfold iloc_slice, map_rows; cbn [data].
    apply map_ext_in. intros s Hs. f_equal.
    apply py_slice_in_range; [assumption|].
    unfold wf in Hwf. rewrite Forall_forall in Hwf. now rewrite (Hwf s Hs).
  - intros a Ha Hto. enter_mode Hne Hmode. rewrite Ha.
    assert (E : _get_entry_value (index_to (row_filter_entries app))
                                 (str_of_nat (len df)) = str_of_nat (len df)).
    { destruct Hto as [-> | ->]; reflexivity. }
    rewrite E, truthy_str_of_nat, py_int_str_of_nat. reflexivity.
  - intros [Hf | (tb & Hto & Htb & Hb)]; enter_mode Hne Hmode.
    + rewrite Hf. reflexivity.
    + destruct (py_int (_get_entry_value _ "0")); [|reflexivity].
      rewrite Hto, (Ev tb _ Htb), (Tr tb Htb), Hb. reflexivity.
  - intros a b Hab. unfold iloc_slice.
    rewrite len_map_rows, py_slice_reversed by assumption. reflexivity.
Qed.

(** C1, the part that holds: a sample size of at least the row count
    returns the table itself, whatever the randomize flag is. *)
Lemma sample_whole_table (df : DataFrame) (app : App) (n : Z) :
  row_filter_mode app = "sample" ->
  py_int (_get_entry_value (sample_n (row_filter_entries app)) "100")
  = Some n ->
  (Z.of_nat (len df) <= n)%Z ->
  _apply_row_filter df app = (Some df, app).
Proof.
  intros Hmode Hn Hle.
  destruct (empty df) eqn:Hne;
    [unfold _apply_row_filter; now rewrite Hne|].
  enter_mode Hne Hmode. rewrite Hn.
  destruct (Z.leb_spec (Z.of_nat (len df)) n); [reflexivity|lia].
Qed.

(** The seeded branch: with the randomize box checked (or absent) the
    draw comes from a generator seeded with 42, and the state of the
    application, its global generator included, is left as it was. *)
Lemma sample_randomized_is_seeded (df : DataFrame) (app : App) (n : Z) :
  empty df = false ->
  row_filter_mode app = "sample" ->
  py_int (_get_entry_value (sample_n (row_filter_entries app)) "100")
  = Some n ->
  (0 <= n < Z.of_nat (len df))%Z ->
  _get_entry_bool (sample_random (row_filter_entries app)) true = true ->
  _apply_row_filter df app
  = (Some (iloc_take (fst (choice (seed_state 42) (len df) (Z.to_nat n))) df),
     app).
Proof.
  intros Hne Hmode Hn Hr Hb. enter_mode Hne Hmode. rewrite Hn, Hb.
  destruct (Z.leb_spec (Z.of_nat (len df)) n); [lia|].
  destruct (Z.ltb_spec n 0); [lia|]. reflexivity.
Qed.

(** C1, the part that fails: with the randomize box unchecked
    ([randomize=False]) the program passes [random_state=None], so the
    rows are drawn from the global generator in its current state, and
    that state advances; the fixed seed is not used on this branch. *)
Theorem sample_not_randomized_is_unseeded (df : DataFrame) (app : App)
  (n : Z) :
  empty df = false ->
  row_filter_mode app = "sample" ->
  py_int (_get_entry_value (sample_n (row_filter_entries app)) "100")
  = Some n ->
  (0 <= n < Z.of_nat (len df))%Z ->
  sample_random (row_filter_entries app) = Some false ->
  _apply_row_filter df app
  = (Some (iloc_take
             (fst (choice (np_random app) (len df) (Z.to_nat n))) df),
     with_random (snd (choice (np_random app) (len df) (Z.to_nat n))) app).
Proof.
  intros Hne Hmode Hn Hr Hb. enter_mode Hne Hmode. rewrite Hn, Hb.
  destruct (Z.leb_spec (Z.of_nat (len df)) n); [lia|].
  destruct (Z.ltb_spec n 0); [lia|].
  reflexivity.
Qed.

End RowFilter.

(* ====================================================================== *)
(** * The filter pipeline of the statistics tab *)
(* ====================================================================== *)

Lemma same_widgets_refl (a : App) : same_widgets a a.
Proof. exists (ui a), (np_random a). destruct a; reflexivity. Qed.

Lemma same_widgets_trans (a b c : App) :
  same_widgets a b -> same_widgets b c -> same_widgets a c.
Proof.
  intros (u & g & ->) (u' & g' & ->). exists u', g'.
  destruct a; reflexivity.
Qed.

Lemma same_widgets_ui (a : App) (u : list Event) :
  same_widgets a (with_ui u a).
Proof. exists u, (np_random a). destruct a; reflexivity. Qed.

Lemma same_widgets_random (a : App) (g : Z) :
  same_widgets a (with_random g a).
Proof. exists (ui a), g. destruct a; reflexivity. Qed.

Lemma same_widgets_dm (a b : App) : same_widgets a b -> dm b = dm a.
Proof. intros (u & g & ->). reflexivity. Qed.

Lemma same_widgets_vars (a b : App) :
  same_widgets a b -> stats_col_vars b = stats_col_vars a.
Proof. intros (u & g & ->). reflexivity. Qed.

Lemma same_widgets_id (a b : App) :
  same_widgets a b -> id_column_var b = id_column_var a.
Proof. intros (u & g & ->). reflexivity. Qed.

Create HintDb widgets.

#[local] Hint Resolve same_widgets_refl same_widgets_ui same_widgets_random
  : widgets.

Ltac split_cases :=
  repeat first
    [ progress cbv beta iota
    | match goal with
      | |- context [if ?x then _ else _] => destruct x eqn:?
      | |- context [match ?x with _ => _ end] => destruct x eqn:?
      end ].

Section Pipeline.

Context {L : Library}.

(** The row filter changes nothing but the log and the generator. *)
Lemma row_filter_same_widgets (df : DataFrame) (app : App) :
  same_widgets app (snd (_apply_row_filter df app)).
Proof.
  unfold _apply_row_filter, df_sample, bind, gets, ret, log.
  split_cases; cbn [snd]; auto with widgets;
    match goal with
    | H : _ = (_, _) |- _ => inversion H; subst; auto with widgets
    end.
Qed.

(** It reads neither the column selectors nor the registry. *)
Lemma row_filter_with_selected (df : DataFrame) (app : App)
  (l : list string) :
  _apply_row_filter df (with_selected l app)
  = (fst (_apply_row_filter df app),
     with_selected l (snd (_apply_row_filter df app))).
Proof.
  unfold _apply_row_filter.
  destruct (empty df); [reflexivity|].
  destruct app.
  unfold df_sample, bind, gets, ret, log, with_selected, with_ui, with_random.
  cbn.
  split_cases; reflexivity.
Qed.




Lemma take_mask_in {A} (f : nat -> bool) (l : list A) (k n : nat) (c : A) :
  In c (take_mask (map f (seq k n)) l) ->
  exists i, nth_error l i = Some c /\ f (k + i)%nat = true.
Proof.
  revert k n. induction l as [|x r IH]; intros k n H.
  - destruct n; simpl in H; contradiction.
  - destruct n as [|n]; simpl in H; [contradiction|].
    destruct (f k) eqn:Hk.
    + destruct H as [->|H].
      * exists 0%nat. rewrite Nat.add_0_r. auto.
      * destruct (IH _ _ H) as (i & Hi & Hf). exists (S i).
        rewrite Nat.add_succ_r. auto.
    + destruct (IH _ _ H) as (i & Hi & Hf). exists (S i).
      rewrite Nat.add_succ_r. auto.
Qed.

(** No null is left after [dropna]. *)
Lemma dropna_no_null (df : DataFrame) (s : Series) (c : Cell) :
  In s (data (dropna df)) -> In c (values s) -> is_null c = false.
Proof.
  unfold dropna, loc_mask, map_rows; cbn [data]. intros Hs Hc.
  apply in_map_iff in Hs. destruct Hs as (s0 & <- & Hs0). cbn [values] in Hc.
  apply take_mask_in in Hc. destruct Hc as (i & Hi & Hf). simpl in Hf.
  apply negb_true_iff in Hf. unfold row_has_null in Hf.
  destruct (is_null c) eqn:Hn; [|reflexivity].
  assert (existsb (fun s1 => match nth_error (values s1) i with
                             | Some c0 => is_null c0
                             | None => false
                             end) (data df) = true).
  { apply existsb_exists. exists s0. split; [assumption|]. now rewrite Hi. }
  congruence.
Qed.


End Pipeline.

(* ====================================================================== *)
(** * Descriptive statistics *)
(* ====================================================================== *)

(** ** The numeric reductions *)

Lemma fold_min_spec (r : list Q) (x : Q) :
  (fold_left Qmin r x = x \/ In (fold_left Qmin r x) r)
  /\ (fold_left Qmin r x <= x)%Q
  /\ (forall y, In y r -> (fold_left Qmin r x <= y)%Q).
Proof.
  revert x. induction r as [|y r IH]; intros x; simpl.
  - repeat split; [now left | apply Qle_refl | contradiction].
  - destruct (IH (Qmin x y)) as (H1 & H2 & H3).
    pose proof (Q.le_min_l x y) as Ml. pose proof (Q.le_min_r x y) as Mr.
    repeat split.
    + destruct H1 as [H1|H1]; [|now right; right].
      rewrite H1. unfold Qmin, GenericMinMax.gmin.
      destruct (x ?= y)%Q; auto.
    + eapply Qle_trans; eauto.
    + intros z [<-|Hz]; [eapply Qle_trans; eauto | auto].
Qed.

Lemma fold_max_spec (r : list Q) (x : Q) :
  (fold_left Qmax r x = x \/ In (fold_left Qmax r x) r)
  /\ (x <= fold_left Qmax r x)%Q
  /\ (forall y, In y r -> (y <= fold_left Qmax r x)%Q).
Proof.
  revert x. induction r as [|y r IH]; intros x; simpl.
  - repeat split; [now left | apply Qle_refl | contradiction].
  - destruct (IH (Qmax x y)) as (H1 & H2 & H3).
    pose proof (Q.le_max_l x y) as Ml. pose proof (Q.le_max_r x y) as Mr.
    repeat split.
    + destruct H1 as [H1|H1]; [|now right; right].
      rewrite H1. unfold Qmax, GenericMinMax.gmax.
      destruct (x ?= y)%Q; auto.
    + eapply Qle_trans; eauto.
    + intros z [<-|Hz]; [eapply Qle_trans; eauto | auto].
Qed.

(** [qmin] is an element of the column below all the others. *)
Lemma qmin_spec (l : list Q) :
  l <> [] -> In (qmin l) l /\ forall y, In y l -> (qmin l <= y)%Q.
Proof.
  destruct l as [|x r]; [congruence|]. intros _. unfold qmin.
  destruct (fold_min_spec r x) as (H1 & H2 & H3). split.
  - destruct H1 as [->|H1]; [now left | now right].
  - intros y [<-|Hy]; auto.
Qed.

Lemma qmax_spec (l : list Q) :
  l <> [] -> In (qmax l) l /\ forall y, In y l -> (y <= qmax l)%Q.
Proof.
  destruct l as [|x r]; [congruence|]. intros _. unfold qmax.
  destruct (fold_max_spec r x) as (H1 & H2 & H3). split.
  - destruct H1 as [->|H1]; [now left | now right].
  - intros y [<-|Hy]; auto.
Qed.

Lemma insert_asc_perm (x : Q) (l : list Q) :
  Permutation (insert_asc x l) (x :: l).
Proof.
  induction l as [|y r IH]; simpl; [reflexivity|].
  destruct (Qle_bool x y); [reflexivity|].
  rewrite IH. apply perm_swap.
Qed.

Lemma sort_asc_perm (l : list Q) : Permutation (sort_asc l) l.
Proof.
  induction l as [|x r IH]; simpl; [reflexivity|].
  unfold sort_asc in *. simpl. rewrite insert_asc_perm. now constructor.
Qed.

Lemma insert_asc_sorted (x : Q) (l : list Q) :
  StronglySorted Qle l -> StronglySorted Qle (insert_asc x l).
Proof.
  induction 1 as [|y r Hs IH Hy]; simpl.
  - repeat constructor.
  - destruct (Qle_bool x y) eqn:E.
    + apply Qle_bool_iff in E. constructor; [now constructor|].
      constructor; [assumption|].
      eapply Forall_impl; [|exact Hy]. intros z Hz. eapply Qle_trans; eauto.
    + assert (y <= x)%Q.
      { destruct (Qlt_le_dec y x) as [H|H]; [now apply Qlt_le_weak|].
        apply Qle_bool_iff in H. congruence. }
      constructor; [assumption|].
      eapply Permutation_Forall; [symmetry; apply insert_asc_perm|].
      now constructor.
Qed.

Lemma sort_asc_sorted (l : list Q) : StronglySorted Qle (sort_asc l).
Proof.
  induction l as [|x r IH]; simpl; [constructor|].
  now apply insert_asc_sorted.
Qed.

Lemma qlen_nonzero (l : list Q) : l <> [] -> ~ (qlen l == 0)%Q.
Proof.
  destruct l; [congruence|]. intros _. unfold qlen, Qeq. simpl. lia.
Qed.

Lemma qlen_minus_one_nonzero (l : list Q) :
  (2 <= length l)%nat -> ~ (qlen l - 1 == 0)%Q.
Proof.
  intros H. unfold qlen.
  replace (Z.of_nat (length l)) with (Z.of_nat (length l - 1) + 1)%Z by lia.
  rewrite inject_Z_plus. intros E.
  assert (E' : (inject_Z (Z.of_nat (length l - 1)) == 0)%Q).
  { rewrite <- E. change (inject_Z 1) with 1%Q. ring. }
  unfold Qeq in E'. simpl in E'. lia.
Qed.

Lemma dev_sum_power (k : positive) (l : list Q) :
  dev_sum k l = qsum (map (fun x => (x - mean l) ^ Zpos k)%Q l).
Proof. reflexivity. Qed.

(** The reductions of [describe] are the documented statistics. *)
Lemma describe_is_description (qs : list Q) :
  qs <> [] -> is_description qs (describe qs).
Proof.
  intros Hne.
  pose proof (qlen_nonzero Hne) as Hn.
  exists (mean qs), (median qs), (variance qs), (qmin qs), (qmax qs),
    (moment 2 qs), (moment 3 qs), (moment 4 qs).
  split; [unfold mean; field; exact Hn|].
  split; [exists (sort_asc qs); split; [apply sort_asc_perm|];
          split; [apply sort_asc_sorted|reflexivity]|].
  split.
  { destruct (le_lt_dec 2 (length qs)) as [H2|H2].
    - unfold variance. rewrite dev_sum_power. field.
      now apply qlen_minus_one_nonzero.
    - destruct qs as [|x [|y r]]; [congruence| |simpl in H2; lia].
      unfold variance, dev_sum, mean, qlen, qsum.
      cbn [length map fold_right Z.of_nat Pos.of_succ_nat].
      change (inject_Z 1) with 1%Q. transitivity 0%Q; [ring|].
      symmetry. change (Qpower_positive ?a 2) with (a ^ 2)%Q. field. }
  split; [apply qmin_spec; assumption|].
  split; [apply qmax_spec; assumption|].
  split; [unfold moment; rewrite dev_sum_power; field; exact Hn|].
  split; [unfold moment; rewrite dev_sum_power; field; exact Hn|].
  split; [unfold moment; rewrite dev_sum_power; field; exact Hn|].
  unfold describe, stat_mean, stat_median, stat_std, stat_min, stat_max,
    stat_skew, stat_kurtosis, kurtosis_value.
  destruct qs; [congruence|]. reflexivity.
Qed.

Lemma describe_all_rows (cols : list Series) :
  Forall (fun s => values s <> [] /\ cells_num (values s) <> None) cols ->
  exists rows,
    describe_all cols = Some rows
    /\ Forall2 (fun s row =>
                  fst row = name s
                  /\ exists qs, cells_num (values s) = Some qs
                                /\ is_description qs (snd row))
               cols rows.
Proof.
  induction 1 as [|s r (Hv & Hs) _ (rows & IH1 & IH2)]; simpl.
  - exists []. split; [reflexivity|constructor].
  - destruct (cells_num (values s)) as [qs|] eqn:E; [|congruence].
    rewrite IH1. eexists. split; [reflexivity|].
    constructor; [|assumption]. split; [reflexivity|].
    exists qs. split; [exact E|]. apply describe_is_description.
    destruct (values s); [congruence|]. simpl in E.
    destruct (cell_num c), (cells_num l); inversion E. discriminate.
Qed.

Lemma loc_set_fresh (label : string) (vals : list StatVal) (t : StatsTable) :
  ~ In label (map fst (stat_rows t)) ->
  loc_set label vals t = mkStats (stat_columns t)
                                 (stat_rows t ++ [(label, vals)]).
Proof.
  intros H. unfold loc_set.
  destruct (existsb (String.eqb label) (map fst (stat_rows t))) eqn:E;
    [|reflexivity].
  apply existsb_exists in E. destruct E as (x & Hx & Ex).
  apply String.eqb_eq in Ex. subst x. contradiction.
Qed.

Lemma last_default {A} (a d d' : A) (l : list A) :
  last (a :: l) d = last (a :: l) d'.
Proof.
  revert a. induction l as [|b r IH]; intros a; [reflexivity|].
  change (last (b :: r) d = last (b :: r) d'). apply IH.
Qed.

Lemma nth_last {A} (x d : A) (xs : list A) :
  nth (length xs) (x :: xs) d = last xs x.
Proof.
  revert x. induction xs as [|y r IH]; intros x; [reflexivity|].
  change (nth (length r) (y :: r) d = last (y :: r) x). rewrite (IH y).
  destruct r as [|z r]; [reflexivity|].
  change (last (z :: r) y = last (z :: r) x). apply last_default.
Qed.

Section StatisticsRun.

Context {L : Library}.

Lemma filtered_same_widgets (app : App) :
  same_widgets app (snd (_get_filtered_df_for_stats app)).
Proof.
  unfold _get_filtered_df_for_stats, bind, gets, ret. cbv beta iota.
  destruct (get_active_df (dm app)) as [df|]; [|apply same_widgets_refl].
  pose proof (row_filter_same_widgets df app) as Hw.
  destruct (_apply_row_filter df app) as [r app']. cbn [snd] in *.
  split_cases; exact Hw.
Qed.

Lemma filtered_with_selected (app : App) (l : list string) :
  _get_filtered_df_for_stats (with_selected l app)
  = (fst (_get_filtered_df_for_stats app),
     with_selected l (snd (_get_filtered_df_for_stats app))).
Proof.
  unfold _get_filtered_df_for_stats, bind, gets, ret. cbv beta iota.
  change (dm (with_selected l app)) with (dm app).
  destruct (get_active_df (dm app)) as [df|]; [|reflexivity].
  rewrite row_filter_with_selected.
  destruct (_apply_row_filter df app) as [r app']. cbn [fst snd].
  destruct r as [f|]; [|reflexivity].
  destruct (empty f); [reflexivity|]. cbv beta.
  change (stats_col_vars (with_selected l app')) with (stats_col_vars app').
  split_cases; reflexivity.
Qed.

(** The identifier column read by [_get_id_column]. *)
Lemma get_id_column_reads (a b : App) :
  id_column_var b = id_column_var a ->
  _get_id_column b = (fst (_get_id_column a), b).
Proof.
  intros H. unfold _get_id_column, bind, gets, ret. rewrite H.
  cbv beta iota. destruct (_ && _); reflexivity.
Qed.

(** The table shown by a run whose filtered dataset is [df]. *)
Lemma run_desc_stats_result (app : App) (df : DataFrame)
  (rows : list (string * list StatVal)) :
  fst (_get_filtered_df_for_stats app) = Some df ->
  empty df = false ->
  describe_all (data df) = Some rows ->
  fst (run_desc_stats app)
  = Some (match fst (_get_id_column app), get_active_df (dm app) with
          | Some c, Some active =>
              match get_column c active with
              | Some id_data => id_rows id_data (mkStats stat_names rows)
              | None => mkStats stat_names rows
              end
          | _, _ => mkStats stat_names rows
          end).
Proof.
  intros Hf He Hr.
  unfold run_desc_stats, bind at 1. unfold _update_selected_stats_cols.
  unfold bind at 1. rewrite filtered_with_selected, Hf.
  set (app1 := with_selected _ _).
  assert (Hid : id_column_var app1 = id_column_var app /\ dm app1 = dm app).
  { subst app1. destruct (filtered_same_widgets app) as (u & g & ->).
    split; reflexivity. }
  destruct Hid as (Hid & Hdm).
  unfold bind at 1. rewrite (get_id_column_reads app app1 Hid).
  rewrite He, Hr.
  unfold bind, gets, log, ret. cbv beta iota. rewrite Hdm.
  destruct (fst (_get_id_column app)) as [c|]; [|reflexivity].
  destruct (get_active_df (dm app)) as [active|]; [|reflexivity].
  destruct (get_column c active); reflexivity.
Qed.

End StatisticsRun.

Lemma describe_all_labels (cols : list Series)
  (rows : list (string * list StatVal)) :
  describe_all cols = Some rows -> map fst rows = map name cols.
Proof.
  revert rows. induction cols as [|s r IH]; simpl; intros rows H.
  - inversion H. reflexivity.
  - destruct (cells_num (values s)); [|discriminate].
    destruct (describe_all r) as [rs|]; [|discriminate].
    inversion H. simpl. f_equal. now apply IH.
Qed.

Lemma sqrt_5_2_bounds : (1.5811 < sqrt (Q2R (5 # 2)) < 1.5812)%R.
Proof.
  assert (E : Q2R (5 # 2) = 2.5%R) by (unfold Q2R; simpl; lra).
  rewrite E.
  split; apply Rsqr_incrst_0; try apply sqrt_pos; try lra;
    rewrite Rsqr_sqrt by lra; unfold Rsqr; lra.
Qed.

(** ** Distinct values *)

Lemma cell_eqb_refl (c : Cell) : is_null c = false -> cell_eqb c c = true.
Proof.
  destruct c as [z|q| |s|b]; cbn; intros H; try discriminate;
    try apply Qeq_bool_refl; try apply String.eqb_refl.
Qed.

Lemma Qeq_bool_sym (x y : Q) : Qeq_bool x y = Qeq_bool y x.
Proof.
  destruct (Qeq_bool x y) eqn:E1; destruct (Qeq_bool y x) eqn:E2;
    try reflexivity.
  - apply Qeq_bool_iff in E1. symmetry in E1. apply Qeq_bool_iff in E1.
    congruence.
  - apply Qeq_bool_iff in E2. symmetry in E2. apply Qeq_bool_iff in E2.
    congruence.
Qed.

Lemma cell_eqb_sym (a b : Cell) : cell_eqb a b = cell_eqb b a.
Proof.
  destruct a as [z|q| |s|x]; destruct b as [z'|q'| |s'|x']; cbn;
    try reflexivity; try apply Qeq_bool_sym; try apply String.eqb_sym.
Qed.

Lemma cell_eqb_plain (a b : Cell) :
  plain_cell a -> plain_cell b -> (cell_eqb a b = true <-> a = b).
Proof.
  intros [(s & ->)|(z & ->)] [(s' & ->)|(z' & ->)]; cbn.
  - rewrite String.eqb_eq. split; congruence.
  - split; discriminate.
  - split; discriminate.
  - rewrite Qeq_bool_iff. unfold Qeq. cbn. split; [|congruence].
    intros H. f_equal. lia.
Qed.

Lemma ForallOrdPairs_snoc {A} (R : A -> A -> Prop) (l : list A) (x : A) :
  ForallOrdPairs R l -> Forall (fun y => R y x) l ->
  ForallOrdPairs R (l ++ [x]).
Proof.
  induction 1 as [|y r Hy Hr IH]; intros Hx; cbn.
  - repeat constructor.
  - inversion Hx as [|? ? Hyx Hrx]; subst. constructor.
    + apply Forall_app. split; [exact Hy|]. now constructor.
    + now apply IH.
Qed.

Lemma distinct_spec (l seen : list Cell) :
  ForallOrdPairs (fun a b => cell_eqb a b = false) (rev seen) ->
  (forall c, In c (distinct seen l) ->
             In c seen \/ (In c l /\ is_null c = false))
  /\ (forall c, In c seen -> In c (distinct seen l))
  /\ (forall c, In c l -> is_null c = false ->
                exists c', In c' (distinct seen l) /\ cell_eqb c c' = true)
  /\ ForallOrdPairs (fun a b => cell_eqb a b = false) (distinct seen l).
Proof.
  revert seen. induction l as [|x r IH]; intros seen Hs; cbn [distinct].
  - split; [intros c Hc; left; now apply in_rev|].
    split; [intros c Hc; now apply in_rev in Hc|].
    split; [intros c []|exact Hs].
  - destruct (is_null x) eqn:Hn; cbn [orb].
    + destruct (IH seen Hs) as (P1 & P2 & P3 & P4).
      split; [|split; [exact P2|split; [|exact P4]]].
      * intros c Hc. destruct (P1 c Hc) as [H|(H & H')]; [now left|].
        right. split; [now right|exact H'].
      * intros c [<-|Hc] Hc'; [congruence|]. now apply P3.
    + destruct (existsb (cell_eqb x) seen) eqn:Ex.
      * destruct (IH seen Hs) as (P1 & P2 & P3 & P4).
        split; [|split; [exact P2|split; [|exact P4]]].
        -- intros c Hc. destruct (P1 c Hc) as [H|(H & H')]; [now left|].
           right. split; [now right|exact H'].
        -- intros c [<-|Hc] Hc'; [|now apply P3].
           apply existsb_exists in Ex. destruct Ex as (y & Hy & Hxy).
           exists y. split; [now apply P2|exact Hxy].
      * assert (Hs' : ForallOrdPairs (fun a b => cell_eqb a b = false)
                                     (rev (x :: seen))).
        { cbn [rev]. apply ForallOrdPairs_snoc; [exact Hs|].
          apply Forall_forall. intros y Hy. apply in_rev in Hy.
          rewrite cell_eqb_sym.
          destruct (cell_eqb x y) eqn:E; [|reflexivity].
          assert (existsb (cell_eqb x) seen = true)
            by (apply existsb_exists; eauto).
          congruence. }
        destruct (IH (x :: seen) Hs') as (P1 & P2 & P3 & P4).
        split; [|split; [|split; [|exact P4]]].
        -- intros c Hc. destruct (P1 c Hc) as [[<-|H]|(H & H')].
           ++ right. split; [now left|exact Hn].
           ++ now left.
           ++ right. split; [now right|exact H'].
        -- intros c Hc. apply P2. now right.
        -- intros c [<-|Hc] Hc'; [|now apply P3].
           exists x. split; [apply P2; now left|now apply cell_eqb_refl].
Qed.

(** [nunique] counts the distinct values of the column. *)
Lemma nunique_counts_distinct (s : Series) :
  exists d, distinct_values (values s) d /\ nunique s = length d.
Proof.
  exists (distinct [] (values s)). split; [|reflexivity].
  destruct (@distinct_spec (values s) []) as (P1 & _ & P3 & P4);
    [constructor|].
  split; [|split; [exact P3|exact P4]].
  intros c Hc. destruct (P1 c Hc) as [[]|H]. exact H.
Qed.

(** On texts and integers the distinct values are the values, without
    repetition. *)
Lemma distinct_values_plain (vals d : list Cell) :
  distinct_values vals d -> Forall plain_cell vals ->
  NoDup d /\ forall c, In c d <-> In c vals.
Proof.
  intros (D1 & D2 & D3) Hp. rewrite Forall_forall in Hp.
  assert (Hd : forall c, In c d -> plain_cell c)
    by (intros c Hc; apply Hp; now apply D1).
  assert (Hnn : forall c, plain_cell c -> is_null c = false)
    by (intros c [(s & ->)|(z & ->)]; reflexivity).
  split.
  - clear D1 D2. induction D3 as [|x r Hx Hr IH]; constructor.
    + intros Hin. rewrite Forall_forall in Hx.
      specialize (Hx x Hin).
      rewrite cell_eqb_refl in Hx by (apply Hnn, Hd; now left).
      discriminate.
    + apply IH. intros c Hc. apply Hd. now right.
  - intros c. split; [intros Hc; now apply D1|].
    intros Hc. destruct (D2 c Hc (Hnn c (Hp c Hc))) as (c' & Hc' & E).
    apply cell_eqb_plain in E; [now subst|now apply Hp|now apply Hd].
Qed.

Section StatisticsClaims.

Context {L : Library}.

(** C4 (amended). For a filtered dataset with at least one row whose
    columns hold numbers, the run shows a table with the seven columns
    mean, median, standard deviation, minimum, maximum, skewness and
    kurtosis, and one row per data column; the standard deviation has
    the N-1 denominator, and the kurtosis is the excess kurtosis
    [m4 / m2^2 - 3] of the central moments, without bias correction.
    On the column 1, 2, 3, 4, 5 the run reports mean 3, a standard
    deviation between 1.5811 and 1.5812, minimum 1 and maximum 5 (and
    kurtosis -1.3). *)
Theorem desc_stats_per_column (app : App) (df : DataFrame) :
  fst (_get_filtered_df_for_stats app) = Some df ->
  empty df = false ->
  Forall (fun s => values s <> [] /\ cells_num (values s) <> None)
         (data df) ->
  (exists rows t,
      Forall2 (fun s row =>
                 fst row = name s
                 /\ exists qs, cells_num (values s) = Some qs
                               /\ is_description qs (snd row))
              (data df) rows
      /\ fst (run_desc_stats app) = Some t
      /\ stat_columns t = stat_names
      /\ (t = mkStats stat_names rows
          \/ exists id_data, t = id_rows id_data (mkStats stat_names rows)))
  /\ (exists m md sd mn mx sk ku r,
         fst (run_desc_stats st_12345)
         = Some (mkStats stat_names
                   [("x", [SNum m; SNum md; sd; SNum mn; SNum mx; sk;
                           SNum ku])])
         /\ (m == 3)%Q /\ (mn == 1)%Q /\ (mx == 5)%Q
         /\ denote sd = Some r /\ (1.5811 < r < 1.5812)%R
         /\ (ku == - (13 # 10))%Q).
Proof.
  intros Hf He Hnum. split.
  - destruct (describe_all_rows Hnum) as (rows & Hr & H2).
    exists rows. eexists. split; [exact H2|].
    split; [apply (run_desc_stats_result app Hf He Hr)|].
    destruct (fst (_get_id_column app)) as [c|]; [|split; [reflexivity|now left]].
    destruct (get_active_df (dm app)) as [active|];
      [|split; [reflexivity|now left]].
    destruct (get_column c active) as [id_data|];
      [|split; [reflexivity|now left]].
    split; [|right; now exists id_data].
    unfold id_rows, loc_set. cbn [stat_columns].
    repeat match goal with
           | |- context [if ?b then _ else _] => destruct b
           end; reflexivity.
  - set (col := [1; 2; 3; 4; 5]%Q).
    exists (mean col), (median col), (stat_std col), (qmin col), (qmax col),
      (stat_skew col), (kurtosis_value col), (sqrt (Q2R (variance col))).
    split; [vm_compute; reflexivity|].
    split; [vm_compute; reflexivity|].
    split; [vm_compute; reflexivity|].
    split; [vm_compute; reflexivity|].
    split; [reflexivity|].
    split; [|vm_compute; reflexivity].
    assert (E : (variance col == 5 # 2)%Q) by (vm_compute; reflexivity).
    rewrite (Qeq_eqR _ _ E). apply sqrt_5_2_bounds.
Qed.

(** An identifier that names no column of the active table adds no
    row. *)
Lemma desc_stats_id_absent (app : App) (df active : DataFrame)
  (rows : list (string * list StatVal)) (c : string) :
  fst (_get_filtered_df_for_stats app) = Some df ->
  empty df = false ->
  describe_all (data df) = Some rows ->
  fst (_get_id_column app) = Some c ->
  get_active_df (dm app) = Some active ->
  get_column c active = None ->
  fst (run_desc_stats app) = Some (mkStats stat_names rows).
Proof.
  intros Hf He Hr Hc Ha Hg.
  now rewrite (run_desc_stats_result app Hf He Hr), Hc, Ha, Hg.
Qed.

(** C3 (amended). When the run shows a table and the identifier column
    is a column of the active table, three rows are added after the rows
    of the data columns (none of which bears one of the three labels):
    the number of distinct values of the identifier column (the length
    of a list that holds each non-null value of the column once; for
    texts and integers, a list without repetition that has the members
    of the column), the text of its first value and the text of its
    last value, each repeated in all seven columns.  The three values
    are taken from the whole column of the active table, not from the
    rows that remain after the filters. *)
Theorem desc_stats_id_rows (app : App) (df active : DataFrame)
  (rows : list (string * list StatVal)) (c : string) (id_data : Series)
  (x : Cell) (xs : list Cell) :
  fst (_get_filtered_df_for_stats app) = Some df ->
  empty df = false ->
  describe_all (data df) = Some rows ->
  fst (_get_id_column app) = Some c ->
  get_active_df (dm app) = Some active ->
  get_column c active = Some id_data ->
  values id_data = x :: xs ->
  ~ In "ID_Únicos" (columns df) ->
  ~ In "ID_Primeiro" (columns df) ->
  ~ In "ID_Último" (columns df) ->
  exists d,
    distinct_values (x :: xs) d
    /\ (Forall plain_cell (x :: xs) ->
        NoDup d /\ forall v, In v d <-> In v (x :: xs))
    /\ fst (run_desc_stats app)
       = Some (mkStats stat_names
                 (rows ++
                  [("ID_Únicos", repeat (SCount (length d)) 7);
                   ("ID_Primeiro", repeat (SStr (py_str x)) 7);
                   ("ID_Último", repeat (SStr (py_str (last xs x))) 7)])).
Proof.
  intros Hf He Hr Hc Ha Hg Hv F1 F2 F3.
  destruct (nunique_counts_distinct id_data) as (d & Hd & Hnu).
  rewrite Hv in Hd. exists d. split; [exact Hd|].
  split; [now apply distinct_values_plain|]. rewrite <- Hnu.
  rewrite (run_desc_stats_result app Hf He Hr), Hc, Ha, Hg.
  pose proof (describe_all_labels _ Hr) as Hl. fold (columns df) in Hl.
  assert (E1 : (0 <? length (x :: xs))%nat = true) by reflexivity.
  assert (E2 : nth 0 (x :: xs) CNaN = x) by reflexivity.
  assert (E3 : nth (length (x :: xs) - 1) (x :: xs) CNaN = last xs x).
  { cbn [length]. rewrite Nat.sub_succ, Nat.sub_0_r. apply nth_last. }
  unfold id_rows. cbv zeta. rewrite Hv, E1, E2, E3. cbn [stat_columns].
  change (length stat_names) with 7%nat.
  rewrite (@loc_set_fresh "ID_Únicos") by (cbn [stat_rows]; now rewrite Hl).
  rewrite (@loc_set_fresh "ID_Primeiro").
  2:{ cbn [stat_rows]. rewrite map_app, in_app_iff, Hl.
      intros [H|[H|[]]]; [contradiction|discriminate]. }
  rewrite (@loc_set_fresh "ID_Último").
  2:{ cbn [stat_rows]. rewrite !map_app, !in_app_iff, Hl.
      intros [[H|[H|[]]]|[H|[]]]; [contradiction|discriminate..]. }
  cbn [stat_rows stat_columns]. rewrite <- !app_assoc. reflexivity.
Qed.

End StatisticsClaims.

(* ====================================================================== *)
(** * Rating *)
(* ====================================================================== *)

(** ** Rounding *)






(** ** Min-max scaling *)




(** ** The weighted sum *)







(** ** The descending order *)

Section Order.

Variable key : nat -> Q.

Lemma insert_desc_perm (i : nat) (l : list nat) :
  Permutation (insert_desc key i l) (i :: l).
Proof.
  induction l as [|j r IH]; simpl; [reflexivity|].
  destruct (Qle_bool (key j) (key i)); [reflexivity|].
  rewrite IH. apply perm_swap.
Qed.

Lemma insert_desc_sorted (i : nat) (l : list nat) :
  StronglySorted (fun a b => (key b <= key a)%Q) l ->
  StronglySorted (fun a b => (key b <= key a)%Q) (insert_desc key i l).
Proof.
  induction 1 as [|j r Hs IH Hj]; simpl.
  - repeat constructor.
  - destruct (Qle_bool (key j) (key i)) eqn:E.
    + apply Qle_bool_iff in E. constructor; [now constructor|].
      constructor; [exact E|].
      eapply Forall_impl; [|exact Hj]. cbv beta. intros z Hz.
      eapply Qle_trans; eauto.
    + assert (key i <= key j)%Q.
      { destruct (Qlt_le_dec (key i) (key j)) as [H|H];
          [now apply Qlt_le_weak|].
        apply Qle_bool_iff in H. congruence. }
      constructor; [assumption|].
      eapply Permutation_Forall; [symmetry; apply insert_desc_perm|].
      now constructor.
Qed.

Lemma sort_desc_perm (l : list nat) :
  Permutation (fold_right (insert_desc key) [] l) l.
Proof.
  induction l as [|x r IH]; simpl; [reflexivity|].
  rewrite insert_desc_perm. now constructor.
Qed.

Lemma sort_desc_sorted (l : list nat) :
  StronglySorted (fun a b => (key b <= key a)%Q)
                 (fold_right (insert_desc key) [] l).
Proof.
  induction l as [|x r IH]; simpl; [constructor|].
  now apply insert_desc_sorted.
Qed.

End Order.

Lemma argsort_desc_perm (keys : list Q) :
  Permutation (argsort_desc keys) (seq 0 (length keys)).
Proof. apply sort_desc_perm. Qed.

Lemma take_pos_map {A} (pos : list nat) (l : list A) (d : A) :
  Forall (fun i => (i < length l)%nat) pos ->
  take_pos pos l = map (fun i => nth i l d) pos.
Proof.
  induction 1 as [|i r Hi _ IH]; simpl; [reflexivity|].
  destruct (nth_error l i) eqn:E.
  - rewrite (nth_error_nth _ _ d E), IH. reflexivity.
  - apply nth_error_None in E. lia.
Qed.

Lemma map_nth_seq {A} (l : list A) (d : A) :
  map (fun i => nth i l d) (seq 0 (length l)) = l.
Proof.
  induction l as [|x r IH]; simpl; [reflexivity|].
  rewrite <- seq_shift, map_map. simpl. now rewrite IH.
Qed.

(** The scores taken in the order of [argsort_desc] are the scores,
    permuted and in descending order. *)
Lemma argsort_desc_scores (scores : list Q) :
  let sorted := map (fun i => nth i scores 0%Q) (argsort_desc scores) in
  Permutation sorted scores
  /\ StronglySorted (fun a b => (b <= a)%Q) sorted.
Proof.
  cbv zeta. split.
  - rewrite <- (map_nth_seq scores 0%Q) at 2.
    apply Permutation_map, argsort_desc_perm.
  - unfold argsort_desc.
    pose proof (sort_desc_sorted (fun i => nth i scores 0%Q)
                                 (seq 0 (length scores))) as H.
    induction H as [|i r Hs IH Hi]; simpl; constructor; auto.
    rewrite Forall_map. eapply Forall_impl; [|exact Hi]. auto.
Qed.

(** ** Frames *)

Lemma dict_get_set {V} (k : string) (v : V) (d : list (string * V)) :
  dict_get k (dict_set k v d) = Some v.
Proof.
  induction d as [|[k' v'] r IH]; simpl.
  - now rewrite String.eqb_refl.
  - destruct (String.eqb k' k) eqn:E; simpl.
    + now rewrite String.eqb_refl.
    + now rewrite E.
Qed.

Lemma dict_set_key {V} (k : string) (v : V) (d : list (string * V)) :
  In k (dict_keys (dict_set k v d)).
Proof.
  induction d as [|[k' v'] r IH]; simpl; [now left|].
  destruct (String.eqb k' k); simpl; auto.
Qed.

Lemma dict_keys_set {V} (k : string) (v : V) (d : list (string * V))
  (x : string) :
  In x (dict_keys (dict_set k v d)) <-> x = k \/ In x (dict_keys d).
Proof.
  induction d as [|[k' v'] r IH]; simpl.
  - intuition congruence.
  - destruct (String.eqb_spec k' k) as [->|E]; simpl.
    + intuition congruence.
    + rewrite IH. intuition congruence.
Qed.

Lemma dict_get_in {V} (k : string) (d : list (string * V)) :
  In k (dict_keys d) <-> exists v, dict_get k d = Some v.
Proof.
  induction d as [|[k' v'] r IH]; simpl.
  - split; [contradiction|intros (v & H); discriminate].
  - destruct (String.eqb_spec k' k) as [->|E].
    + split; eauto.
    + rewrite <- IH. intuition congruence.
Qed.

Lemma dict_get_set_other {V} (k k' : string) (v : V)
  (d : list (string * V)) :
  k' <> k -> dict_get k' (dict_set k v d) = dict_get k' d.
Proof.
  intros Hk. induction d as [|[k0 v0] r IH]; simpl.
  - destruct (String.eqb_spec k k'); [congruence|reflexivity].
  - destruct (String.eqb_spec k0 k) as [->|E]; simpl.
    + destruct (String.eqb_spec k k'); [congruence|reflexivity].
    + destruct (String.eqb_spec k0 k'); [reflexivity|apply IH].
Qed.

Lemma dict_set_fresh {V} (k : string) (v : V) (d : list (string * V)) :
  ~ In k (dict_keys d) -> dict_set k v d = d ++ [(k, v)].
Proof.
  induction d as [|[k' v'] r IH]; simpl; intros H; [reflexivity|].
  destruct (String.eqb_spec k' k) as [->|E]; [tauto|].
  rewrite IH by tauto. reflexivity.
Qed.

Lemma dict_set_present_keys {V} (k : string) (v : V)
  (d : list (string * V)) :
  In k (dict_keys d) -> dict_keys (dict_set k v d) = dict_keys d.
Proof.
  induction d as [|[k' v'] r IH]; simpl; intros H; [contradiction|].
  destruct (String.eqb_spec k' k) as [->|E]; simpl; [reflexivity|].
  rewrite IH; [reflexivity|]. destruct H; [contradiction|assumption].
Qed.

Lemma truthy_nonempty (s : string) : truthy s = true <-> s <> "".
Proof.
  unfold truthy. destruct (String.eqb_spec s ""); cbn [negb]; split;
    intros; try congruence; try discriminate.
Qed.

(** The invariant of [add_table]: the new table is in the registry and
    is the active one. *)
Lemma add_table_active (nm : string) (df : DataFrame) (m : DataManager) :
  truthy nm = true ->
  active_table (add_table nm df m) = Some nm
  /\ In nm (dict_keys (tables (add_table nm df m)))
  /\ dict_get nm (tables (add_table nm df m)) = Some df
  /\ get_active_df (add_table nm df m) = Some df.
Proof.
  intros H. unfold get_active_df, add_table. cbn [active_table tables].
  rewrite H, dict_get_set. auto using dict_set_key.
Qed.

Lemma add_table_registered (nm : string) (df : DataFrame)
  (m : DataManager) :
  truthy nm = true -> registered_as nm df m (add_table nm df m).
Proof.
  intros H. destruct (add_table_active nm df m H) as (A1 & A2 & A3 & A4).
  unfold registered_as. repeat (split; [assumption|]).
  unfold add_table. cbn [tables]. split.
  - intros k Hk. now apply dict_get_set_other.
  - destruct (existsb (String.eqb nm) (dict_keys (tables m))) eqn:E.
    + apply dict_set_present_keys. apply existsb_exists in E.
      destruct E as (x & Hx & E). apply String.eqb_eq in E. now subst.
    + rewrite dict_set_fresh.
      * unfold dict_keys. now rewrite map_app.
      * intros Hin.
        assert (existsb (String.eqb nm) (dict_keys (tables m)) = true).
        { apply existsb_exists. exists nm. split; [exact Hin|].
          apply String.eqb_refl. }
        congruence.
Qed.


Lemma find_set_column (s : Series) (l : list Series) :
  find (fun x => String.eqb (name x) (name s)) (set_column s l) = Some s.
Proof.
  induction l as [|x r IH]; simpl.
  - now rewrite String.eqb_refl.
  - destruct (String.eqb (name x) (name s)) eqn:E; simpl.
    + now rewrite String.eqb_refl.
    + now rewrite E.
Qed.

Lemma get_column_map_rows (f : forall A, list A -> list A) (c : string)
  (df : DataFrame) :
  get_column c (map_rows f df)
  = option_map (fun s => mkSeries (name s) (dtype s) (f _ (values s)))
               (get_column c df).
Proof.
  unfold get_column, map_rows. cbn [data].
  induction (data df) as [|x r IH]; simpl; [reflexivity|].
  destruct (String.eqb (name x) c); [reflexivity|apply IH].
Qed.











(** The scores of a run that succeeds. *)
Lemma rating_scores_ok (selected : list string) (df : DataFrame)
  (subset : list Series) (qcols : list (list Q)) :
  (0 < len df)%nat ->
  get_columns selected df = Some subset ->
  filled_columns subset = Some qcols ->
  rating_scores selected df
  = inr (map round2
           (dot (len df) (map minmax_scale qcols) (weights (length selected)))).
Proof.
  intros Hn Hs Hq. unfold rating_scores. rewrite Hs, Hq.
  destruct (Nat.eqb_spec (len df) 0); [lia|reflexivity].
Qed.


Lemma rating_result_scores (scores : list Q) (df : DataFrame) :
  length scores = len df ->
  exists sc,
    get_column "Score_Rating" (rating_result scores df) = Some sc
    /\ values sc
       = map CFloat (map (fun i => nth i scores 0%Q) (argsort_desc scores)).
Proof.
  intros Hl. unfold rating_result, iloc_take.
  rewrite get_column_map_rows. unfold get_column. cbn [data].
  pose proof (find_set_column (score_series scores) (data df)) as F.
  cbn [name score_series] in F. rewrite F.
  eexists. split; [reflexivity|]. cbn [values option_map score_series].
  rewrite (@take_pos_map _ _ _ (CFloat 0%Q)).
  - rewrite map_map. apply map_ext. intros i. now rewrite map_nth.
  - rewrite length_map.
    eapply Permutation_Forall; [symmetry; apply argsort_desc_perm|].
    apply Forall_forall. intros i Hi. apply in_seq in Hi. lia.
Qed.

Lemma rating_thread_ok (app : App) (df : DataFrame) (now : string)
  (scores : list Q) :
  get_active_df (dm app) = Some df ->
  selected_of (rating_vars app) <> [] ->
  rating_scores (selected_of (rating_vars app)) df = inr scores ->
  snd (calculate_rating_thread now app)
  = with_dm (add_table ("Rating_" ++ now) (rating_result scores df) (dm app))
            (with_ui (ui app ++ [Log "Rating calculado com sucesso." SUCCESS])
                     app).
Proof.
  intros Ha Hs Hr.
  unfold calculate_rating_thread, bind, gets, log. cbv beta iota.
  rewrite Ha. cbv beta iota. fold (selected_of (rating_vars app)).
  destruct (selected_of (rating_vars app)) eqn:E; [congruence|].
  rewrite Hr. reflexivity.
Qed.

(** On a table without rows the scaler raises: the error is logged and
    the registry is left as it was. *)
Lemma rating_without_rows (app : App) (df : DataFrame) (now : string) :
  get_active_df (dm app) = Some df ->
  len df = 0%nat ->
  dm (snd (calculate_rating_thread now app)) = dm app.
Proof.
  intros Ha Hn.
  unfold calculate_rating_thread, bind, gets, log, messagebox.
  cbv beta iota. rewrite Ha. cbv beta iota.
  destruct (map fst _) as [|c r]; [reflexivity|].
  unfold rating_scores. rewrite Hn. cbn [Nat.eqb].
  destruct (get_columns (c :: r) df); [|reflexivity].
  destruct (filled_columns l); reflexivity.
Qed.




(* ====================================================================== *)
(** * Join and SQL commands, and the registry *)
(* ====================================================================== *)

Lemma truthy_append (p s : string) :
  truthy p = true -> truthy (p ++ s) = true.
Proof. destruct p; [discriminate|reflexivity]. Qed.

Section CommandClaims.

Context {L : Library}.

Ltac open_join :=
  unfold run_join, bind, gets, ret, log, messagebox; cbv beta iota.

Lemma run_join_ok (app : App) (now : string) (df1 df2 res : DataFrame) :
  truthy (join_left app) = true -> truthy (join_right app) = true ->
  dict_get (join_left app) (tables (dm app)) = Some df1 ->
  dict_get (join_right app) (tables (dm app)) = Some df2 ->
  pd_merge df1 df2 (join_key_a app) (join_key_b app) (join_type app)
  = inr res ->
  let nm := ("Join_" ++ join_left app ++ "_" ++ join_right app ++ "_"
             ++ now)%string in
  snd (run_join now app)
  = with_ui (ui app ++ [Log ("Join realizado: " ++ nm) SUCCESS])
            (with_dm (add_table nm res (dm app)) app).
Proof.
  intros T1 T2 H1 H2 Hm nm.
  unfold run_join, bind, gets, log, ret. cbv beta iota.
  rewrite T1, T2. cbn [negb orb]. cbv beta iota.
  rewrite H1, H2, Hm. reflexivity.
Qed.

Lemma run_join_failed (app : App) (now : string) (df1 df2 : DataFrame)
  (msg : string) :
  truthy (join_left app) = true -> truthy (join_right app) = true ->
  dict_get (join_left app) (tables (dm app)) = Some df1 ->
  dict_get (join_right app) (tables (dm app)) = Some df2 ->
  pd_merge df1 df2 (join_key_a app) (join_key_b app) (join_type app)
  = inl msg ->
  snd (run_join now app)
  = with_ui (ui app ++ [Log ("Erro no Join: " ++ msg) ERROR]) app.
Proof.
  intros T1 T2 H1 H2 Hm.
  unfold run_join, bind, gets, log, ret. cbv beta iota.
  rewrite T1, T2. cbn [negb orb]. cbv beta iota.
  rewrite H1, H2, Hm. reflexivity.
Qed.

Lemma run_sql_ok (app : App) (now : string) (df res : DataFrame) :
  get_active_df (dm app) = Some df ->
  read_sql df (sql_entry app) = inr res ->
  snd (run_sql now app)
  = with_ui (ui app ++ [Status ("Sucesso! " ++ str_of_nat (len res)
                                ++ " linhas.");
                        Log "Query SQL executada." SUCCESS])
            (with_dm (add_table ("SQL_" ++ now) res (dm app)) app).
Proof.
  intros Ha Hq. unfold run_sql, bind, gets, log, ret. cbv beta iota.
  rewrite Ha. cbv beta iota. rewrite Hq. cbv beta iota.
  unfold with_ui, with_dm. cbn. rewrite <- app_assoc. reflexivity.
Qed.

Lemma run_sql_failed (app : App) (now : string) (df : DataFrame)
  (msg : string) :
  get_active_df (dm app) = Some df ->
  read_sql df (sql_entry app) = inl msg ->
  snd (run_sql now app)
  = with_ui (ui app ++ [Status ("Erro: " ++ msg);
                        Log ("SQL Error: " ++ msg) ERROR]) app.
Proof.
  intros Ha Hq. unfold run_sql, bind, gets, log, ret. cbv beta iota.
  rewrite Ha. cbv beta iota. rewrite Hq. cbv beta iota.
  unfold with_ui. cbn. rewrite <- app_assoc. reflexivity.
Qed.

(** C8. A join or a query whose evaluation raises (a missing key, a
    syntax error, a missing alias, a type mismatch: any exception of
    [pd.merge] or of the SQL evaluator) leaves the registry as it was,
    tables and active table alike, and reports the message of the
    exception in the log (and, for a query, in the status label); the
    command returns normally.  More generally a join or a query either
    leaves the registry untouched or adds the complete result. *)
Theorem failed_command_keeps_registry (app : App) (now : string) :
  (forall df1 df2 msg,
      truthy (join_left app) = true -> truthy (join_right app) = true ->
      dict_get (join_left app) (tables (dm app)) = Some df1 ->
      dict_get (join_right app) (tables (dm app)) = Some df2 ->
      pd_merge df1 df2 (join_key_a app) (join_key_b app) (join_type app)
      = inl msg ->
      dm (snd (run_join now app)) = dm app
      /\ ui (snd (run_join now app))
         = ui app ++ [Log ("Erro no Join: " ++ msg) ERROR])
  /\ (forall df msg,
         get_active_df (dm app) = Some df ->
         read_sql df (sql_entry app) = inl msg ->
         dm (snd (run_sql now app)) = dm app
         /\ ui (snd (run_sql now app))
            = ui app ++ [Status ("Erro: " ++ msg);
                         Log ("SQL Error: " ++ msg) ERROR])
  /\ (dm (snd (run_join now app)) = dm app
      \/ exists df1 df2 res nm,
           pd_merge df1 df2 (join_key_a app) (join_key_b app)
                    (join_type app) = inr res
           /\ dm (snd (run_join now app)) = add_table nm res (dm app))
  /\ (dm (snd (run_sql now app)) = dm app
      \/ exists df res,
           read_sql df (sql_entry app) = inr res
           /\ dm (snd (run_sql now app))
              = add_table ("SQL_" ++ now) res (dm app)).
Proof.
  split; [|split; [|split]].
  - intros df1 df2 msg T1 T2 H1 H2 Hm.
    rewrite (@run_join_failed app now df1 df2 msg T1 T2 H1 H2 Hm).
    split; reflexivity.
  - intros df msg Ha Hq.
    rewrite (@run_sql_failed app now df msg Ha Hq). split; reflexivity.
  - destruct (truthy (join_left app)) eqn:T1;
      [|left; open_join; rewrite T1; reflexivity].
    destruct (truthy (join_right app)) eqn:T2;
      [|left; open_join; rewrite T1, T2; reflexivity].
    destruct (dict_get (join_left app) (tables (dm app))) as [df1|] eqn:H1;
      [|left; open_join; rewrite T1, T2; cbn [negb orb]; cbv beta iota;
        rewrite H1; reflexivity].
    destruct (dict_get (join_right app) (tables (dm app))) as [df2|] eqn:H2;
      [|left; open_join; rewrite T1, T2; cbn [negb orb]; cbv beta iota;
        rewrite H1, H2; reflexivity].
    destruct (pd_merge df1 df2 (join_key_a app) (join_key_b app)
                       (join_type app)) as [msg|res] eqn:Hm.
    + left. now rewrite (@run_join_failed app now df1 df2 msg T1 T2 H1 H2 Hm).
    + right. exists df1, df2, res. eexists. split; [exact Hm|].
      now rewrite (@run_join_ok app now df1 df2 res T1 T2 H1 H2 Hm).
  - destruct (get_active_df (dm app)) as [df|] eqn:Ha;
      [|left; unfold run_sql, bind, gets, log; cbv beta iota;
        rewrite Ha; reflexivity].
    destruct (read_sql df (sql_entry app)) as [msg|res] eqn:Hq.
    + left. now rewrite (@run_sql_failed app now df msg Ha Hq).
    + right. exists df, res. split; [exact Hq|].
      now rewrite (@run_sql_ok app now df res Ha Hq).
Qed.

(** C9 (amended). A rating, a join or a query that succeeds puts its
    result into the registry under a name generated from the operation
    and the time of day, and makes it the active table: afterwards the
    active-table reference is a key of the registry and [get_active_df]
    returns the result.  The name is not checked against the registry:
    a table that already bears it is replaced and the list of names
    stays as it was, otherwise the name is added at the end; the tables
    of all other names are kept. *)
Theorem derived_table_becomes_active (app : App) (now : string) :
  (forall df scores,
      get_active_df (dm app) = Some df ->
      selected_of (rating_vars app) <> [] ->
      rating_scores (selected_of (rating_vars app)) df = inr scores ->
      let m := dm (snd (calculate_rating_thread now app)) in
      m = add_table ("Rating_" ++ now) (rating_result scores df) (dm app)
      /\ registered_as ("Rating_" ++ now) (rating_result scores df)
                       (dm app) m)
  /\ (forall df1 df2 res,
         truthy (join_left app) = true -> truthy (join_right app) = true ->
         dict_get (join_left app) (tables (dm app)) = Some df1 ->
         dict_get (join_right app) (tables (dm app)) = Some df2 ->
         pd_merge df1 df2 (join_key_a app) (join_key_b app) (join_type app)
         = inr res ->
         let nm := ("Join_" ++ join_left app ++ "_" ++ join_right app
                    ++ "_" ++ now)%string in
         let m := dm (snd (run_join now app)) in
         m = add_table nm res (dm app)
         /\ registered_as nm res (dm app) m)
  /\ (forall df res,
         get_active_df (dm app) = Some df ->
         read_sql df (sql_entry app) = inr res ->
         let m := dm (snd (run_sql now app)) in
         m = add_table ("SQL_" ++ now) res (dm app)
         /\ registered_as ("SQL_" ++ now) res (dm app) m).
Proof.
  split; [|split].
  - intros df scores Ha Hs Hr m. subst m.
    rewrite (@rating_thread_ok app df now scores Ha Hs Hr).
    cbn [dm with_dm with_ui].
    split; [reflexivity|]. now apply add_table_registered.
  - intros df1 df2 res T1 T2 H1 H2 Hm nm m. subst m.
    rewrite (@run_join_ok app now df1 df2 res T1 T2 H1 H2 Hm).
    cbn [dm with_dm with_ui]. fold nm.
    split; [reflexivity|]. now apply add_table_registered.
  - intros df res Ha Hq m. subst m.
    rewrite (@run_sql_ok app now df res Ha Hq).
    cbn [dm with_dm with_ui].
    split; [reflexivity|]. now apply add_table_registered.
Qed.

End CommandClaims.

(* ====================================================================== *)
(** * The registry over a session *)
(* ====================================================================== *)

Lemma registry_step_refl (m : DataManager) : registry_step m m.
Proof. left. auto. Qed.

Lemma registry_step_ok (m m' : DataManager) :
  registry_step m m' -> registry_ok m ->
  registry_ok m'
  /\ incl (dict_keys (tables m)) (dict_keys (tables m'))
  /\ (active_table m <> None -> active_table m' <> None).
Proof.
  intros [(Ht & Ha) | (nm & df & Hn & ->)] (Hact & Hne).
  - split; [split|split].
    + rewrite Ht. destruct Ha as [-> | (k & Hk & ->)]; assumption.
    + now rewrite Ht.
    + rewrite Ht. apply incl_refl.
    + destruct Ha as [-> | (k & Hk & ->)]; [auto|discriminate].
  - unfold add_table. cbn [tables active_table]. split; [split|split].
    + apply dict_keys_set. now left.
    + intros E. apply dict_keys_set in E. destruct E as [E|E];
        [|contradiction].
      apply truthy_nonempty in Hn. congruence.
    + intros x Hx. apply dict_keys_set. now right.
    + discriminate.
Qed.

Section SessionSteps.

Context {L : Library} {T : Text} {F : Files}.

Lemma update_row_count_same_widgets (a : App) :
  same_widgets a (snd (_update_row_count_label a)).
Proof.
  unfold _update_row_count_label, bind, gets, ret. cbv beta iota.
  destruct (get_active_df (dm a)) as [df|]; [|apply same_widgets_refl].
  pose proof (row_filter_same_widgets df a) as H.
  destruct (_apply_row_filter df a) as [[f|] a']; exact H.
Qed.

Lemma toggle_keeps_dm (a : App) : dm (snd (_toggle_row_filter_ui a)) = dm a.
Proof.
  unfold _toggle_row_filter_ui, bind. cbv beta iota.
  set (a1 := with_entries _ a).
  pose proof (update_row_count_same_widgets a1) as H.
  destruct (_update_row_count_label a1) as [t a2]. cbn [snd] in *.
  now rewrite (same_widgets_dm H).
Qed.

Lemma refresh_row_filter_keeps_dm (a : App) :
  dm (snd (refresh_row_filter a)) = dm a.
Proof.
  unfold refresh_row_filter, bind.
  pose proof (toggle_keeps_dm a) as H.
  destruct (_toggle_row_filter_ui a) as [t a1]. cbn [snd] in H.
  pose proof (update_row_count_same_widgets a1) as H1.
  destruct (_update_row_count_label a1) as [t2 a2]. cbn [snd] in *.
  now rewrite (same_widgets_dm H1).
Qed.

Lemma refresh_stats_columns_keeps_dm (a : App) :
  dm (snd (refresh_stats_columns a)) = dm a.
Proof.
  unfold refresh_stats_columns, _update_selected_stats_cols.
  destruct (get_active_df (dm a)); [|reflexivity].
  destruct (columns (select_number d)); reflexivity.
Qed.

Lemma refresh_id_keeps_dm (a : App) :
  dm (snd (refresh_id_column_selector a)) = dm a.
Proof.
  unfold refresh_id_column_selector.
  destruct (get_active_df (dm a)); [|reflexivity].
  destruct (filter _ _); reflexivity.
Qed.

Lemma save_data_keeps_dm (path size : string) (a : App) :
  dm (snd (save_data path size a)) = dm a.
Proof.
  unfold save_data, bind, gets, log, messagebox, ret. cbv beta iota.
  split_cases; reflexivity.
Qed.

Lemma save_dataframe_keeps_dm (df : DataFrame) (path : string) (a : App) :
  dm (snd (_save_dataframe df path a)) = dm a.
Proof.
  unfold _save_dataframe, bind, gets, log, ret. cbv beta iota.
  split_cases; reflexivity.
Qed.

Lemma on_table_select_step (lines : list string) (sel : list nat)
  (a : App) :
  registry_step (dm a) (dm (snd (on_table_select lines sel a))).
Proof.
  unfold on_table_select. destruct sel as [|i _]; [apply registry_step_refl|].
  unfold bind at 1. cbv beta.
  set (p := fun table_name : string => _).
  destruct (find p (dict_keys (tables (dm a)))) as [k|] eqn:E.
  - unfold bind at 1.
    set (a1 := with_dm _ a).
    pose proof (refresh_stats_columns_keeps_dm a1) as H1.
    destruct (refresh_stats_columns a1) as [u a2]. cbn [snd] in H1.
    unfold bind at 1.
    pose proof (refresh_row_filter_keeps_dm a2) as H2.
    destruct (refresh_row_filter a2) as [t a3]. cbn [snd] in *.
    pose proof (refresh_id_keeps_dm a3) as H3. unfold bind, ret.
    destruct (refresh_id_column_selector a3) as [c a4]. cbn [snd] in *.
    rewrite H3.
    rewrite H2, H1. subst a1. cbn [dm with_dm].
    left. cbn [tables active_table]. split; [reflexivity|].
    right. exists k. split; [|reflexivity].
    apply find_some in E. tauto.
  - unfold bind at 1.
    pose proof (refresh_stats_columns_keeps_dm a) as H1.
    destruct (refresh_stats_columns a) as [u a2]. cbn [snd] in H1.
    unfold bind at 1.
    pose proof (refresh_row_filter_keeps_dm a2) as H2.
    destruct (refresh_row_filter a2) as [t a3]. cbn [snd] in *.
    pose proof (refresh_id_keeps_dm a3) as H3. unfold bind, ret.
    destruct (refresh_id_column_selector a3) as [c a4]. cbn [snd] in *.
    rewrite H3.
    rewrite H2, H1. apply registry_step_refl.
Qed.

Lemma load_file_step (path : string) (sheet_name : option string)
  (now : string) (m : DataManager) (fs : list (string * SheetInfo)) :
  registry_step m (fst (snd (load_file path sheet_name now m fs))).
Proof.
  unfold load_file.
  assert (Tn : forall a b, truthy (a ++ "_" ++ b) = true)
    by (intros a b; destruct a; reflexivity).
  destruct (endswith path ".csv").
  - destruct (read_csv path); [apply registry_step_refl|].
    right. eexists. eexists. split; [apply Tn|reflexivity].
  - destruct (excel_sheet_names path) as [e|sn]; [apply registry_step_refl|].
    destruct sheet_name as [s|]; [|destruct sn as [|s sn']];
      try apply registry_step_refl;
      (destruct (read_excel path s); [apply registry_step_refl|];
       right; eexists; eexists; split; [|reflexivity];
       destruct (_ <? _)%nat; apply Tn).
Qed.

Lemma rating_step (now : string) (a : App) :
  registry_step (dm a) (dm (snd (calculate_rating_thread now a))).
Proof.
  unfold calculate_rating_thread, bind, gets, log, messagebox.
  cbv beta iota.
  destruct (get_active_df (dm a)); [|apply registry_step_refl].
  destruct (map fst _); [apply registry_step_refl|].
  destruct (rating_scores _ _); [apply registry_step_refl|].
  right. eexists. eexists. split; [|reflexivity]. reflexivity.
Qed.

Lemma join_step (now : string) (a : App) :
  registry_step (dm a) (dm (snd (run_join now a))).
Proof.
  destruct (truthy (join_left a)) eqn:T1;
    [|unfold run_join, bind, gets, messagebox; cbv beta iota;
      rewrite T1; apply registry_step_refl].
  destruct (truthy (join_right a)) eqn:T2;
    [|unfold run_join, bind, gets, messagebox; cbv beta iota;
      rewrite T1, T2; apply registry_step_refl].
  destruct (dict_get (join_left a) (tables (dm a))) as [df1|] eqn:H1;
    [|unfold run_join, bind, gets, ret; cbv beta iota;
      rewrite T1, T2; cbn [negb orb]; cbv beta iota; rewrite H1;
      apply registry_step_refl].
  destruct (dict_get (join_right a) (tables (dm a))) as [df2|] eqn:H2;
    [|unfold run_join, bind, gets, ret; cbv beta iota;
      rewrite T1, T2; cbn [negb orb]; cbv beta iota; rewrite H1, H2;
      apply registry_step_refl].
  destruct (pd_merge df1 df2 (join_key_a a) (join_key_b a) (join_type a))
    as [msg|res] eqn:Hm.
  - rewrite (@run_join_failed _ a now df1 df2 msg T1 T2 H1 H2 Hm).
    apply registry_step_refl.
  - rewrite (@run_join_ok _ a now df1 df2 res T1 T2 H1 H2 Hm).
    right. eexists. eexists. split; [|reflexivity]. reflexivity.
Qed.

Lemma sql_step (now : string) (a : App) :
  registry_step (dm a) (dm (snd (run_sql now a))).
Proof.
  destruct (get_active_df (dm a)) as [df|] eqn:Ha;
    [|unfold run_sql, bind, gets, log; cbv beta iota; rewrite Ha;
      apply registry_step_refl].
  destruct (read_sql df (sql_entry a)) as [msg|res] eqn:Hq.
  - rewrite (@run_sql_failed _ a now df msg Ha Hq). apply registry_step_refl.
  - rewrite (@run_sql_ok _ a now df res Ha Hq).
    right. eexists. eexists. split; [|reflexivity]. reflexivity.
Qed.

Lemma desc_stats_keeps_dm (a : App) : dm (snd (run_desc_stats a)) = dm a.
Proof.
  unfold run_desc_stats, bind at 1. unfold _update_selected_stats_cols.
  unfold bind at 1. rewrite filtered_with_selected.
  pose proof (filtered_same_widgets a) as (u & g & E).
  destruct (_get_filtered_df_for_stats a) as [r a1]. cbn [fst snd] in *.
  subst a1. unfold bind at 1.
  rewrite (get_id_column_reads a) by reflexivity.
  unfold bind, gets, log, ret, messagebox. cbv beta iota.
  split_cases; reflexivity.
Qed.

Lemma outliers_iqr_keeps_dm (a : App) :
  dm (snd (run_outliers_iqr a)) = dm a.
Proof.
  unfold run_outliers_iqr, bind at 1. unfold _update_selected_stats_cols.
  unfold bind at 1. rewrite filtered_with_selected.
  pose proof (filtered_same_widgets a) as (u & g & E).
  destruct (_get_filtered_df_for_stats a) as [r a1]. cbn [fst snd] in *.
  subst a1. unfold bind at 1.
  rewrite (get_id_column_reads a) by reflexivity.
  unfold bind, gets, log, ret. cbv beta iota.
  split_cases; reflexivity.
Qed.

Lemma after_import_keeps_dm (a : App) : dm (snd (after_import a)) = dm a.
Proof.
  unfold after_import, bind at 1.
  assert (E0 : dm (snd (update_engine_combos a)) = dm a).
  { unfold update_engine_combos. destruct (dict_keys _); reflexivity. }
  destruct (update_engine_combos a) as [u0 a1]. cbn [snd] in E0.
  unfold bind at 1.
  pose proof (refresh_stats_columns_keeps_dm a1) as E1.
  destruct (refresh_stats_columns a1) as [u1 a2]. cbn [snd] in E1.
  unfold bind at 1.
  pose proof (refresh_row_filter_keeps_dm a2) as E2.
  destruct (refresh_row_filter a2) as [u2 a3]. cbn [snd] in E2.
  pose proof (refresh_id_keeps_dm a3) as E3. unfold bind, ret.
  destruct (refresh_id_column_selector a3) as [u3 a4]. cbn [snd] in *.
  congruence.
Qed.

Lemma finish_import_dm (ok_text : string -> string)
  (r : (bool * string * list string)
       * (DataManager * list (string * SheetInfo)))
  (a : App) :
  dm (fst (finish_import ok_text r a)) = fst (snd r).
Proof.
  unfold finish_import. destruct (fst (fst (fst r))); cbn [fst].
  - unfold bind at 1, log. cbv beta iota. rewrite after_import_keeps_dm.
    reflexivity.
  - reflexivity.
Qed.

Lemma load_file_thread_step (path : string) (act : DialogAction)
  (now : string) (a : App) (fs : list (string * SheetInfo)) :
  registry_step (dm a) (dm (fst (load_file_thread path act now (a, fs)))).
Proof.
  unfold load_file_thread, _show_sheet_selector.
  destruct (negb (truthy path)); [apply registry_step_refl|].
  destruct (endswith path ".csv");
    [rewrite finish_import_dm; apply load_file_step|].
  destruct (excel_sheet_names path) as [e|sn]; [apply registry_step_refl|].
  destruct (1 <? length sn)%nat;
    [|rewrite finish_import_dm; apply load_file_step].
  destruct (sheet_dialog_result sn act) as [r|]; [|apply registry_step_refl].
  destruct (truthy r); [|apply registry_step_refl].
  rewrite finish_import_dm. apply load_file_step.
Qed.

Lemma exec_step (c : Command) (s : Session) :
  registry_step (dm (fst s)) (dm (fst (exec c s))).
Proof.
  destruct s as [a fs]. destruct c; cbn [exec fst].
  - pose proof (load_file_step path sheet_name now (dm a) fs) as H.
    destruct (snd (load_file path sheet_name now (dm a) fs)) as [m fs'].
    exact H.
  - apply load_file_thread_step.
  - apply on_table_select_step.
  - rewrite refresh_stats_columns_keeps_dm. apply registry_step_refl.
  - apply registry_step_refl.
  - unfold refresh_rating_cols. destruct (get_active_df (dm a));
      apply registry_step_refl.
  - rewrite refresh_id_keeps_dm. apply registry_step_refl.
  - apply registry_step_refl.
  - rewrite refresh_row_filter_keeps_dm. apply registry_step_refl.
  - unfold choose_row_filter_mode, bind at 1. cbv beta.
    rewrite toggle_keeps_dm. apply registry_step_refl.
  - rewrite desc_stats_keeps_dm. apply registry_step_refl.
  - rewrite outliers_iqr_keeps_dm. apply registry_step_refl.
  - apply rating_step.
  - unfold update_engine_combos.
    destruct (dict_keys (tables (dm a))); apply registry_step_refl.
  - apply join_step.
  - apply sql_step.
  - rewrite save_data_keeps_dm. apply registry_step_refl.
  - rewrite save_dataframe_keeps_dm. apply registry_step_refl.
  - apply registry_step_refl.
Qed.

(** X1. The registry stays sound over every session: whatever the user does
    (loading files, selecting tables, filtering, statistics, rating,
    joins, queries, editing widgets), the active table is one of the
    registered tables, no registered name disappears, and once a table
    is active some table stays active. *)
Theorem registry_sound_over_session (cmds : list Command) (s : Session) :
  registry_ok (dm (fst s)) ->
  registry_ok (dm (fst (run cmds s)))
  /\ incl (dict_keys (tables (dm (fst s))))
          (dict_keys (tables (dm (fst (run cmds s)))))
  /\ (active_table (dm (fst s)) <> None ->
      exists df, get_active_df (dm (fst (run cmds s))) = Some df).
Proof.
  revert s. induction cmds as [|c r IH]; intros s Hok.
  - cbn [run fold_left]. split; [exact Hok|]. split; [apply incl_refl|].
    intros Ha. destruct Hok as (Hact & Hne). unfold get_active_df.
    destruct (active_table (dm (fst s))) as [k|]; [|congruence].
    assert (Hk : truthy k = true)
      by (apply truthy_nonempty; intros ->; contradiction).
    rewrite Hk. now apply dict_get_in.
  - change (run (c :: r) s) with (run r (exec c s)).
    destruct (registry_step_ok (exec_step c s) Hok) as (Hok' & Hi & Ha).
    destruct (IH _ Hok') as (H1 & H2 & H3).
    split; [exact H1|]. split; [eapply incl_tran; eauto|]. auto.
Qed.

End SessionSteps.

(* ====================================================================== *)
(** * The table list *)
(* ====================================================================== *)

Lemma prefix_app (a s : string) : String.prefix a (a ++ s) = true.
Proof.
  induction a as [|c a IH]; simpl; [now destruct s|].
  destruct (Ascii.ascii_dec c c); [exact IH|congruence].
Qed.

Lemma py_in_prefix (a b : string) :
  String.prefix a b = true -> py_in a b = true.
Proof. intros H. destruct b; cbn [py_in]; rewrite H; reflexivity. Qed.

Lemma py_in_here (a s : string) : py_in a (a ++ s) = true.
Proof. apply py_in_prefix. apply prefix_app. Qed.

Lemma py_in_app (a p s : string) : py_in a (p ++ a ++ s) = true.
Proof.
  induction p as [|c p IH]; [cbn [append]; apply py_in_here|].
  cbn [append py_in]. rewrite IH. apply orb_true_r.
Qed.

Lemma append_empty_r (a : string) : (a ++ "")%string = a.
Proof. induction a; simpl; congruence. Qed.

Lemma py_in_refl (a : string) : py_in a a = true.
Proof.
  pose proof (py_in_here a "") as H. now rewrite append_empty_r in H.
Qed.

Lemma remove_all_keeps (c0 : ascii) (old s : string) :
  Forall (fun c => c <> c0) (list_ascii_of_string s) ->
  remove_all (String c0 old) 0 s = s.
Proof.
  induction s as [|c r IH]; intros H; [reflexivity|].
  cbn [list_ascii_of_string] in H. inversion H as [|? ? Hc Hr]; subst.
  cbn [remove_all String.prefix].
  destruct (Ascii.ascii_dec c0 c); [congruence|].
  now rewrite IH.
Qed.

Lemma remove_all_skip (old o s : string) :
  remove_all old (String.length o) (o ++ s) = remove_all old 0 s.
Proof. induction o as [|c o IH]; [reflexivity|exact IH]. Qed.

Lemma remove_all_head (c : ascii) (o s : string) :
  remove_all (String c o) 0 (String c o ++ s) = remove_all (String c o) 0 s.
Proof.
  cbn [append]. cbn [remove_all].
  rewrite (prefix_app (String c o) s : String.prefix (String c o)
                                         (String c (o ++ s)) = true).
  cbn [String.length Nat.sub]. rewrite Nat.sub_0_r. apply remove_all_skip.
Qed.

Lemma entry_name_book (nm : string) :
  no_icon_byte nm -> entry_name (icon_book ++ " " ++ nm) = nm.
Proof.
  intros H. unfold entry_name.
  change (icon_book ++ " " ++ nm)%string
    with ((icon_book ++ " ") ++ nm)%string.
  change (icon_book ++ " ")%string
    with (String "240" (String "159" (String "147" (String "145" " ")))).
  rewrite remove_all_head.
  rewrite (@remove_all_keeps "240" _ nm H).
  exact (@remove_all_keeps "240" _ nm H).
Qed.

Lemma entry_name_page (nm : string) :
  no_icon_byte nm -> entry_name (icon_page ++ " " ++ nm) = nm.
Proof.
  intros H. unfold entry_name.
  change (icon_page ++ " " ++ nm)%string
    with (String "240" (String "159" (String "147"
            (String "132" (String " " nm))))).
  change (icon_book ++ " ")%string
    with (String "240" (String "159" (String "147" (String "145" " ")))).
  change (remove_all ?o 0 (String "240" ?r))
    with (if String.prefix o (String "240" r)
          then remove_all o (String.length o - 1) r
          else String "240" (remove_all o 0 r)).
  replace (String.prefix
             (String "240" (String "159" (String "147" (String "145" " "))))
             (String "240" (String "159" (String "147"
                (String "132" (String " " nm))))))
    with false by reflexivity.
  rewrite remove_all_keeps.
  - change (String "240" (String "159" (String "147"
              (String "132" (String " " nm)))))
      with ((icon_page ++ " ") ++ nm)%string.
    change (icon_page ++ " ")%string
      with (String "240" (String "159" (String "147" (String "132" " ")))).
    rewrite remove_all_head. exact (@remove_all_keeps "240" _ nm H).
  - cbn [list_ascii_of_string].
    repeat (constructor; [discriminate|]). exact H.
Qed.

Lemma nth_table_list_entries (fs : list (string * SheetInfo))
  (m : DataManager) (i : nat) (k : string) :
  nth_error (dict_keys (tables m)) i = Some k ->
  no_icon_byte k ->
  entry_name (nth i (table_list_entries fs m) "") = k.
Proof.
  intros Hi Hk. unfold table_list_entries.
  erewrite nth_error_nth; [|rewrite nth_error_map, Hi; reflexivity].
  cbv beta zeta. destruct (_ <? _)%nat;
    [now apply entry_name_book|now apply entry_name_page].
Qed.

Section TableList.

Context {L : Library} {T : Text}.

Lemma on_table_select_dm (lines : list string) (i : nat) (rest : list nat)
  (a : App) :
  dm (snd (on_table_select lines (i :: rest) a))
  = match find (fun table_name =>
                  py_in (entry_name (nth i lines "")) table_name
                  || py_in table_name (entry_name (nth i lines "")))
               (dict_keys (tables (dm a))) with
    | Some k => mkDM (tables (dm a)) (Some k)
    | None => dm a
    end.
Proof.
  unfold on_table_select. unfold bind at 1. cbv beta.
  set (p := fun table_name : string => _).
  assert (R : forall a1, dm (snd ((refresh_stats_columns ;;
                  refresh_row_filter ;; refresh_id_column_selector ;;
                  ret tt) a1)) = dm a1).
  { intros a1. unfold bind at 1.
    pose proof (refresh_stats_columns_keeps_dm a1) as H1.
    destruct (refresh_stats_columns a1) as [u a2]. cbn [snd] in H1.
    unfold bind at 1.
    pose proof (refresh_row_filter_keeps_dm a2) as H2.
    destruct (refresh_row_filter a2) as [t a3]. cbn [snd] in *.
    pose proof (refresh_id_keeps_dm a3) as H3. unfold bind, ret.
    destruct (refresh_id_column_selector a3) as [c a4]. cbn [snd] in *.
    congruence. }
  destruct (find p (dict_keys (tables (dm a)))) as [k|]; rewrite R;
    reflexivity.
Qed.

Lemma find_first {A} (p : A -> bool) (l : list A) (i : nat) (x : A) :
  nth_error l i = Some x -> p x = true ->
  (forall y, In y (firstn i l) -> p y = false) ->
  find p l = Some x.
Proof.
  revert i. induction l as [|y r IH]; intros [|i] Hi Hx Hb;
    try discriminate.
  - cbn in Hi. injection Hi as ->. cbn. now rewrite Hx.
  - cbn in Hi. cbn [find]. rewrite (Hb y) by (now left).
    apply (IH i Hi Hx). intros z Hz. apply Hb. now right.
Qed.

Lemma find_app_in {A} (p : A -> bool) (l1 l2 : list A) (x : A) :
  In x l1 -> p x = true ->
  exists y, find p (l1 ++ l2) = Some y /\ In y l1.
Proof.
  induction l1 as [|z r IH]; intros Hin Hx; [contradiction|].
  cbn [app find]. destruct (p z) eqn:E.
  - exists z. split; [reflexivity|now left].
  - destruct Hin as [->|Hin]; [congruence|].
    destruct (IH Hin Hx) as (y & Hy & Hi). exists y. split; [exact Hy|].
    now right.
Qed.

(** X2. A line of the table list selects its own table when the names are
    unrelated: if no earlier name of the registry contains the name of
    line [i] or is contained in it (and the name holds no icon), then
    selecting line [i] of the refreshed list makes that table the
    active one. *)
Theorem select_line_activates_its_table (fs : list (string * SheetInfo))
  (a : App) (i : nat) (k : string) :
  nth_error (dict_keys (tables (dm a))) i = Some k ->
  no_icon_byte k ->
  (forall k', In k' (firstn i (dict_keys (tables (dm a)))) ->
              py_in k k' = false /\ py_in k' k = false) ->
  dm (snd (on_table_select (table_list_entries fs (dm a)) [i] a))
  = mkDM (tables (dm a)) (Some k).
Proof.
  intros Hi Hk Hb. rewrite on_table_select_dm.
  rewrite (nth_table_list_entries fs (dm a) i Hi Hk).
  erewrite find_first; [reflexivity|exact Hi| |].
  - cbv beta. now rewrite py_in_refl.
  - intros y Hy. cbv beta. destruct (Hb y Hy) as (-> & ->). reflexivity.
Qed.

(** X3. The result of a join cannot be selected from the table list: its
    name contains the name of the left table, and the selection takes
    the first registered name that contains the selected name or is
    contained in it.  After a successful join under a new name, selecting
    the line of the join result makes an older table the active one. *)
Theorem join_result_not_selectable (fs : list (string * SheetInfo))
  (a : App) (now : string) (df1 df2 res : DataFrame) :
  truthy (join_left a) = true -> truthy (join_right a) = true ->
  dict_get (join_left a) (tables (dm a)) = Some df1 ->
  dict_get (join_right a) (tables (dm a)) = Some df2 ->
  pd_merge df1 df2 (join_key_a a) (join_key_b a) (join_type a) = inr res ->
  let nm := ("Join_" ++ join_left a ++ "_" ++ join_right a ++ "_"
             ++ now)%string in
  ~ In nm (dict_keys (tables (dm a))) ->
  no_icon_byte nm ->
  let a1 := snd (run_join now a) in
  let i := length (tables (dm a)) in
  nth_error (dict_keys (tables (dm a1))) i = Some nm
  /\ active_table (dm a1) = Some nm
  /\ exists k,
       active_table
         (dm (snd (on_table_select (table_list_entries fs (dm a1)) [i] a1)))
       = Some k
       /\ k <> nm /\ In k (dict_keys (tables (dm a))).
Proof.
  intros T1 T2 H1 H2 Hm nm Hfresh Hicon a1 i.
  assert (E1 : dm a1 = mkDM (tables (dm a) ++ [(nm, res)]) (Some nm)).
  { subst a1. rewrite (@run_join_ok _ a now df1 df2 res T1 T2 H1 H2 Hm).
    cbn [dm with_ui with_dm]. unfold add_table.
    fold nm. now rewrite dict_set_fresh. }
  assert (Hi : nth_error (dict_keys (tables (dm a1))) i = Some nm).
  { rewrite E1. cbn [tables]. unfold dict_keys. rewrite map_app.
    rewrite nth_error_app2 by (rewrite length_map; subst i; lia).
    rewrite length_map. subst i. now rewrite Nat.sub_diag. }
  split; [exact Hi|]. split; [now rewrite E1|].
  rewrite on_table_select_dm.
  rewrite (nth_table_list_entries fs (dm a1) i Hi Hicon).
  rewrite E1. cbn [tables]. unfold dict_keys at 1. rewrite map_app.
  assert (Hin : In (join_left a) (dict_keys (tables (dm a))))
    by (apply dict_get_in; eauto).
  destruct (@find_app_in _ (fun table_name =>
              py_in nm table_name || py_in table_name nm)
              (map fst (tables (dm a))) (map fst [(nm, res)])
              (join_left a) Hin) as (k & Hk & Hki).
  { cbv beta. subst nm. rewrite (py_in_app (join_left a) "Join_").
    apply orb_true_r. }
  rewrite Hk. cbn [active_table]. exists k. split; [reflexivity|].
  split; [|exact Hki]. intros ->. contradiction.
Qed.

End TableList.

(* ====================================================================== *)
(** * Reading and writing files *)
(* ====================================================================== *)

Lemma dict_set_twice {V} (k : string) (v w : V) (d : list (string * V)) :
  dict_set k w (dict_set k v d) = dict_set k w d.
Proof.
  induction d as [|[k' v'] r IH]; simpl.
  - now rewrite String.eqb_refl.
  - destruct (String.eqb k' k) eqn:E; simpl.
    + now rewrite String.eqb_refl.
    + now rewrite E, IH.
Qed.

Lemma add_table_twice (nm : string) (df1 df2 : DataFrame)
  (m : DataManager) :
  add_table nm df2 (add_table nm df1 m) = add_table nm df2 m.
Proof. unfold add_table. cbn [tables]. now rewrite dict_set_twice. Qed.

Lemma dict_set_length {V} (k : string) (v : V) (d : list (string * V)) :
  length (dict_set k v d)
  = if existsb (String.eqb k) (dict_keys d) then length d
    else S (length d).
Proof.
  induction d as [|[k' v'] r IH]; simpl; [reflexivity|].
  rewrite (String.eqb_sym k k').
  destruct (String.eqb k' k); simpl; [reflexivity|].
  rewrite IH. now destruct (existsb _ _).
Qed.

Section FileTheorems.

Context {F : Files}.

(** X4. A failed import commits nothing: whenever [load_file] reports a
    failure, the registry and the sheet records are exactly what they
    were, and no sheet names are returned. *)
Theorem load_file_failure_commits_nothing (path : string)
  (sheet_name : option string) (now : string) (m : DataManager)
  (fs : list (string * SheetInfo)) :
  fst (fst (fst (load_file path sheet_name now m fs))) = false ->
  snd (load_file path sheet_name now m fs) = (m, fs)
  /\ snd (fst (load_file path sheet_name now m fs)) = [].
Proof.
  unfold load_file. intros H.
  destruct (endswith path ".csv").
  - destruct (read_csv path); [auto|discriminate].
  - destruct (excel_sheet_names path) as [e|sn]; [auto|].
    destruct sheet_name as [s|]; [|destruct sn as [|s sn']]; auto;
      (destruct (read_excel path s); [auto|discriminate]).
Qed.


(** X6. Two files of the same base name read within the same second share
    one table name: after both CSV imports succeed, the registry is what
    the second import alone would have produced, so the first table is
    gone. *)
Theorem load_file_same_second_overwrites (p1 p2 now : string)
  (m : DataManager) (fs : list (string * SheetInfo))
  (df1 df2 : DataFrame) :
  endswith p1 ".csv" = true -> endswith p2 ".csv" = true ->
  basename p1 = basename p2 ->
  read_csv p1 = inr df1 -> read_csv p2 = inr df2 ->
  let s1 := snd (load_file p1 None now m fs) in
  snd (load_file p2 None now (fst s1) (snd s1))
  = snd (load_file p2 None now m fs)
  /\ length (tables (fst (snd (load_file p2 None now (fst s1) (snd s1)))))
     = length (tables (fst s1)).
Proof.
  intros E1 E2 Hb R1 R2. unfold load_file.
  rewrite E1, E2, R1, R2. cbn [fst snd tables]. rewrite Hb.
  rewrite dict_set_twice. split; [reflexivity|].
  rewrite !dict_set_length. reflexivity.
Qed.

(** X7. The two export paths dispatch differently.  For a path with none of
    the endings [.csv], [.xlsx], [.json], the export of a result table
    hands the table to no writer and still logs success, while the
    export of the active table writes it (as Parquet for [.parquet], as
    CSV otherwise). *)
Theorem export_unknown_extension (df adf : DataFrame)
  (path size : string) (a : App) :
  truthy path = true ->
  endswith path ".csv" = false -> endswith path ".xlsx" = false ->
  endswith path ".json" = false ->
  get_active_df (dm a) = Some adf ->
  _save_dataframe df path a
  = (None,
     with_ui (ui a ++ [Log ("Resultados salvos: " ++ basename path) SUCCESS])
             a)
  /\ fst (fst (save_data path size a))
     = Some (if endswith path ".parquet" then "parquet" else "csv").
Proof.
  intros Hp E1 E2 E3 Ha. split.
  - unfold _save_dataframe. rewrite Hp, E1, E2, E3. reflexivity.
  - unfold save_data, bind, gets, log, messagebox, ret. cbv beta iota.
    rewrite Ha, Hp, E1, E2, E3. cbn [negb].
    destruct (endswith path ".parquet");
      destruct (write_file _ adf path); reflexivity.
Qed.

End FileTheorems.

(* ====================================================================== *)
(** * The row filter keeps rows whole *)
(* ====================================================================== *)

Lemma positional_take_pos (pos : list nat) :
  positional (fun A => @take_pos A pos).
Proof.
  intros n. induction pos as [|p r IH]; intros j.
  - exists n. intros A l Hl. cbn. destruct j; cbn; symmetry;
      apply nth_error_None; lia.
  - destruct (Nat.ltb_spec p n) as [Hp|Hp].
    + destruct j as [|j].
      * exists p. intros A l Hl. cbn [take_pos].
        destruct (nth_error l p) eqn:E; [reflexivity|].
        apply nth_error_None in E. lia.
      * destruct (IH j) as (i & Hi). exists i. intros A l Hl.
        cbn [take_pos]. destruct (nth_error l p) eqn:E.
        -- cbn. now apply Hi.
        -- apply nth_error_None in E. lia.
    + destruct (IH j) as (i & Hi). exists i. intros A l Hl.
      cbn [take_pos]. destruct (nth_error l p) eqn:E.
      * assert (p < length l)%nat by (apply nth_error_Some; congruence).
        lia.
      * now apply Hi.
Qed.

Lemma positional_take_mask (mask : list bool) :
  positional (fun A => @take_mask A mask).
Proof.
  induction mask as [|m ms IH]; intros n j.
  - exists n. intros A l Hl. cbn. destruct j; cbn; symmetry;
      apply nth_error_None; lia.
  - destruct n as [|n].
    + exists 0%nat. intros A l Hl. destruct l; [|discriminate].
      cbn. now destruct j.
    + destruct m.
      * destruct j as [|j].
        -- exists 0%nat. intros A l Hl. destruct l; [discriminate|].
           reflexivity.
        -- destruct (IH n j) as (i & Hi). exists (S i). intros A l Hl.
           destruct l as [|x xs]; [discriminate|]. cbn.
           apply Hi. cbn in Hl. lia.
      * destruct (IH n j) as (i & Hi). exists (S i). intros A l Hl.
        destruct l as [|x xs]; [discriminate|]. cbn.
        apply Hi. cbn in Hl. lia.
Qed.

Lemma positional_py_slice (a b : Z) :
  positional (fun A => @py_slice A a b).
Proof.
  intros n j.
  exists (if (j <? slice_bound n b - slice_bound n a)%nat
          then (slice_bound n a + j)%nat else n).
  intros A l Hl. unfold py_slice. rewrite Hl.
  rewrite nth_error_firstn.
  destruct (j <? _)%nat.
  - apply nth_error_skipn.
  - symmetry. apply nth_error_None. lia.
Qed.

Lemma length_by_nth_error {A B} (l : list A) (l' : list B) :
  (forall j, nth_error l j = None <-> nth_error l' j = None) ->
  length l = length l'.
Proof.
  intros H.
  destruct (Nat.lt_trichotomy (length l) (length l')) as [C|[C|C]];
    [|exact C|].
  - assert (E : nth_error l (length l) = None)
      by (apply nth_error_None; lia).
    apply H in E. apply nth_error_None in E. lia.
  - assert (E : nth_error l' (length l') = None)
      by (apply nth_error_None; lia).
    apply H in E. apply nth_error_None in E. lia.
Qed.

Lemma map_rows_rows (f : forall A : Set, list A -> list A)
  (df : DataFrame) :
  positional f -> wf df ->
  columns (map_rows f df) = columns df
  /\ map dtype (data (map_rows f df)) = map dtype (data df)
  /\ wf (map_rows f df)
  /\ forall j, (j < len (map_rows f df))%nat ->
       exists i, (i < len df)%nat /\ row (map_rows f df) j = row df i.
Proof.
  intros Hf Hwf. split; [apply columns_map_rows|].
  split; [unfold map_rows; cbn [data]; rewrite map_map; reflexivity|].
  assert (Hrow : forall j, exists i,
            nth_error (f _ (index df)) j = nth_error (index df) i
            /\ Forall (fun s => nth_error (f _ (values s)) j
                                = nth_error (values s) i) (data df)).
  { intros j. destruct (Hf (len df) j) as (i & Hi). exists i.
    split; [now apply Hi|].
    eapply Forall_impl; [|exact Hwf]. intros s Hs. now apply Hi. }
  split.
  - unfold wf, map_rows. cbn [data]. rewrite Forall_map. cbn [values].
    rewrite Forall_forall. intros s Hs. unfold len at 1. cbn [index].
    unfold wf in Hwf. rewrite Forall_forall in Hwf.
    apply length_by_nth_error. intros j.
    destruct (Hrow j) as (i & Hi & Hc). rewrite Forall_forall in Hc.
    rewrite Hi, (Hc s Hs), !nth_error_None, (Hwf s Hs). reflexivity.
  - intros j Hj. destruct (Hrow j) as (i & Hi & Hc). exists i.
    rewrite len_map_rows in Hj. split.
    + apply nth_error_Some. rewrite <- Hi. apply nth_error_Some. exact Hj.
    + unfold row, map_rows. cbn [index data]. rewrite Hi. f_equal.
      rewrite map_map. cbn [values]. apply map_ext_Forall. exact Hc.
Qed.

Section RowFilterRows.

Context {L : Library}.

Lemma apply_row_filter_shape (df : DataFrame) (a : App) (r : DataFrame) :
  fst (_apply_row_filter df a) = Some r ->
  r = df \/ exists f, positional f /\ r = map_rows f df.
Proof.
  unfold _apply_row_filter, df_sample, bind, gets, ret, log.
  split_cases; cbn [fst]; intros H; try discriminate;
    injection H as <-; auto; right;
    unfold iloc_slice, iloc_take, loc_mask;
    (eexists; split; [|reflexivity]);
    first [apply positional_py_slice | apply positional_take_mask
          | apply positional_take_pos].
Qed.


Lemma map_rows_same (f : forall A : Set, list A -> list A)
  (df : DataFrame) :
  (forall (A : Set) (l : list A), length l = len df -> f A l = l) ->
  wf df -> map_rows f df = df.
Proof.
  intros Hf Hwf. destruct df as [ix cols]. unfold map_rows, wf, len in *.
  cbn [index data] in *. rewrite (Hf _ ix eq_refl). f_equal.
  induction Hwf as [|s r Hs Hr IH]; [reflexivity|].
  cbn [map]. rewrite IH, (Hf _ (values s) Hs). now destruct s.
Qed.

Lemma iloc_slice_whole (df : DataFrame) :
  wf df -> iloc_slice 0 (Z.of_nat (len df)) df = df.
Proof.
  intros Hwf. apply map_rows_same; [|exact Hwf]. intros A l Hl.
  rewrite py_slice_in_range by lia.
  rewrite Z.sub_0_r, Nat2Z.id, <- Hl. cbn [Z.to_nat skipn].
  apply firstn_all.
Qed.

Lemma apply_row_filter_fresh (mode : string) (df : DataFrame) (a : App) :
  wf df ->
  row_filter_mode a = mode ->
  row_filter_entries a = fresh_entries mode (Some df) ->
  (mode = "sample" -> (len df <= 100)%nat) ->
  fst (_apply_row_filter df a) = Some df.
Proof.
  intros Hwf Hm He Hs. unfold _apply_row_filter, bind, gets, ret, log.
  destruct (empty df); [reflexivity|]. cbv beta iota. rewrite Hm, He.
  unfold fresh_entries.
  destruct (String.eqb_spec mode "all") as [->|H1]; [reflexivity|].
  destruct (String.eqb_spec mode "index") as [->|H2].
  - cbn [index_from index_to]. unfold _get_entry_value.
    rewrite truthy_str_of_nat. change (truthy "0") with true. cbv iota.
    rewrite truthy_str_of_nat, py_int_str_of_nat.
    change (py_int "0") with (Some 0%Z).
    cbv beta iota. cbn [fst]. now rewrite iloc_slice_whole.
  - destruct (String.eqb_spec mode "value") as [->|H3].
    + cbn [value_col value_op value_val]. unfold _get_entry_value.
      change (truthy "") with false. cbv iota.
      rewrite String.eqb_refl, orb_true_r. reflexivity.
    + destruct (String.eqb_spec mode "sample") as [->|H4];
        [|reflexivity].
      cbn [sample_n sample_random]. unfold _get_entry_value.
      change (truthy "100") with true. cbv iota.
      change (py_int "100") with (Some 100%Z). cbv beta iota.
      specialize (Hs eq_refl).
      destruct (Z.leb_spec (Z.of_nat (len df)) 100); [reflexivity|lia].
Qed.

(** X9. A freshly chosen filter mode selects every row: after a click on any
    mode of the row filter (for the sample mode, on a table of at most
    100 rows), the entries hold their initial contents, the label
    reports all rows of the active table, and the filter returns the
    table itself. *)
Theorem fresh_filter_selects_all (mode : string) (a : App)
  (df : DataFrame) :
  get_active_df (dm a) = Some df ->
  wf df ->
  (mode = "sample" -> (len df <= 100)%nat) ->
  fst (choose_row_filter_mode mode a)
  = ("Linhas: " ++ str_of_nat (len df) ++ " de " ++ str_of_nat (len df)
     ++ " (após filtro)")%string
  /\ fst (_apply_row_filter df (snd (choose_row_filter_mode mode a)))
     = Some df.
Proof.
  intros Ha Hwf Hs.
  assert (C : exists a3,
            choose_row_filter_mode mode a
            = (("Linhas: " ++ str_of_nat (len df) ++ " de "
                ++ str_of_nat (len df) ++ " (após filtro)")%string, a3)
            /\ row_filter_mode a3 = mode
            /\ row_filter_entries a3 = fresh_entries mode (Some df)).
  { unfold choose_row_filter_mode, _toggle_row_filter_ui,
      _update_row_count_label, bind, gets, ret. cbv beta iota.
    cbn [dm with_mode with_entries row_filter_mode]. rewrite Ha.
    set (a2 := with_entries _ _).
    assert (F2 : fst (_apply_row_filter df a2) = Some df)
      by (apply (@apply_row_filter_fresh mode); auto).
    pose proof (row_filter_same_widgets df a2) as (u & g & E).
    destruct (_apply_row_filter df a2) as [r a3]. cbn [fst snd] in *.
    subst r. exists a3. split; [reflexivity|]. rewrite E. auto. }
  destruct C as (a3 & -> & Hm & He). cbn [fst snd].
  split; [reflexivity|]. now apply (@apply_row_filter_fresh mode).
Qed.

End RowFilterRows.

(* ====================================================================== *)
(** * The column selectors *)
(* ====================================================================== *)

Lemma fold_dict_set_fresh (cols : list string) (d0 : list (string * bool)) :
  NoDup cols ->
  (forall c, In c cols -> ~ In c (dict_keys d0)) ->
  fold_left (fun d c => dict_set c true d) cols d0
  = d0 ++ map (fun c => (c, true)) cols.
Proof.
  revert d0. induction cols as [|c r IH]; intros d0 Hn Hf.
  - cbn. now rewrite app_nil_r.
  - cbn [fold_left map]. inversion Hn as [|? ? Hc Hr]; subst.
    rewrite dict_set_fresh by (apply Hf; now left).
    rewrite IH; [now rewrite <- app_assoc|exact Hr|].
    intros x Hx Hin. unfold dict_keys in Hin. rewrite map_app in Hin.
    apply in_app_or in Hin. destruct Hin as [Hin|[<-|[]]].
    + apply (Hf x); [now right|exact Hin].
    + contradiction.
Qed.

Lemma selected_of_all_true (cols : list string) :
  map fst (filter (fun cv : string * bool => snd cv)
                  (map (fun c => (c, true)) cols)) = cols.
Proof. induction cols as [|c r IH]; cbn; congruence. Qed.

Lemma NoDup_names_filter (p : Series -> bool) (l : list Series) :
  NoDup (map name l) -> NoDup (map name (filter p l)).
Proof.
  induction l as [|s r IH]; intros H; [constructor|].
  cbn [map] in H. inversion H as [|? ? Hs Hr]; subst. cbn [filter].
  destruct (p s); [|now apply IH]. cbn [map]. constructor; [|now apply IH].
  intros Hin. apply Hs. apply in_map_iff in Hin.
  destruct Hin as (x & Hx & Hxi). apply filter_In in Hxi.
  apply in_map_iff. exists x. tauto.
Qed.

Lemma get_column_own (s : Series) (ix : list Z) (l : list Series) :
  NoDup (map name l) -> In s l ->
  get_column (name s) (mkDF ix l) = Some s.
Proof.
  unfold get_column. cbn [data]. induction l as [|x r IH]; intros Hn Hs;
    [contradiction|].
  cbn [map] in Hn. inversion Hn as [|? ? Hx Hr]; subst. cbn [find].
  destruct Hs as [->|Hs]; [now rewrite String.eqb_refl|].
  destruct (String.eqb_spec (name x) (name s)) as [E|E]; [|now apply IH].
  exfalso. apply Hx. rewrite E. now apply in_map.
Qed.

Lemma get_columns_own (l' : list Series) (ix : list Z) (l : list Series) :
  NoDup (map name l) -> incl l' l ->
  get_columns (map name l') (mkDF ix l) = Some l'.
Proof.
  intros Hn. induction l' as [|s r IH]; intros Hi; [reflexivity|].
  cbn [map get_columns].
  rewrite get_column_own by (auto; apply Hi; now left).
  rewrite IH; [reflexivity|]. intros x Hx. apply Hi. now right.
Qed.

Lemma has_column_in (c : string) (df : DataFrame) :
  has_column c df = true <-> In c (columns df).
Proof.
  unfold has_column. rewrite existsb_exists. split.
  - intros (x & Hx & E). apply String.eqb_eq in E. now subst.
  - intros H. exists c. split; [exact H|apply String.eqb_refl].
Qed.

Lemma filter_all {A} (p : A -> bool) (l : list A) :
  (forall x, In x l -> p x = true) -> filter p l = l.
Proof.
  induction l as [|x r IH]; intros H; [reflexivity|]. cbn.
  rewrite (H x) by (now left). rewrite IH; [reflexivity|].
  intros y Hy. apply H. now right.
Qed.

Lemma select_number_map_rows (f : forall A : Set, list A -> list A)
  (df : DataFrame) :
  select_number (map_rows f df) = map_rows f (select_number df).
Proof.
  unfold select_number, map_rows. cbn [index data]. f_equal.
  induction (data df) as [|s r IH]; [reflexivity|].
  cbn [map filter dtype]. destruct (is_number (dtype s)); cbn [map];
    now rewrite IH.
Qed.

Section ColumnSelectors.

Context {L : Library}.

Lemma row_filter_reads (df : DataFrame) (a b : App) :
  row_filter_mode b = row_filter_mode a ->
  row_filter_entries b = row_filter_entries a ->
  np_random b = np_random a ->
  fst (_apply_row_filter df b) = fst (_apply_row_filter df a).
Proof.
  intros Hm He Hr.
  unfold _apply_row_filter, df_sample, bind, gets, ret, log.
  destruct (empty df); [reflexivity|].
  cbv beta iota. rewrite Hm, He.
  split_cases; cbn [fst]; rewrite ?Hr; reflexivity.
Qed.

Lemma filtered_value (b : App) (df f : DataFrame) :
  get_active_df (dm b) = Some df ->
  fst (_apply_row_filter df b) = Some f ->
  empty f = false ->
  fst (_get_filtered_df_for_stats b)
  = match stats_col_vars b with
    | [] => Some (dropna (select_number f))
    | _ =>
        match selected_of (stats_col_vars b) with
        | [] => None
        | _ =>
            match filter (fun c => has_column c f)
                         (selected_of (stats_col_vars b)) with
            | [] => None
            | _ =>
                option_map dropna
                  (project (filter (fun c => has_column c f)
                                   (selected_of (stats_col_vars b))) f)
            end
        end
    end.
Proof.
  intros Ha Hf He.
  unfold _get_filtered_df_for_stats, bind, gets, ret. cbv beta iota.
  rewrite Ha.
  pose proof (row_filter_same_widgets df b) as Hw.
  apply same_widgets_vars in Hw.
  destruct (_apply_row_filter df b) as [r b1]. cbn [fst snd] in *.
  subst r. rewrite He, Hw. fold (selected_of (stats_col_vars b)).
  destruct (stats_col_vars b); [reflexivity|].
  destruct (selected_of _); [reflexivity|].
  destruct (filter _ _); [reflexivity|].
  destruct (project _ _); reflexivity.
Qed.

Lemma numeric_selection_dataset (b : App) (df f : DataFrame) :
  get_active_df (dm b) = Some df ->
  NoDup (columns df) ->
  stats_col_vars b = match columns (select_number df) with
                     | [] => []
                     | _ => numeric_vars df
                     end ->
  fst (_apply_row_filter df b) = Some f ->
  empty f = false ->
  fst (_get_filtered_df_for_stats b) = Some (dropna (select_number f)).
Proof.
  intros Ha Hn Hv Hf He.
  assert (Hcols : columns (select_number f) = columns (select_number df)
                  /\ NoDup (map name (data f))).
  { destruct (apply_row_filter_shape df b Hf) as [->|(g & Hg & ->)];
      [auto|].
    rewrite select_number_map_rows, !columns_map_rows.
    split; [reflexivity|].
    fold (columns (map_rows g df)). now rewrite columns_map_rows. }
  destruct Hcols as (Hc1 & Hn2).
  rewrite (@filtered_value b df f Ha Hf He). rewrite Hv.
  destruct (columns (select_number df)) as [|c0 cs] eqn:Ec; [reflexivity|].
  assert (Hnv : numeric_vars df
                = map (fun c => (c, true)) (columns (select_number df))).
  { unfold numeric_vars. rewrite fold_dict_set_fresh; [reflexivity| |auto].
    apply NoDup_names_filter. exact Hn. }
  unfold selected_of.
  rewrite Hnv, selected_of_all_true, Ec. cbn [map]. rewrite <- Hc1.
  rewrite filter_all.
  2:{ intros x Hx. apply has_column_in. unfold columns, select_number in Hx.
      cbn [data] in Hx. apply in_map_iff in Hx.
      destruct Hx as (s & <- & Hs). apply filter_In in Hs.
      unfold columns. apply in_map. tauto. }
  rewrite Hc1 at 1. cbv iota.
  unfold project, columns, select_number. cbn [data].
  destruct f as [ix cols]. cbn [data index] in *.
  rewrite get_columns_own; [reflexivity|exact Hn2|].
  intros x Hx. apply filter_In in Hx. tauto.
Qed.

Lemma refresh_stats_columns_vars (a : App) (df : DataFrame) :
  get_active_df (dm a) = Some df ->
  stats_col_vars (snd (refresh_stats_columns a))
  = match columns (select_number df) with
    | [] => []
    | _ => numeric_vars df
    end.
Proof.
  intros Ha. unfold refresh_stats_columns. rewrite Ha.
  destruct (columns (select_number df)); reflexivity.
Qed.

Lemma refresh_stats_columns_filter (a : App) (df : DataFrame) :
  row_filter_mode (snd (refresh_stats_columns a)) = row_filter_mode a
  /\ row_filter_entries (snd (refresh_stats_columns a))
     = row_filter_entries a
  /\ np_random (snd (refresh_stats_columns a)) = np_random a.
Proof.
  unfold refresh_stats_columns.
  destruct (get_active_df (dm a)) as [d|]; [|auto].
  destruct (columns (select_number d)); auto.
Qed.

(** X10. Rebuilding the column selectors selects the numeric columns: after
    [refresh_stats_columns] on an active table with distinct column
    names, the dataset of the statistics is the row-filtered table
    restricted to its numeric columns, without the rows that have a
    null there. *)
Theorem refreshed_selectors_give_numeric_columns (a : App)
  (df f : DataFrame) :
  get_active_df (dm a) = Some df ->
  NoDup (columns df) ->
  fst (_apply_row_filter df a) = Some f ->
  empty f = false ->
  fst (_get_filtered_df_for_stats (snd (refresh_stats_columns a)))
  = Some (dropna (select_number f)).
Proof.
  intros Ha Hn Hf He.
  destruct (refresh_stats_columns_filter a df) as (Em & Ee & Er).
  apply (@numeric_selection_dataset _ df f).
  - now rewrite refresh_stats_columns_keeps_dm.
  - exact Hn.
  - now apply refresh_stats_columns_vars.
  - now rewrite (@row_filter_reads df a _ Em Ee Er).
  - exact He.
Qed.

Lemma filtered_none_without_selection (b : App) :
  stats_col_vars b <> [] ->
  selected_of (stats_col_vars b) = [] ->
  fst (_get_filtered_df_for_stats b) = None.
Proof.
  intros Hv Hs.
  unfold _get_filtered_df_for_stats, bind, gets, ret. cbv beta iota.
  destruct (get_active_df (dm b)) as [df|]; [|reflexivity].
  pose proof (row_filter_same_widgets df b) as Hw.
  apply same_widgets_vars in Hw.
  destruct (_apply_row_filter df b) as [[r|] b1]; [|reflexivity].
  cbn [fst snd] in *. destruct (empty r); [reflexivity|].
  rewrite Hw. fold (selected_of (stats_col_vars b)). rewrite Hs.
  destruct (stats_col_vars b); [congruence|reflexivity].
Qed.

Lemma run_desc_stats_none (b : App) :
  fst (_get_filtered_df_for_stats b) = None ->
  fst (run_desc_stats b) = None.
Proof.
  intros Hf.
  unfold run_desc_stats, bind at 1. unfold _update_selected_stats_cols.
  unfold bind at 1. rewrite filtered_with_selected, Hf.
  unfold _get_id_column, bind, gets, log, messagebox, ret.
  cbv beta iota. destruct (_ && _); reflexivity.
Qed.

Lemma run_outliers_iqr_none (b : App) :
  fst (_get_filtered_df_for_stats b) = None ->
  fst (run_outliers_iqr b) = None.
Proof.
  intros Hf.
  unfold run_outliers_iqr, bind at 1. unfold _update_selected_stats_cols.
  unfold bind at 1. rewrite filtered_with_selected, Hf.
  unfold _get_id_column, bind, gets, log, ret.
  cbv beta iota. destruct (_ && _); reflexivity.
Qed.

(** X11. With every column selector cleared no analysis produces a table:
    after [_set_all_stats_cols(False)] on a window that has selectors,
    the dataset of the statistics is missing whatever the active table
    and the row filter are, and neither the descriptive statistics nor
    the IQR outliers show a result. *)
Theorem cleared_selectors_give_no_analysis (a : App) :
  stats_col_vars a <> [] ->
  fst (_get_filtered_df_for_stats (snd (_set_all_stats_cols false a))) = None
  /\ fst (run_desc_stats (snd (_set_all_stats_cols false a))) = None
  /\ fst (run_outliers_iqr (snd (_set_all_stats_cols false a))) = None.
Proof.
  intros Hv.
  assert (H : fst (_get_filtered_df_for_stats
                     (snd (_set_all_stats_cols false a))) = None).
  { apply filtered_none_without_selection.
    - unfold _set_all_stats_cols, _update_selected_stats_cols.
      cbn [snd stats_col_vars with_selected with_vars].
      destruct (stats_col_vars a); [congruence|discriminate].
    - unfold _set_all_stats_cols, _update_selected_stats_cols.
      cbn [snd stats_col_vars with_selected with_vars]. unfold selected_of.
      induction (stats_col_vars a) as [|x r IH]; [reflexivity|].
      cbn [map filter snd]. destruct r; [reflexivity|]. apply IH.
      discriminate. }
  split; [exact H|]. split.
  - now apply run_desc_stats_none.
  - now apply run_outliers_iqr_none.
Qed.

End ColumnSelectors.

(* ====================================================================== *)
(** * Rows with nulls *)
(* ====================================================================== *)

Lemma take_mask_all_true {A} (mask : list bool) (l : list A) :
  (length l <= length mask)%nat ->
  Forall (fun b => b = true) mask ->
  take_mask mask l = l.
Proof.
  revert mask. induction l as [|x r IH]; intros [|m ms] Hl Hm;
    try reflexivity; cbn in Hl; [lia|].
  inversion Hm; subst. cbn. rewrite IH; [reflexivity|lia|assumption].
Qed.

Lemma row_has_null_false (df : DataFrame) (i : nat) :
  (forall s c, In s (data df) -> In c (values s) -> is_null c = false) ->
  row_has_null df i = false.
Proof.
  intros H. unfold row_has_null.
  destruct (existsb _ (data df)) eqn:E; [|reflexivity].
  apply existsb_exists in E. destruct E as (s & Hs & Hc).
  destruct (nth_error (values s) i) as [c|] eqn:En; [|discriminate].
  apply nth_error_In in En. rewrite (H s c Hs En) in Hc. discriminate.
Qed.

Lemma dropna_without_nulls (df : DataFrame) :
  wf df ->
  (forall s c, In s (data df) -> In c (values s) -> is_null c = false) ->
  dropna df = df.
Proof.
  intros Hwf H. unfold dropna, loc_mask. apply map_rows_same; [|exact Hwf].
  intros A l Hl. apply take_mask_all_true.
  - rewrite length_map, length_seq. lia.
  - rewrite Forall_map, Forall_forall. intros i _.
    now rewrite row_has_null_false.
Qed.

(** X12. Dropping the incomplete rows removes rows only, and only them: on a
    table with one value per row in every column, the result keeps the
    columns, each of its rows is a row of the table, no null is left,
    a table without nulls is returned as it is, and dropping twice is
    dropping once. *)
Theorem dropna_keeps_complete_rows (df : DataFrame) :
  wf df ->
  columns (dropna df) = columns df
  /\ (forall j, (j < len (dropna df))%nat ->
        exists i, (i < len df)%nat /\ row (dropna df) j = row df i)
  /\ (forall s c, In s (data (dropna df)) -> In c (values s) ->
                  is_null c = false)
  /\ ((forall s c, In s (data df) -> In c (values s) -> is_null c = false)
      -> dropna df = df)
  /\ dropna (dropna df) = dropna df.
Proof.
  intros Hwf.
  destruct (@map_rows_rows
              (fun A => @take_mask A
                 (map (fun i => negb (row_has_null df i)) (seq 0 (len df))))
              df (positional_take_mask _) Hwf) as (H1 & _ & H3 & H4).
  split; [exact H1|]. split; [exact H4|].
  split; [apply dropna_no_null|].
  split; [now apply dropna_without_nulls|].
  apply dropna_without_nulls; [exact H3|apply dropna_no_null].
Qed.

(* ====================================================================== *)
(** * Bounds on the statistics *)
(* ====================================================================== *)

Lemma qlen_cons (x : Q) (l : list Q) : (qlen (x :: l) == qlen l + 1)%Q.
Proof.
  unfold qlen. cbn [length]. rewrite Nat2Z.inj_succ. unfold Z.succ.
  rewrite inject_Z_plus. reflexivity.
Qed.

Lemma qlen_nonneg (l : list Q) : (0 <= qlen l)%Q.
Proof. unfold qlen, Qle. simpl. lia. Qed.

Lemma qlen_pos (l : list Q) : l <> [] -> (0 < qlen l)%Q.
Proof.
  destruct l; [congruence|]. intros _. unfold qlen, Qlt. simpl. lia.
Qed.

Lemma qsum_cons (x : Q) (l : list Q) : qsum (x :: l) = (x + qsum l)%Q.
Proof. reflexivity. Qed.

Lemma qsum_app (l1 l2 : list Q) :
  (qsum (l1 ++ l2) == qsum l1 + qsum l2)%Q.
Proof.
  induction l1 as [|x r IH]; cbn [app]; rewrite ?qsum_cons.
  - unfold qsum at 2. cbn. ring.
  - rewrite IH. ring.
Qed.

Lemma qsum_lower (a : Q) (l : list Q) :
  (forall x, In x l -> (a <= x)%Q) -> (qlen l * a <= qsum l)%Q.
Proof.
  induction l as [|x r IH]; intros H.
  - unfold qlen, qsum. cbn. rewrite Qmult_0_l. apply Qle_refl.
  - rewrite qlen_cons, qsum_cons.
    assert (Hx : (a <= x)%Q) by (apply H; now left).
    assert (Hr : (qlen r * a <= qsum r)%Q)
      by (apply IH; intros y Hy; apply H; now right).
    setoid_replace ((qlen r + 1) * a)%Q with (a + qlen r * a)%Q by ring.
    now apply Qplus_le_compat.
Qed.


Lemma qsum_nonneg (l : list Q) :
  (forall x, In x l -> (0 <= x)%Q) -> (0 <= qsum l)%Q.
Proof.
  intros H. pose proof (@qsum_lower 0 l H) as B.
  now rewrite Qmult_0_r in B.
Qed.

Lemma qsum_map_ext (f g : Q -> Q) (l : list Q) :
  (forall x, In x l -> (f x == g x)%Q) ->
  (qsum (map f l) == qsum (map g l))%Q.
Proof.
  induction l as [|x r IH]; intros H; [reflexivity|].
  cbn [map]. rewrite !qsum_cons, (H x) by (now left).
  rewrite IH; [reflexivity|]. intros y Hy. apply H. now right.
Qed.

Lemma qsum_map_plus (f g : Q -> Q) (l : list Q) :
  (qsum (map (fun x => f x + g x) l)
   == qsum (map f l) + qsum (map g l))%Q.
Proof.
  induction l as [|x r IH]; cbn [map]; rewrite ?qsum_cons.
  - unfold qsum. cbn. ring.
  - rewrite IH. ring.
Qed.

Lemma qsum_map_scale (c : Q) (f : Q -> Q) (l : list Q) :
  (qsum (map (fun x => c * f x) l) == c * qsum (map f l))%Q.
Proof.
  induction l as [|x r IH]; cbn [map]; rewrite ?qsum_cons.
  - unfold qsum. cbn. ring.
  - rewrite IH. ring.
Qed.

Lemma qsum_map_const (c : Q) (l : list Q) :
  (qsum (map (fun _ => c) l) == qlen l * c)%Q.
Proof.
  induction l as [|x r IH]; cbn [map].
  - unfold qsum, qlen. cbn. ring.
  - rewrite qsum_cons, qlen_cons, IH. ring.
Qed.

Lemma qsum_map_id (l : list Q) : qsum (map (fun x => x) l) = qsum l.
Proof. now rewrite map_id. Qed.

Lemma sq_nonneg (x : Q) : (0 <= x ^ 2)%Q.
Proof.
  setoid_replace (x ^ 2)%Q with (x * x)%Q by (simpl; ring).
  destruct (Qlt_le_dec x 0) as [H|H].
  - setoid_replace (x * x)%Q with ((- x) * (- x))%Q by ring.
    apply Qmult_le_0_compat; apply (Qopp_le_compat x 0), Qlt_le_weak, H.
  - now apply Qmult_le_0_compat.
Qed.

Lemma mean_times_len (l : list Q) :
  l <> [] -> (mean l * qlen l == qsum l)%Q.
Proof.
  intros H. unfold mean. field. now apply qlen_nonzero.
Qed.

(** Sum of squares against the square of the sum. *)
Lemma sum_of_squares_bound (l : list Q) :
  (qsum l ^ 2 <= qlen l * qsum (map (fun a => a ^ 2) l))%Q.
Proof.
  induction l as [|x r IH].
  - unfold qsum, qlen. cbn. apply Qle_refl.
  - cbn [map]. rewrite !qsum_cons, qlen_cons.
    set (S := qsum r) in *. set (T := qsum (map (fun a => a ^ 2) r)) in *.
    set (n := qlen r) in *.
    assert (D : (0 <= qsum (map (fun a => (a - x) ^ 2) r))%Q).
    { apply qsum_nonneg. intros y Hy. apply in_map_iff in Hy.
      destruct Hy as (a & <- & _). apply sq_nonneg. }
    assert (E : (qsum (map (fun a => (a - x) ^ 2) r)
                 == T - 2 * x * S + n * x ^ 2)%Q).
    { rewrite (qsum_map_ext (fun a => (a - x) ^ 2)
                 (fun a => a ^ 2 + ((- (2 * x)) * a + x ^ 2)))
        by (intros; simpl; ring).
      rewrite (qsum_map_plus (fun a => a ^ 2)
                 (fun a => (- (2 * x)) * a + x ^ 2)).
      rewrite (qsum_map_plus (fun a => (- (2 * x)) * a) (fun _ => x ^ 2)).
      rewrite (qsum_map_scale (- (2 * x)) (fun a => a)), qsum_map_id.
      rewrite qsum_map_const. subst S T n. ring. }
    rewrite E in D.
    apply Qle_minus_iff.
    setoid_replace ((n + 1) * (x ^ 2 + T) + - (x + S) ^ 2)%Q
      with ((n * T + - S ^ 2) + (T - 2 * x * S + n * x ^ 2))%Q
      by (simpl; ring).
    apply Qle_minus_iff in IH.
    rewrite <- (Qplus_0_l 0). now apply Qplus_le_compat.
Qed.

Lemma sorted_in_bounds (l : list Q) (k : nat) :
  (k < length l)%nat ->
  (qmin l <= nth k (sort_asc l) 0 <= qmax l)%Q.
Proof.
  intros Hk.
  assert (Hne : l <> []) by (destruct l; cbn in Hk; [lia|congruence]).
  assert (Hin : In (nth k (sort_asc l) 0%Q) l).
  { apply (Permutation_in _ (sort_asc_perm l)). apply nth_In.
    now rewrite (Permutation_length (sort_asc_perm l)). }
  destruct (qmin_spec Hne) as (_ & Hmin).
  destruct (qmax_spec Hne) as (_ & Hmax). auto.
Qed.


Lemma dev_sum_2_nonneg (l : list Q) : (0 <= dev_sum 2 l)%Q.
Proof.
  unfold dev_sum. apply qsum_nonneg. intros y Hy. apply in_map_iff in Hy.
  destruct Hy as (a & <- & _). apply (sq_nonneg (a - mean l)).
Qed.

Lemma spread_bounds_helper (l : list Q) : l <> [] -> (0 <= moment 2 l)%Q.
Proof.
  intros Hne. unfold moment. apply Qle_shift_div_l; [now apply qlen_pos|].
  rewrite Qmult_0_l. apply dev_sum_2_nonneg.
Qed.


Lemma dev_sum_1_zero (l : list Q) :
  l <> [] -> (qsum (map (fun y => y - mean l) l) == 0)%Q.
Proof.
  intros Hne.
  rewrite (qsum_map_ext (fun y => y - mean l)
             (fun y => y + (- mean l))) by (intros; ring).
  rewrite (qsum_map_plus (fun y => y) (fun _ => - mean l)).
  rewrite qsum_map_id, qsum_map_const.
  rewrite <- (mean_times_len Hne). ring.
Qed.

Lemma deviation_bound (l : list Q) (x : Q) :
  In x l -> ((x - mean l) ^ 2 <= (qlen l - 1) * moment 2 l)%Q.
Proof.
  intros Hx.
  assert (Hne : l <> []) by (destruct l; [contradiction|congruence]).
  pose proof (qlen_pos Hne) as Hn.
  destruct (in_split _ _ Hx) as (l1 & l2 & E).
  set (m := mean l). set (d := fun y : Q => (y - m)%Q).
  set (r := (l1 ++ l2)%list).
  assert (S0 : (d x + qsum (map d r) == 0)%Q).
  { pose proof (dev_sum_1_zero Hne) as Z. fold m in Z. fold d in Z.
    rewrite E in Z. subst r. rewrite map_app in *. cbn [map] in Z.
    rewrite qsum_app in *. rewrite qsum_cons in Z. rewrite <- Z. ring. }
  assert (S2 : (d x ^ 2 + qsum (map (fun y => d y ^ 2) r)
                == dev_sum 2 l)%Q).
  { unfold dev_sum. fold m.
    change (qsum (map (fun x0 => Qpower_positive (x0 - m) 2) l))
      with (qsum (map (fun y => d y ^ 2)%Q l)).
    rewrite E. subst r. rewrite !map_app. cbn [map].
    rewrite !qsum_app, qsum_cons. ring. }
  assert (Ln : (qlen r + 1 == qlen l)%Q).
  { unfold qlen. rewrite E. subst r. rewrite !length_app. cbn [length].
    unfold Qeq, Qplus. cbn [Qnum Qden inject_Z]. lia. }
  pose proof (sum_of_squares_bound (map d r)) as B.
  rewrite map_map in B.
  assert (Hlen : (qlen (map d r) == qlen r)%Q)
    by (unfold qlen; now rewrite length_map).
  rewrite Hlen in B.
  assert (Es : (qsum (map d r) ^ 2 == d x ^ 2)%Q).
  { setoid_replace (qsum (map d r)) with (- d x)%Q
      by (rewrite <- (Qplus_0_l (- d x)), <- S0; ring).
    simpl. ring. }
  rewrite Es in B.
  set (T := qsum (map (fun x0 => d x0 ^ 2) r)) in *.
  fold (d x). unfold moment. rewrite <- S2, <- Ln.
  apply Qle_minus_iff.
  setoid_replace ((qlen r + 1 - 1) * ((d x ^ 2 + T) / (qlen r + 1))
                  + - d x ^ 2)%Q
    with ((qlen r * T + - d x ^ 2) / (qlen r + 1))%Q
    by (simpl; field; rewrite Ln; now apply qlen_nonzero).
  apply Qle_shift_div_l; [now rewrite Ln|].
  rewrite Qmult_0_l. now apply Qle_minus_iff in B.
Qed.

Lemma count_true_all_false (l : list bool) :
  Forall (fun b => b = false) l -> count_true l = 0%nat.
Proof.
  unfold count_true. induction 1 as [|b r Hb _ IH]; [reflexivity|].
  subst b. exact IH.
Qed.

(** X15. The z-score criterion needs at least ten rows: the squared
    deviation of a value from the mean is at most [n - 1] times the
    second central moment, so its standardised value is at most the
    root of [n - 1], and in a column of fewer than ten values none is
    counted as an outlier. *)
Theorem zscore_never_flags_short_columns (l : list Q) :
  (forall x, In x l ->
     ((x - mean l) ^ 2 <= (qlen l - 1) * moment 2 l)%Q)
  /\ ((length l <= 9)%nat -> count_true (zscore_flags l) = 0%nat).
Proof.
  split; [intros x; apply deviation_bound|].
  intros H9. apply count_true_all_false. unfold zscore_flags.
  rewrite Forall_map, Forall_forall. intros x Hx.
  assert (Hne : l <> []) by (destruct l; [contradiction|congruence]).
  pose proof (spread_bounds_helper Hne) as M2.
  apply andb_false_iff. right. unfold qlt. apply negb_false_iff.
  apply Qle_bool_iff.
  apply (Qle_trans _ ((qlen l - 1) * moment 2 l));
    [now apply deviation_bound|].
  apply Qmult_le_compat_r; [|exact M2].
  unfold qlen, Qle, Qminus, Qplus. cbn. lia.
Qed.

(* ====================================================================== *)
(** * Quartiles and the IQR criterion *)
(* ====================================================================== *)

Lemma sorted_nth_mono (s : list Q) (i j : nat) :
  StronglySorted Qle s -> (i <= j)%nat -> (j < length s)%nat ->
  (nth i s 0 <= nth j s 0)%Q.
Proof.
  intros Hs. revert i j. induction Hs as [|x r Hr IH Hx]; intros i j Hij Hj.
  - cbn in Hj. lia.
  - destruct j as [|j].
    + assert (i = 0)%nat by lia. subst. apply Qle_refl.
    + cbn [length] in Hj. destruct i as [|i].
      * cbn [nth]. rewrite Forall_forall in Hx. apply Hx, nth_In. lia.
      * cbn [nth]. apply IH; lia.
Qed.

Lemma floor_nonneg (h : Q) : (0 <= h)%Q -> (0 <= Qfloor h)%Z.
Proof. intros H. apply (Qfloor_resp_le 0 h H). Qed.

Lemma floor_upper (h : Q) (k : Z) :
  (h <= inject_Z k)%Q -> (Qfloor h <= k)%Z.
Proof.
  intros H. rewrite <- (Qfloor_Z k). now apply Qfloor_resp_le.
Qed.

Lemma frac_bounds (h : Q) :
  (0 <= h - inject_Z (Qfloor h))%Q /\ (h - inject_Z (Qfloor h) <= 1)%Q.
Proof.
  pose proof (Qfloor_le h) as A. pose proof (Qlt_floor h) as B.
  rewrite inject_Z_plus in B. change (inject_Z 1) with 1%Q in B.
  split.
  - apply (proj1 (Qle_minus_iff _ _)) in A. exact A.
  - apply Qlt_le_weak in B. apply Qle_minus_iff.
    apply (proj1 (Qle_minus_iff _ _)) in B.
    setoid_replace (1 + - (h - inject_Z (Qfloor h)))%Q
      with (inject_Z (Qfloor h) + 1 + - h)%Q by ring.
    exact B.
Qed.

Lemma interpolate_between (s : list Q) (h : Q) :
  StronglySorted Qle s -> s <> [] ->
  (0 <= h)%Q -> (h <= qlen s - 1)%Q ->
  let i := Z.to_nat (Qfloor h) in
  let j := Nat.min (S i) (length s - 1) in
  (i <= j)%nat /\ (j < length s)%nat
  /\ (nth i s 0 <= interpolate s h)%Q
  /\ (interpolate s h <= nth j s 0)%Q.
Proof.
  intros Hs Hne H0 H1 i j.
  assert (Hl : (0 < length s)%nat) by (destruct s; cbn; [congruence|lia]).
  assert (Hi : (i <= length s - 1)%nat).
  { subst i. pose proof (floor_nonneg H0).
    assert (Qfloor h <= Z.of_nat (length s) - 1)%Z.
    { apply floor_upper. unfold Zminus. rewrite inject_Z_plus.
      exact H1. }
    lia. }
  assert (Hij : (i <= j)%nat) by (subst j; lia).
  assert (Hj : (j < length s)%nat) by (subst j; lia).
  pose proof (sorted_nth_mono Hs Hij Hj) as Hm.
  destruct (frac_bounds h) as (F0 & F1).
  split; [exact Hij|]. split; [exact Hj|].
  unfold interpolate. fold i. fold j.
  set (a := nth i s 0) in *. set (b := nth j s 0) in *.
  set (t := (h - inject_Z (Qfloor h))%Q) in *.
  assert (Hd : (0 <= b - a)%Q)
    by (apply (proj1 (Qle_minus_iff _ _)) in Hm; exact Hm).
  split.
  - apply Qle_minus_iff.
    setoid_replace (a + t * (b - a) + - a)%Q with (t * (b - a))%Q by ring.
    now apply Qmult_le_0_compat.
  - apply Qle_minus_iff.
    setoid_replace (b + - (a + t * (b - a)))%Q
      with ((1 - t) * (b - a))%Q by ring.
    apply Qmult_le_0_compat; [|exact Hd].
    apply (proj1 (Qle_minus_iff _ _)) in F1. exact F1.
Qed.

Lemma interpolate_mono (s : list Q) (h h' : Q) :
  StronglySorted Qle s -> s <> [] ->
  (0 <= h)%Q -> (h <= h')%Q -> (h' <= qlen s - 1)%Q ->
  (interpolate s h <= interpolate s h')%Q.
Proof.
  intros Hs Hne H0 Hh H1.
  assert (H0' : (0 <= h')%Q) by (eapply Qle_trans; eauto).
  assert (H1' : (h <= qlen s - 1)%Q) by (eapply Qle_trans; eauto).
  destruct (interpolate_between Hs Hne H0 H1') as (Hij & Hj & A1 & A2).
  destruct (interpolate_between Hs Hne H0' H1) as (Hij' & Hj' & B1 & B2).
  pose proof (Qfloor_resp_le _ _ Hh) as Hf.
  pose proof (floor_nonneg H0) as Hf0.
  destruct (Z.eq_dec (Qfloor h) (Qfloor h')) as [E|E].
  - unfold interpolate. rewrite <- E.
    set (i := Z.to_nat (Qfloor h)) in *.
    set (j := Nat.min (S i) (length s - 1)) in *.
    pose proof (sorted_nth_mono Hs Hij Hj) as Hm.
    set (a := nth i s 0) in *. set (b := nth j s 0) in *.
    apply Qle_minus_iff.
    setoid_replace (a + (h' - inject_Z (Qfloor h)) * (b - a)
                    + - (a + (h - inject_Z (Qfloor h)) * (b - a)))%Q
      with ((h' - h) * (b - a))%Q by ring.
    apply Qmult_le_0_compat.
    + apply (proj1 (Qle_minus_iff _ _)) in Hh. exact Hh.
    + apply (proj1 (Qle_minus_iff _ _)) in Hm. exact Hm.
  - apply (Qle_trans _ _ _ A2).
    apply Qle_trans with (y := nth (Z.to_nat (Qfloor h')) s 0);
      [|exact B1].
    apply sorted_nth_mono; [exact Hs|lia|lia].
Qed.

Lemma qlt_true (a b : Q) : qlt a b = true -> (a < b)%Q.
Proof.
  unfold qlt. intros H. apply negb_true_iff in H.
  apply Qnot_le_lt. intros C. apply Qle_bool_iff in C. congruence.
Qed.

Lemma Forall2_map_flags {A} (f : A -> bool) (P : A -> Prop)
  (l : list A) :
  (forall x, f x = true -> P x) ->
  Forall2 (fun x (b : bool) => b = true -> P x) l (map f l).
Proof.
  intros H. induction l as [|x r IH]; cbn [map]; constructor; auto.
Qed.

(** X16. The IQR criterion counts values outside the quartiles only: on a
    non-empty column the first quartile is at most the third and both
    lie between the minimum and the maximum; a value that is counted as
    an outlier is below the first quartile or above the third; and a
    constant column has no outlier. *)
Theorem iqr_flags_outside_quartiles (l : list Q) :
  l <> [] ->
  exists q1 q3,
    quantile (1 # 4) l = Some q1 /\ quantile (3 # 4) l = Some q3
    /\ (qmin l <= q1)%Q /\ (q1 <= q3)%Q /\ (q3 <= qmax l)%Q
    /\ Forall2 (fun x (b : bool) => b = true -> (x < q1)%Q \/ (q3 < x)%Q)
               l (iqr_flags l)
    /\ ((qmin l == qmax l)%Q -> count_true (iqr_flags l) = 0%nat).
Proof.
  intros Hne.
  pose proof (sort_asc_sorted l) as Hs.
  pose proof (Permutation_length (sort_asc_perm l)) as Hlen.
  assert (Hsne : sort_asc l <> []).
  { intros E. rewrite E in Hlen. destruct l; [congruence|discriminate]. }
  assert (Hq : qlen (sort_asc l) = qlen l) by (unfold qlen; now rewrite Hlen).
  assert (Hn1 : (0 <= qlen l - 1)%Q).
  { clear - Hne. destruct l as [|x r]; [congruence|]. rewrite qlen_cons.
    setoid_replace (qlen r + 1 - 1)%Q with (qlen r) by ring.
    apply qlen_nonneg. }
  assert (B : forall q, (0 <= q)%Q -> (q <= 1)%Q ->
              (0 <= (qlen l - 1) * q)%Q
              /\ ((qlen l - 1) * q <= qlen (sort_asc l) - 1)%Q).
  { intros q Q0 Q1. rewrite Hq. split.
    - now apply Qmult_le_0_compat.
    - rewrite <- (Qmult_1_r (qlen l - 1)) at 2.
      rewrite !(Qmult_comm (qlen l - 1)).
      now apply Qmult_le_compat_r. }
  destruct (B (1 # 4)) as (B1 & B2); [discriminate|discriminate|].
  destruct (B (3 # 4)) as (B3 & B4); [discriminate|discriminate|].
  set (q1 := interpolate (sort_asc l) ((qlen l - 1) * (1 # 4))).
  set (q3 := interpolate (sort_asc l) ((qlen l - 1) * (3 # 4))).
  assert (E1 : quantile (1 # 4) l = Some q1)
    by (destruct l; [congruence|reflexivity]).
  assert (E3 : quantile (3 # 4) l = Some q3)
    by (destruct l; [congruence|reflexivity]).
  assert (H13 : (q1 <= q3)%Q).
  { apply interpolate_mono; auto.
    rewrite !(Qmult_comm (qlen l - 1)).
    apply Qmult_le_compat_r; [discriminate|exact Hn1]. }
  assert (Hlo : (qmin l <= q1)%Q).
  { destruct (interpolate_between Hs Hsne B1 B2) as (Hij & Hj & A1 & _).
    apply Qle_trans
      with (y := nth (Z.to_nat (Qfloor ((qlen l - 1) * (1 # 4))))
                     (sort_asc l) 0);
      [|exact A1].
    apply sorted_in_bounds. rewrite <- Hlen. lia. }
  assert (Hhi : (q3 <= qmax l)%Q).
  { destruct (interpolate_between Hs Hsne B3 B4) as (Hij & Hj & _ & A2).
    apply (Qle_trans _ _ _ A2).
    apply sorted_in_bounds. rewrite <- Hlen. exact Hj. }
  assert (Hd : (0 <= (3 # 2) * (q3 - q1))%Q).
  { apply Qmult_le_0_compat; [discriminate|].
    apply (proj1 (Qle_minus_iff _ _)) in H13. exact H13. }
  assert (Hflag : forall x,
            qlt x (q1 - (3 # 2) * (q3 - q1))
            || qlt (q3 + (3 # 2) * (q3 - q1)) x = true ->
            (x < q1)%Q \/ (q3 < x)%Q).
  { intros x Hx. apply orb_true_iff in Hx. destruct Hx as [Hx|Hx];
      apply qlt_true in Hx.
    - left. apply (Qlt_le_trans _ _ _ Hx). apply Qle_minus_iff.
      setoid_replace (q1 + - (q1 - (3 # 2) * (q3 - q1)))%Q
        with ((3 # 2) * (q3 - q1))%Q by ring. exact Hd.
    - right. apply (Qle_lt_trans _ (q3 + (3 # 2) * (q3 - q1)));
        [|exact Hx].
      apply Qle_minus_iff.
      setoid_replace (q3 + (3 # 2) * (q3 - q1) + - q3)%Q
        with ((3 # 2) * (q3 - q1))%Q by ring. exact Hd. }
  assert (Ef : iqr_flags l
               = map (fun x => qlt x (q1 - (3 # 2) * (q3 - q1))
                               || qlt (q3 + (3 # 2) * (q3 - q1)) x) l).
  { unfold iqr_flags. now rewrite E1, E3. }
  exists q1, q3. repeat (split; [assumption|]).
  split.
  - rewrite Ef. apply Forall2_map_flags. exact Hflag.
  - intros Hc. apply count_true_all_false. rewrite Ef.
    rewrite Forall_map, Forall_forall. intros x Hx.
    destruct (qmin_spec Hne) as (_ & Hmin).
    destruct (qmax_spec Hne) as (_ & Hmax).
    destruct (_ || _) eqn:Fl; [|reflexivity]. exfalso.
    destruct (Hflag x Fl) as [C|C].
    + apply (Qlt_irrefl x). apply (Qlt_le_trans _ _ _ C).
      apply (Qle_trans _ _ _ H13). apply (Qle_trans _ _ _ Hhi).
      rewrite <- Hc. now apply Hmin.
    + apply (Qlt_irrefl x). apply (Qle_lt_trans _ q3); [|exact C].
      apply (Qle_trans _ (qmax l)); [now apply Hmax|].
      rewrite <- Hc. apply (Qle_trans _ _ _ Hlo). exact H13.
Qed.

(* ====================================================================== *)
(** * Linear regression *)
(* ====================================================================== *)

Lemma zip_with_map_r {A B C} (f : A -> B -> C) (g : A -> B) (l : list A) :
  zip_with f l (map g l) = map (fun v => f v (g v)) l.
Proof. induction l as [|x r IH]; cbn; congruence. Qed.

Lemma qsum_zero_all (l : list Q) :
  (forall y, In y l -> (0 <= y)%Q) -> (qsum l == 0)%Q ->
  forall y, In y l -> (y == 0)%Q.
Proof.
  induction l as [|x r IH]; intros Hp Hs y Hy; [contradiction|].
  rewrite qsum_cons in Hs.
  assert (Hx : (0 <= x)%Q) by (apply Hp; now left).
  assert (Hr : (0 <= qsum r)%Q)
    by (apply qsum_nonneg; intros z Hz; apply Hp; now right).
  assert (Ex : (x == 0)%Q).
  { apply Qle_antisym; [|exact Hx]. rewrite <- Hs.
    rewrite <- (Qplus_0_r x) at 1. apply Qplus_le_compat;
      [apply Qle_refl|exact Hr]. }
  destruct Hy as [<-|Hy]; [exact Ex|].
  apply IH; auto.
  - intros z Hz. apply Hp. now right.
  - rewrite Ex, Qplus_0_l in Hs. exact Hs.
Qed.

Lemma sq_zero (x : Q) : (x ^ 2 == 0)%Q -> (x == 0)%Q.
Proof.
  intros H. setoid_replace (x ^ 2)%Q with (x * x)%Q in H by (simpl; ring).
  apply Qmult_integral in H. tauto.
Qed.

Lemma two_values_spread (l : list Q) (u v : Q) :
  In u l -> In v l -> ~ (u == v)%Q -> ~ (dev_sum 2 l == 0)%Q.
Proof.
  intros Hu Hv Huv Hz. unfold dev_sum in Hz.
  assert (Z : forall y, In y l -> (y == mean l)%Q).
  { intros y Hy.
    assert (E : ((y - mean l) ^ 2 == 0)%Q).
    { apply (@qsum_zero_all (map (fun x => (x - mean l) ^ 2)%Q l)).
      - intros z Hz'. apply in_map_iff in Hz'.
        destruct Hz' as (w & <- & _). apply sq_nonneg.
      - exact Hz.
      - apply in_map_iff. now exists y. }
    apply sq_zero in E. rewrite <- (Qplus_0_l (mean l)), <- E. ring. }
  apply Huv. now rewrite (Z u Hu), (Z v Hv).
Qed.

(** X17. Least squares recovers an exact line: when the response is
    [a * x + b] on a predictor that takes two different values, the
    fitted slope is [a] and the intercept is [b], and for a slope other
    than zero the coefficient of determination is 1 (over exact
    rationals). *)
Theorem regression_recovers_line (a b : Q) (x : list Q) (u v : Q) :
  In u x -> In v x -> ~ (u == v)%Q ->
  exists coef intercept r2,
    linear_regression x (map (fun t => a * t + b)%Q x)
    = Some (coef, intercept, r2)
    /\ (coef == a)%Q /\ (intercept == b)%Q
    /\ (~ (a == 0)%Q -> exists r, r2 = Some r /\ (r == 1)%Q).
Proof.
  intros Hu Hv Huv.
  pose proof (two_values_spread x Hu Hv Huv) as Hsxx.
  assert (Hne : x <> []) by (destruct x; [contradiction|congruence]).
  pose proof (qlen_nonzero Hne) as Hn.
  unfold linear_regression. rewrite !zip_with_map_r. cbv beta zeta.
  set (g := fun t : Q => (a * t + b)%Q).
  set (mx := mean x). set (my := mean (map g x)).
  change (qsum (map (fun a0 => (a0 - mx) ^ 2)%Q x)) with (dev_sum 2 x).
  set (sxx := dev_sum 2 x) in *.
  assert (Hmy : (my == a * mx + b)%Q).
  { subst my mx. unfold mean.
    assert (E : (qsum (map g x) == a * qsum x + qlen x * b)%Q).
    { subst g. rewrite (qsum_map_plus (fun t => a * t) (fun _ => b)).
      rewrite (qsum_map_scale a (fun t => t)), qsum_map_id.
      now rewrite qsum_map_const. }
    assert (L : (qlen (map g x) == qlen x)%Q)
      by (unfold qlen; now rewrite length_map).
    rewrite E, L. field. exact Hn. }
  set (sxy := qsum (map (fun t => (t - mx) * (g t - my)) x)).
  assert (Hsxy : (sxy == a * sxx)%Q).
  { subst sxy sxx. unfold dev_sum. fold mx.
    change (qsum (map (fun x0 => Qpower_positive (x0 - mx) 2) x))
      with (qsum (map (fun t => (t - mx) ^ 2)%Q x)).
    rewrite <- (qsum_map_scale a (fun t => (t - mx) ^ 2)).
    apply qsum_map_ext. intros t _. subst g. cbv beta.
    rewrite Hmy. simpl. ring. }
  destruct (Qeq_bool sxx 0) eqn:Eb;
    [apply Qeq_bool_iff in Eb; contradiction|].
  set (coef := (sxy / sxx)%Q).
  assert (Hc : (coef == a)%Q).
  { subst coef. rewrite Hsxy. field. exact Hsxx. }
  set (intercept := (my - coef * mx)%Q).
  assert (Hi : (intercept == b)%Q).
  { subst intercept. rewrite Hc, Hmy. ring. }
  set (ss_res := qsum (map (fun t => (g t - (coef * t + intercept)) ^ 2) x)).
  set (ss_tot := qsum (map (fun b0 => (b0 - my) ^ 2) (map g x))).
  assert (Hres : (ss_res == 0)%Q).
  { subst ss_res.
    rewrite (qsum_map_ext
               (fun t => (g t - (coef * t + intercept)) ^ 2)
               (fun _ => 0)).
    - rewrite qsum_map_const. ring.
    - intros t _. subst g. cbv beta. rewrite Hc, Hi. simpl. ring. }
  assert (Htot : (ss_tot == a * a * sxx)%Q).
  { subst ss_tot sxx. rewrite map_map. unfold dev_sum. fold mx.
    change (qsum (map (fun x0 => Qpower_positive (x0 - mx) 2) x))
      with (qsum (map (fun t => (t - mx) ^ 2)%Q x)).
    rewrite <- (qsum_map_scale (a * a) (fun t => (t - mx) ^ 2)).
    apply qsum_map_ext. intros t _. subst g. cbv beta.
    rewrite Hmy. simpl. ring. }
  eexists. eexists. eexists. split; [reflexivity|].
  split; [exact Hc|]. split; [exact Hi|].
  intros Ha.
  assert (Hnz : ~ (ss_tot == 0)%Q).
  { rewrite Htot. intros E. apply Qmult_integral in E.
    destruct E as [E|E]; [|contradiction].
    apply Qmult_integral in E. tauto. }
  destruct (Qeq_bool ss_tot 0) eqn:Et;
    [apply Qeq_bool_iff in Et; contradiction|].
  eexists. split; [reflexivity|].
  change (1 - ss_res / ss_tot == 1)%Q. rewrite Hres. field. exact Hnz.
Qed.

(* ====================================================================== *)
(** * The rating does not depend on the units *)
(* ====================================================================== *)
















(* ====================================================================== *)
(** * Commands in sequence *)
(* ====================================================================== *)

Section CommandSequences.

Context {L : Library}.

(** X19. A query runs on the result of the previous query: a successful
    query makes its result the active table, so the next query is
    evaluated on that result and not on the table the user started
    from; two queries run within the same second share the name
    [SQL_<time>], and the second result replaces the first. *)
Theorem queries_run_on_previous_result (a : App) (df r1 r2 : DataFrame)
  (now1 now2 : string) :
  get_active_df (dm a) = Some df ->
  read_sql df (sql_entry a) = inr r1 ->
  read_sql r1 (sql_entry a) = inr r2 ->
  dm (snd (run_sql now2 (snd (run_sql now1 a))))
  = add_table ("SQL_" ++ now2) r2 (add_table ("SQL_" ++ now1) r1 (dm a))
  /\ dm (snd (run_sql now1 (snd (run_sql now1 a))))
     = add_table ("SQL_" ++ now1) r2 (dm a).
Proof.
  intros Ha H1 H2.
  rewrite (@run_sql_ok _ a now1 df r1 Ha H1).
  set (a1 := with_ui _ _).
  assert (Ha1 : get_active_df (dm a1) = Some r1).
  { subst a1. cbn [dm with_ui with_dm]. now apply add_table_active. }
  assert (Hq : read_sql r1 (sql_entry a1) = inr r2) by exact H2.
  rewrite (@run_sql_ok _ a1 now2 r1 r2 Ha1 Hq).
  rewrite (@run_sql_ok _ a1 now1 r1 r2 Ha1 Hq).
  subst a1. cbn [dm with_ui with_dm]. split; [reflexivity|].
  apply add_table_twice.
Qed.

(** X20. After the combo boxes of the join are refreshed on a registry with
    at least two tables, they hold its first two names and a join
    reaches the merge: it registers [Join_<first>_<second>_<time>] or
    logs the error of the merge, and never returns silently. *)
Theorem engine_combos_then_join (a : App) (now k0 k1 : string)
  (rest : list string) :
  registry_ok (dm a) ->
  dict_keys (tables (dm a)) = k0 :: k1 :: rest ->
  join_left (snd (update_engine_combos a)) = k0
  /\ join_right (snd (update_engine_combos a)) = k1
  /\ exists df1 df2,
       dict_get k0 (tables (dm a)) = Some df1
       /\ dict_get k1 (tables (dm a)) = Some df2
       /\ match pd_merge df1 df2 (join_key_a a) (join_key_b a)
                         (join_type a) with
          | inr res =>
              dm (snd (run_join now (snd (update_engine_combos a))))
              = add_table ("Join_" ++ k0 ++ "_" ++ k1 ++ "_" ++ now) res
                          (dm a)
          | inl msg =>
              snd (run_join now (snd (update_engine_combos a)))
              = with_ui (ui a ++ [Log ("Erro no Join: " ++ msg) ERROR])
                        (snd (update_engine_combos a))
          end.
Proof.
  intros (_ & Hne) Hk.
  unfold update_engine_combos. rewrite Hk. cbn [snd].
  set (a1 := with_join_tables k0 k1 a).
  split; [reflexivity|]. split; [reflexivity|].
  assert (I0 : In k0 (dict_keys (tables (dm a)))) by (rewrite Hk; now left).
  assert (I1 : In k1 (dict_keys (tables (dm a))))
    by (rewrite Hk; right; now left).
  destruct (proj1 (dict_get_in _ _) I0) as (df1 & H1).
  destruct (proj1 (dict_get_in _ _) I1) as (df2 & H2).
  exists df1, df2. split; [exact H1|]. split; [exact H2|].
  assert (T0 : truthy (join_left a1) = true).
  { apply truthy_nonempty. intros E. apply Hne. cbn in E. now rewrite <- E. }
  assert (T1 : truthy (join_right a1) = true).
  { apply truthy_nonempty. intros E. apply Hne. cbn in E. now rewrite <- E. }
  destruct (pd_merge df1 df2 (join_key_a a) (join_key_b a) (join_type a))
    as [msg|res] eqn:Hm.
  - now rewrite (@run_join_failed _ a1 now df1 df2 msg T0 T1 H1 H2 Hm).
  - now rewrite (@run_join_ok _ a1 now df1 df2 res T0 T1 H1 H2 Hm).
Qed.

End CommandSequences.

(** X21. A rating on the default selection succeeds: after the selectors of
    the rating are rebuilt for an active table with at least one row,
    distinct column names and at least one numeric column (holding
    numbers or nulls), the rating runs over all numeric columns and its
    result is registered as [Rating_<time>]. *)
Theorem default_rating_succeeds (a : App) (df : DataFrame) (now : string) :
  get_active_df (dm a) = Some df ->
  (0 < len df)%nat ->
  NoDup (columns df) ->
  columns (select_number df) <> [] ->
  Forall (fun s => is_number (dtype s) = true ->
                   cells_num (map fillna0 (values s)) <> None) (data df) ->
  selected_of (rating_vars (snd (refresh_rating_cols a)))
  = columns (select_number df)
  /\ exists scores,
       rating_scores (columns (select_number df)) df = inr scores
       /\ dm (snd (calculate_rating_thread now (snd (refresh_rating_cols a))))
          = add_table ("Rating_" ++ now) (rating_result scores df) (dm a).
Proof.
  intros Ha Hn Hnd Hne Hty.
  assert (Hv : numeric_vars df
               = map (fun c => (c, true)) (columns (select_number df))).
  { unfold numeric_vars. rewrite fold_dict_set_fresh; [reflexivity| |auto].
    apply NoDup_names_filter. exact Hnd. }
  unfold refresh_rating_cols. rewrite Ha. cbn [snd].
  set (a1 := with_rating_vars _ a).
  assert (Hsel : selected_of (rating_vars a1) = columns (select_number df)).
  { subst a1. cbn [rating_vars with_rating_vars]. unfold selected_of.
    now rewrite Hv, selected_of_all_true. }
  split; [exact Hsel|].
  assert (Hg : get_columns (columns (select_number df)) df
               = Some (data (select_number df))).
  { unfold columns at 1. destruct df as [ix cols]. cbn [data select_number].
    apply get_columns_own; [exact Hnd|].
    intros x Hx. apply filter_In in Hx. tauto. }
  assert (Hf : exists qcols,
             filled_columns (data (select_number df)) = Some qcols).
  { unfold select_number. cbn [data].
    clear - Hty. induction Hty as [|s r Hs _ IH]; [now exists []|].
    cbn [filter]. destruct (is_number (dtype s)) eqn:E; [|exact IH].
    destruct IH as (qs & IH). cbn [filled_columns].
    destruct (cells_num (map fillna0 (values s))) as [c|] eqn:Ec;
      [|now specialize (Hs eq_refl)].
    rewrite IH. eauto. }
  destruct Hf as (qcols & Hf).
  pose proof (@rating_scores_ok _ df _ qcols Hn Hg Hf) as Hr.
  eexists. split; [exact Hr|].
  assert (Ha1 : get_active_df (dm a1) = Some df) by exact Ha.
  assert (Hs1 : selected_of (rating_vars a1) <> []) by now rewrite Hsel.
  rewrite <- Hsel in Hr.
  rewrite (@rating_thread_ok a1 df now _ Ha1 Hs1 Hr).
  cbn [dm with_dm with_ui]. rewrite Hsel. reflexivity.
Qed.

(* ====================================================================== *)
(** * Colours of the rating table *)
(* ====================================================================== *)

Lemma trunc_range (q : Q) (n : Z) :
  (0 <= q)%Q -> (q <= inject_Z n)%Q -> (0 <= py_trunc q <= n)%Z.
Proof.
  intros H0 Hn. unfold py_trunc. destruct q as [p d].
  unfold Qle in *. cbn [Qnum Qden inject_Z] in *.
  rewrite Z.mul_1_r in *. rewrite Z.quot_div_nonneg by lia.
  split.
  - apply Z.div_pos; lia.
  - apply Z.div_le_upper_bound; lia.
Qed.

Lemma clamp_range (score : Q) :
  (0 <= clamp_score score)%Q /\ (clamp_score score <= 100)%Q.
Proof.
  unfold clamp_score.
  destruct (qlt score 100) eqn:E1.
  - destruct (qlt 0 score) eqn:E2.
    + apply qlt_true in E1. apply qlt_true in E2.
      split; now apply Qlt_le_weak.
    + split; discriminate.
  - destruct (qlt 0 100) eqn:E2; split; discriminate.
Qed.

Lemma mix_range (c alpha : Q) :
  (0 <= c)%Q -> (c <= 255)%Q -> (0 <= alpha)%Q -> (alpha <= 1)%Q ->
  (0 <= py_trunc (c * alpha + 30 * (1 - alpha)) <= 255)%Z.
Proof.
  intros C0 C1 A0 A1.
  assert (B : (0 <= 1 - alpha)%Q)
    by (apply (proj1 (Qle_minus_iff _ _)) in A1; exact A1).
  apply trunc_range.
  - rewrite <- (Qplus_0_l 0). apply Qplus_le_compat.
    + now apply Qmult_le_0_compat.
    + apply Qmult_le_0_compat; [discriminate|exact B].
  - change (inject_Z 255) with 255%Q.
    setoid_replace 255%Q with (255 * alpha + 255 * (1 - alpha))%Q by ring.
    apply Qplus_le_compat.
    + now apply Qmult_le_compat_r.
    + apply Qmult_le_compat_r; [discriminate|exact B].
Qed.

Lemma fmt_02x_digits (z : Z) :
  (0 <= z <= 255)%Z ->
  exists c1 c2, fmt_02x z = String c1 (String c2 "")
                /\ is_hex_digit c1 = true /\ is_hex_digit c2 = true.
Proof.
  intros Hz.
  assert (A : forallb (fun n =>
                match fmt_02x (Z.of_nat n) with
                | String c1 (String c2 EmptyString) =>
                    is_hex_digit c1 && is_hex_digit c2
                | _ => false
                end) (seq 0 256) = true) by (vm_compute; reflexivity).
  rewrite forallb_forall in A.
  specialize (A (Z.to_nat z)). rewrite Z2Nat.id in A by lia.
  assert (I : In (Z.to_nat z) (seq 0 256)) by (apply in_seq; lia).
  specialize (A I).
  destruct (fmt_02x z) as [|c1 [|c2 [|c3 r]]]; try discriminate.
  apply andb_true_iff in A. exists c1, c2. tauto.
Qed.

(** X22. The colour of a rating row is always well formed: for every score
    and every opacity between 0 and 1 the result is [#] followed by six
    lower-case hexadecimal digits; scores at or below 0 are coloured as
    0 and scores of 100 or more as 100. *)
Theorem score_to_color_well_formed (score alpha : Q) :
  (0 <= alpha)%Q -> (alpha <= 1)%Q ->
  is_color (score_to_color score alpha) = true
  /\ ((score <= 0)%Q -> score_to_color score alpha = score_to_color 0 alpha)
  /\ ((100 <= score)%Q ->
      score_to_color score alpha = score_to_color 100 alpha).
Proof.
  intros A0 A1. split; [|split].
  - unfold score_to_color.
    destruct (clamp_range score) as (S0 & S1).
    set (s := clamp_score score) in *.
    set (rg := if qlt s 50 then _ else _).
    assert (R : (0 <= fst rg)%Q /\ (fst rg <= 255)%Q
                /\ (0 <= snd rg)%Q /\ (snd rg <= 255)%Q).
    { subst rg. destruct (qlt s 50) eqn:E; cbn [fst snd].
      - apply qlt_true in E.
        assert (T : (0 <= py_trunc (255 * (s / 50)) <= 255)%Z).
        { apply trunc_range.
          - apply Qmult_le_0_compat; [discriminate|].
            apply Qle_shift_div_l; [reflexivity|]. now rewrite Qmult_0_l.
          - change (inject_Z 255) with 255%Q.
            rewrite <- (Qmult_1_r 255) at 2.
            rewrite !(Qmult_comm 255).
            apply Qmult_le_compat_r; [|discriminate].
            apply Qle_shift_div_r; [reflexivity|].
            rewrite Qmult_1_l. now apply Qlt_le_weak. }
        repeat split; try discriminate.
        + rewrite <- (Zle_Qle 0). lia.
        + rewrite <- (Zle_Qle _ 255). lia.
      - assert (E' : (50 <= s)%Q).
        { unfold qlt in E. apply negb_false_iff in E.
          now apply Qle_bool_iff in E. }
        assert (T : (0 <= py_trunc (255 * (1 - (s - 50) / 50)) <= 255)%Z).
        { assert (F0 : (0 <= (s - 50) / 50)%Q).
          { apply Qle_shift_div_l; [reflexivity|]. rewrite Qmult_0_l.
            apply (proj1 (Qle_minus_iff _ _)) in E'. exact E'. }
          assert (F1 : ((s - 50) / 50 <= 1)%Q).
          { apply Qle_shift_div_r; [reflexivity|]. rewrite Qmult_1_l.
            apply Qle_minus_iff.
            setoid_replace (50 + - (s - 50))%Q with (100 + - s)%Q by ring.
            apply (proj1 (Qle_minus_iff _ _)) in S1. exact S1. }
          apply trunc_range.
          - apply Qmult_le_0_compat; [discriminate|].
            apply (proj1 (Qle_minus_iff _ _)) in F1. exact F1.
          - change (inject_Z 255) with 255%Q.
            rewrite <- (Qmult_1_r 255) at 2.
            rewrite !(Qmult_comm 255).
            apply Qmult_le_compat_r; [|discriminate].
            apply Qle_minus_iff.
            setoid_replace (1 + - (1 - (s - 50) / 50))%Q
              with ((s - 50) / 50)%Q by ring.
            exact F0. }
        repeat split; try discriminate.
        + rewrite <- (Zle_Qle 0). lia.
        + rewrite <- (Zle_Qle _ 255). lia. }
    destruct R as (R1 & R2 & G1 & G2).
    destruct (fmt_02x_digits (mix_range R1 R2 A0 A1))
      as (a1 & a2 & -> & Ha1 & Ha2).
    destruct (fmt_02x_digits (mix_range G1 G2 A0 A1))
      as (b1 & b2 & -> & Hb1 & Hb2).
    assert (Z0 : (0 <= 0)%Q /\ (0 <= 255)%Q) by (split; discriminate).
    destruct (fmt_02x_digits (mix_range (proj1 Z0) (proj2 Z0) A0 A1))
      as (c1 & c2 & -> & Hc1 & Hc2).
    cbn [append is_color String.length list_ascii_of_string forallb].
    rewrite Ha1, Ha2, Hb1, Hb2, Hc1, Hc2. reflexivity.
  - intros H. unfold score_to_color.
    assert (E : clamp_score score = clamp_score 0).
    { unfold clamp_score.
      assert (E1 : qlt score 100 = true).
      { unfold qlt. apply negb_true_iff.
        destruct (Qle_bool 100 score) eqn:C; [|reflexivity].
        apply Qle_bool_iff in C.
        pose proof (Qle_trans _ _ _ C H) as X.
        unfold Qle in X. cbn in X. lia. }
      rewrite E1.
      assert (E2 : qlt 0 score = false).
      { unfold qlt. apply negb_false_iff. now apply Qle_bool_iff. }
      now rewrite E2. }
    now rewrite E.
  - intros H. unfold score_to_color.
    assert (E : clamp_score score = clamp_score 100).
    { unfold clamp_score.
      assert (E1 : qlt score 100 = false).
      { unfold qlt. apply negb_false_iff. now apply Qle_bool_iff. }
      now rewrite E1. }
    now rewrite E.
Qed.

(* ====================================================================== *)
(** * The import handler and the preview *)
(* ====================================================================== *)

Section ImportTheorems.

Context {L : Library} {T : Text} {F : Files}.

Lemma same_widgets_filter (a b : App) :
  same_widgets a b ->
  row_filter_mode b = row_filter_mode a
  /\ row_filter_entries b = row_filter_entries a.
Proof. intros (u & g & ->). split; reflexivity. Qed.

Lemma refresh_row_filter_same (b : App) :
  same_widgets
    (with_entries (fresh_entries (row_filter_mode b) (get_active_df (dm b)))
                  b)
    (snd (refresh_row_filter b)).
Proof.
  unfold refresh_row_filter, _toggle_row_filter_ui, bind. cbv beta iota.
  set (b1 := with_entries _ b).
  pose proof (update_row_count_same_widgets b1) as H1.
  destruct (_update_row_count_label b1) as [t1 b2]. cbn [snd] in H1.
  pose proof (update_row_count_same_widgets b2) as H2.
  destruct (_update_row_count_label b2) as [t2 b3]. cbn [snd] in *.
  eapply same_widgets_trans; eauto.
Qed.

Lemma after_import_state (a1 : App) (df : DataFrame) :
  get_active_df (dm a1) = Some df ->
  dm (snd (after_import a1)) = dm a1
  /\ stats_col_vars (snd (after_import a1))
     = match columns (select_number df) with
       | [] => []
       | _ => numeric_vars df
       end
  /\ row_filter_mode (snd (after_import a1)) = row_filter_mode a1
  /\ row_filter_entries (snd (after_import a1))
     = fresh_entries (row_filter_mode a1) (Some df).
Proof.
  intros Ha. split; [apply after_import_keeps_dm|].
  unfold after_import, bind, ret.
  assert (E0 : dm (snd (update_engine_combos a1)) = dm a1
               /\ row_filter_mode (snd (update_engine_combos a1))
                  = row_filter_mode a1).
  { unfold update_engine_combos. destruct (dict_keys _); auto. }
  destruct (update_engine_combos a1) as [u0 a2]. cbn [snd] in E0.
  destruct E0 as (D0 & M0).
  assert (Ha2 : get_active_df (dm a2) = Some df) by now rewrite D0.
  pose proof (refresh_stats_columns_keeps_dm a2) as D1.
  pose proof (refresh_stats_columns_vars a2 Ha2) as V1.
  destruct (refresh_stats_columns_filter a2 df) as (M1 & _ & _).
  destruct (refresh_stats_columns a2) as [u1 a3]. cbn [snd] in *.
  pose proof (refresh_row_filter_same a3) as S2.
  destruct (refresh_row_filter a3) as [u2 a4]. cbn [snd] in *.
  rewrite D1, Ha2 in S2.
  destruct (same_widgets_filter S2) as (M2 & E2).
  pose proof (same_widgets_vars S2) as V2.
  cbn [row_filter_mode row_filter_entries stats_col_vars with_entries]
    in M2, E2, V2.
  unfold refresh_id_column_selector.
  destruct (get_active_df (dm a4)); [destruct (filter _ _)|];
    cbn [snd stats_col_vars row_filter_mode row_filter_entries with_id];
    (split; [congruence|]); (split; [congruence|]); congruence.
Qed.

(** X23. After the import of a CSV file the statistics work on the new
    table: the handler registers the table under
    [<base name>_<time>] and makes it active, rebuilds the column
    selectors and the entries of the row filter, and the dataset of the
    statistics is then the whole new table restricted to its numeric
    columns, without its incomplete rows, whatever table, selection and
    filter bounds were in the window before (in sample mode, for a
    table of at most 100 rows). *)
Theorem import_then_statistics (path now : string) (act : DialogAction)
  (a : App) (fs : list (string * SheetInfo)) (df : DataFrame) :
  truthy path = true ->
  endswith path ".csv" = true ->
  read_csv path = inr df ->
  wf df -> NoDup (columns df) -> empty df = false ->
  (row_filter_mode a = "sample" -> (len df <= 100)%nat) ->
  dm (fst (load_file_thread path act now (a, fs)))
  = add_table (basename path ++ "_" ++ now) df (dm a)
  /\ get_active_df (dm (fst (load_file_thread path act now (a, fs))))
     = Some df
  /\ fst (_get_filtered_df_for_stats
            (fst (load_file_thread path act now (a, fs))))
     = Some (dropna (select_number df)).
Proof.
  intros Hp Hc Hr Hwf Hn He Hs.
  unfold load_file_thread. rewrite Hp, Hc. cbn [negb].
  unfold finish_import, load_file. rewrite Hc, Hr. cbn [fst snd].
  set (nm := (basename path ++ "_" ++ now)%string).
  unfold bind at 1, log. cbv beta iota.
  set (a1 := with_ui _ (with_dm _ a)).
  assert (Hnm : truthy nm = true) by (subst nm; destruct (basename path);
                                      reflexivity).
  assert (Ha1 : get_active_df (dm a1) = Some df).
  { subst a1. cbn [dm with_ui with_dm].
    now apply (add_table_active nm df (dm a)). }
  destruct (after_import_state a1 Ha1) as (D & V & M & E).
  set (b := snd (after_import a1)) in *.
  assert (Hb : get_active_df (dm b) = Some df) by now rewrite D.
  split; [rewrite D; reflexivity|]. split; [exact Hb|].
  assert (Hf : fst (_apply_row_filter df b) = Some df).
  { apply (@apply_row_filter_fresh _ (row_filter_mode a1)); auto. }
  now apply (@numeric_selection_dataset _ b df df).
Qed.

Lemma sheet_dialog_pick (sheet_names : list string) (i : nat)
  (sh : string) :
  nth_error sheet_names i = Some sh -> no_icon_byte sh ->
  sheet_dialog_result sheet_names (DialogOk (Some i)) = Some sh.
Proof.
  intros Hi Hn. cbn [sheet_dialog_result]. f_equal.
  rewrite (nth_error_nth _ _ _ Hi).
  change (icon_page ++ " " ++ sh)%string
    with ((icon_page ++ " ") ++ sh)%string.
  change (icon_page ++ " ")%string
    with (String "240" (String "159" (String "147" (String "132" " ")))).
  rewrite remove_all_head. exact (@remove_all_keeps "240" _ sh Hn).
Qed.

(** X24. The sheet dialog loads the chosen sheet or nothing: for a
    workbook with several sheets, closing the dialog with Cancel only
    logs the cancellation and keeps the registry and the sheet records;
    choosing line [i] loads exactly sheet [i] (a non-empty name without
    an icon), registers it under [<base name>_<sheet>_<time>], makes it
    active and records the workbook, its sheets and the chosen sheet. *)
Theorem sheet_dialog_loads_chosen_sheet (path now : string)
  (sheet_names : list string) (i : nat) (sh : string) (a : App)
  (fs : list (string * SheetInfo)) (df : DataFrame) :
  truthy path = true ->
  endswith path ".csv" = false ->
  excel_sheet_names path = inr sheet_names ->
  (1 < length sheet_names)%nat ->
  nth_error sheet_names i = Some sh ->
  no_icon_byte sh -> truthy sh = true ->
  read_excel path sh = inr df ->
  load_file_thread path DialogCancel now (a, fs)
  = (with_ui (ui a ++ [Log "Seleção de sheet cancelada." INFO]) a, fs)
  /\ dm (fst (load_file_thread path (DialogOk (Some i)) now (a, fs)))
     = add_table (basename path ++ "_" ++ sh ++ "_" ++ now) df (dm a)
  /\ get_active_df
       (dm (fst (load_file_thread path (DialogOk (Some i)) now (a, fs))))
     = Some df
  /\ dict_get (basename path ++ "_" ++ sh ++ "_" ++ now)
              (snd (load_file_thread path (DialogOk (Some i)) now (a, fs)))
     = Some (mkSheetInfo path sheet_names sh).
Proof.
  intros Hp Hc Hx Hl Hi Hn Ht Hr.
  assert (Hlt : (1 <? length sheet_names)%nat = true)
    by now apply Nat.ltb_lt.
  unfold load_file_thread, _show_sheet_selector.
  rewrite Hp, Hc, Hx, Hlt. cbn [negb].
  split; [reflexivity|].
  rewrite (@sheet_dialog_pick sheet_names i sh Hi Hn), Ht.
  assert (R : load_file path (Some sh) now (dm a) fs
              = ((true, (basename path ++ "_" ++ sh ++ "_" ++ now)%string,
                  sheet_names),
                 (add_table (basename path ++ "_" ++ sh ++ "_" ++ now) df
                            (dm a),
                  dict_set (basename path ++ "_" ++ sh ++ "_" ++ now)
                           (mkSheetInfo path sheet_names sh) fs))).
  { unfold load_file. rewrite Hc, Hx, Hr, Hlt. reflexivity. }
  rewrite finish_import_dm, R. cbn [fst snd].
  split; [reflexivity|]. split.
  - apply add_table_active. destruct (basename path); reflexivity.
  - unfold finish_import. cbn [fst snd]. apply dict_get_set.
Qed.

End ImportTheorems.




(* ====================================================================== *)
(** * The program on concrete tables *)
(* ====================================================================== *)

Section Examples.

#[local] Existing Instance ref_library.

(** ** Row filter *)

Lemma row_filter_empty_table_witness :
  empty t_empty = true
  /\ _apply_row_filter t_empty st_empty_invalid
     = (Some t_empty, st_empty_invalid).
Proof.
  split; [reflexivity|]. apply (@row_filter_empty_table ref_library). reflexivity.
Defined.

(** C2, as stated, fails: with the bounds 2 and 1 (both integers, the
    lower one above the upper one) on the three rows of [t_abc] the
    filter returns a table, with no row, and logs nothing. *)
Lemma index_range_reversed_bounds :
  py_int "2" = Some 2%Z /\ py_int "1" = Some 1%Z
  /\ _apply_row_filter t_abc st_abc_reversed
     = (Some (frame 0 [text_col "id" []; int_col "x" []]), st_abc_reversed).
Proof. repeat split; vm_compute; reflexivity. Qed.

Lemma index_range_filter_witness :
  empty t_abc = false
  /\ row_filter_mode st_abc_rows_1_2 = "index"
  /\ _apply_row_filter t_abc st_abc_rows_1_2
     = (Some (iloc_slice 1 3 t_abc), st_abc_rows_1_2)
  /\ len (iloc_slice 1 3 t_abc) = 2%nat.
Proof.
  destruct (@index_range_filter ref_library t_abc st_abc_rows_1_2 eq_refl eq_refl)
    as (H1 & H2 & _).
  split; [reflexivity|]. split; [reflexivity|]. split.
  - apply (H1 1%Z 3%Z "3"); try reflexivity. discriminate.
  - destruct (H2 1%Z 3%Z) as (Hlen & _); [lia|simpl; lia|exact Hlen].
Defined.

(** C1 on the failing input: two rows out of five with the randomize box
    unchecked.  The draw comes from the global generator. *)
Lemma sample_not_randomized_witness :
  empty t_12345 = false
  /\ row_filter_mode st_sample_fixed = "sample"
  /\ sample_random (row_filter_entries st_sample_fixed) = Some false
  /\ _apply_row_filter t_12345 st_sample_fixed
     = (Some (iloc_take (fst (choice (np_random st_sample_fixed) 5 2))
                        t_12345),
        with_random (snd (choice (np_random st_sample_fixed) 5 2))
                    st_sample_fixed).
Proof.
  split; [reflexivity|]. split; [reflexivity|]. split; [reflexivity|].
  apply (@sample_not_randomized_is_unseeded ref_library t_12345 st_sample_fixed 2%Z);
    try reflexivity.
  vm_compute. split; [discriminate|reflexivity].
Defined.

(** With the reference generator, two applications in a row to the same
    table select the rows labelled 0, 3 and then the rows labelled
    0, 1. *)
Lemma sample_not_randomized_two_draws :
  exists r1 r2 st1 st2,
    _apply_row_filter t_12345 st_sample_fixed = (Some r1, st1)
    /\ _apply_row_filter t_12345 st1 = (Some r2, st2)
    /\ index r1 = [0; 3]%Z /\ index r2 = [0; 1]%Z.
Proof.
  do 4 eexists. split; [vm_compute; reflexivity|].
  split; [vm_compute; reflexivity|]. split; reflexivity.
Qed.

(** ** Filter pipeline *)



(** ** Descriptive statistics *)

(** C3, as stated, fails: with the rows 1 and 2 of [t_abc] left by the
    row filter, the first identifier that remains is b, and the row
    [ID_Primeiro] shows a, the first value of the whole column. *)
Lemma desc_stats_first_id_unfiltered :
  exists t df,
    fst (run_desc_stats st_abc_rows_1_2) = Some t
    /\ fst (_get_filtered_df_for_stats st_abc_rows_1_2) = Some df
    /\ index df = [1; 2]%Z
    /\ remaining_ids (text_col "id" ["a"; "b"; "c"]) t_abc df
       = [CStr "b"; CStr "c"]
    /\ In ("ID_Primeiro", repeat (SStr "a") 7) (stat_rows t)
    /\ ~ In ("ID_Primeiro", repeat (SStr "b") 7) (stat_rows t).
Proof.
  do 2 eexists. split; [vm_compute; reflexivity|].
  split; [vm_compute; reflexivity|].
  split; [reflexivity|]. split; [reflexivity|]. split.
  - right; right; left. reflexivity.
  - intros [H|[H|[H|[H|[]]]]]; discriminate.
Qed.

(** On the identifiers a, b, a the row [ID_Únicos] shows 2. *)
Lemma desc_stats_id_rows_witness :
  fst (run_desc_stats st_aba)
  = Some (mkStats stat_names
            ([("x", describe [1; 2; 3]%Q)] ++
             [("ID_Únicos", repeat (SCount 2) 7);
              ("ID_Primeiro", repeat (SStr "a") 7);
              ("ID_Último", repeat (SStr "a") 7)])).
Proof.
  pose proof (@desc_stats_id_rows ref_library st_aba
                (mkDF [0; 1; 2]%Z [int_col "x" [1; 2; 3]%Z]) t_aba
                [("x", describe [1; 2; 3]%Q)] "id"
                (text_col "id" ["a"; "b"; "a"]) (CStr "a")
                [CStr "b"; CStr "a"]) as W.
  repeat (lapply W;
          [clear W; intros W
          |first [vm_compute; reflexivity|intros [H|[]]; discriminate]]).
  destruct W as (d & _ & Hp & Hrun).
  assert (Hpl : Forall plain_cell [CStr "a"; CStr "b"; CStr "a"])
    by (repeat (constructor; [left; eexists; reflexivity|]); constructor).
  destruct (Hp Hpl) as (Hnd & Hin).
  assert (Hlen : length d = 2%nat).
  { apply Nat.le_antisymm.
    - apply (@NoDup_incl_length _ d [CStr "a"; CStr "b"] Hnd).
      intros v Hv. apply Hin in Hv.
      destruct Hv as [<-|[<-|[<-|[]]]]; cbn; auto.
    - apply (@NoDup_incl_length _ [CStr "a"; CStr "b"] d).
      + repeat constructor; cbn; intuition discriminate.
      + intros v [<-|[<-|[]]]; apply Hin; cbn; auto. }
  rewrite Hlen in Hrun. exact Hrun.
Defined.

(** C4, as stated, fails: on 1, 2, 3, 4, 5 the run reports the kurtosis
    -1.3, and the bias-corrected excess kurtosis of that column is
    -1.2. *)
Lemma desc_stats_kurtosis_biased :
  exists m md sd mn mx sk ku,
    fst (run_desc_stats st_12345)
    = Some (mkStats stat_names
              [("x", [SNum m; SNum md; sd; SNum mn; SNum mx; sk; SNum ku])])
    /\ (ku == - (13 # 10))%Q
    /\ (kurtosis_bias_corrected [1; 2; 3; 4; 5] == - (6 # 5))%Q
    /\ ~ (ku == kurtosis_bias_corrected [1; 2; 3; 4; 5])%Q.
Proof.
  do 7 eexists. split; [vm_compute; reflexivity|].
  split; [vm_compute; reflexivity|]. split; [vm_compute; reflexivity|].
  vm_compute. discriminate.
Qed.

Lemma desc_stats_per_column_witness :
  empty t_12345 = false
  /\ exists t, fst (run_desc_stats st_12345) = Some t
               /\ stat_columns t = stat_names.
Proof.
  split; [reflexivity|].
  destruct (@desc_stats_per_column ref_library st_12345 t_12345)
    as ((rows & t & _ & Ht & Hc & _) & _).
  - vm_compute. reflexivity.
  - reflexivity.
  - repeat constructor; discriminate.
  - exists t. split; assumption.
Defined.

(** ** Rating *)





(** ** Join and SQL *)

(** a join on a key that the left table does not have, and a query that
    does not parse *)
Lemma failed_command_keeps_registry_witness :
  dm (snd (run_join "120000" (engine_state t_abc "zz" "id" "SELEC")))
  = mkDM [("t", t_abc)] (Some "t")
  /\ dm (snd (run_sql "120000" (engine_state t_abc "zz" "id" "SELEC")))
     = mkDM [("t", t_abc)] (Some "t").
Proof.
  destruct (@failed_command_keeps_registry ref_library
              (engine_state t_abc "zz" "id" "SELEC") "120000")
    as (HJ & HS & _).
  split.
  - destruct (HJ t_abc t_abc "'zz'" eq_refl eq_refl eq_refl eq_refl eq_refl)
      as (H & _).
    exact H.
  - destruct (HS t_abc "near the query text: syntax error" eq_refl eq_refl)
      as (H & _).
    exact H.
Defined.

(** The three operations on one loaded table t: each leaves two tables,
    t and the result, and the result is the active one. *)
Lemma derived_table_becomes_active_witness :
  (dict_keys (tables (dm (snd (calculate_rating_thread "120000" st_rating))))
   = ["t"; "Rating_120000"]
   /\ get_active_df (dm (snd (calculate_rating_thread "120000" st_rating)))
      = Some (rating_result [0 # 100; 5000 # 100; 10000 # 100] t_0_10_20))
  /\ (exists res,
         dict_keys
           (tables
              (dm (snd (run_join "120000"
                          (engine_state t_abc "id" "id"
                                        "SELECT * FROM data")))))
         = ["t"; "Join_t_t_120000"]
         /\ get_active_df
              (dm (snd (run_join "120000"
                          (engine_state t_abc "id" "id"
                                        "SELECT * FROM data"))))
            = Some res)
  /\ (dict_keys
        (tables
           (dm (snd (run_sql "120000"
                       (engine_state t_abc "id" "id" "SELECT * FROM data")))))
      = ["t"; "SQL_120000"]
      /\ get_active_df
           (dm (snd (run_sql "120000"
                       (engine_state t_abc "id" "id" "SELECT * FROM data"))))
         = Some t_abc).
Proof.
  split; [|split].
  - destruct (@derived_table_becomes_active ref_library st_rating "120000")
      as (H & _).
    destruct (H t_0_10_20 [0 # 100; 5000 # 100; 10000 # 100])
      as (_ & _ & _ & _ & Hact & _ & Hkeys);
      [reflexivity|vm_compute; discriminate|vm_compute; reflexivity|].
    split; [exact Hkeys|exact Hact].
  - destruct (@derived_table_becomes_active ref_library
                (engine_state t_abc "id" "id" "SELECT * FROM data") "120000")
      as (_ & H & _).
    destruct (ref_merge t_abc t_abc "id" "id" "inner") as [msg|res] eqn:E;
      [vm_compute in E; discriminate|].
    exists res.
    destruct (H t_abc t_abc res) as (_ & _ & _ & _ & Hact & _ & Hkeys);
      try reflexivity; [exact E|].
    split; [exact Hkeys|exact Hact].
  - destruct (@derived_table_becomes_active ref_library
                (engine_state t_abc "id" "id" "SELECT * FROM data") "120000")
      as (_ & _ & H).
    destruct (H t_abc t_abc) as (_ & _ & _ & _ & Hact & _ & Hkeys);
      try reflexivity.
    split; [exact Hkeys|exact Hact].
Defined.

(** C9, as stated, fails: the name of a derived table need not be new.
    When the registry already holds a table [SQL_120000], a query run at
    12:00:00 replaces that table: the registry has the same two names
    as before, and the five-row table that bore the name is gone. *)
Lemma query_replaces_table_of_same_name :
  dict_keys (tables (dm st_sql_same_name)) = ["t"; "SQL_120000"]
  /\ dict_get "SQL_120000" (tables (dm st_sql_same_name)) = Some t_12345
  /\ dict_keys (tables (dm (snd (run_sql "120000" st_sql_same_name))))
     = ["t"; "SQL_120000"]
  /\ dict_get "SQL_120000"
       (tables (dm (snd (run_sql "120000" st_sql_same_name))))
     = Some t_abc
  /\ t_abc <> t_12345.
Proof.
  split; [reflexivity|]. split; [reflexivity|].
  split; [vm_compute; reflexivity|]. split; [vm_compute; reflexivity|].
  discriminate.
Qed.

End Examples.

(* ====================================================================== *)
(** * Further runs on concrete tables *)
(* ====================================================================== *)

Section MoreExamples.

#[local] Existing Instance ref_library.
#[local] Existing Instance ref_text.
#[local] Existing Instance ref_files.

Lemma registry_sound_over_session_witness :
  registry_ok (dm (fst (run session_example (init_app, []))))
  /\ incl (dict_keys (tables (dm (fst (init_app, @nil (string * SheetInfo))))))
          (dict_keys (tables (dm (fst (run session_example (init_app, []))))))
  /\ (active_table (dm (fst (init_app, @nil (string * SheetInfo)))) <> None ->
      exists df,
        get_active_df (dm (fst (run session_example (init_app, []))))
        = Some df).
Proof.
  apply (@registry_sound_over_session _ _ _ session_example (init_app, [])).
  split; [exact I|intros H; exact H].
Defined.

Lemma select_line_activates_its_table_witness :
  dm (snd (on_table_select (table_list_entries [] (dm st_two_tables))
                           [1%nat] st_two_tables))
  = mkDM (tables (dm st_two_tables)) (Some "clientes.csv_101011").
Proof.
  apply (@select_line_activates_its_table _ _ [] st_two_tables 1
           "clientes.csv_101011").
  - reflexivity.
  - unfold no_icon_byte. cbn. repeat (constructor; [discriminate|]).
    constructor.
  - intros k' [<-|[]]. split; vm_compute; reflexivity.
Defined.

Lemma join_result_not_selectable_witness :
  nth_error (dict_keys (tables (dm (snd (run_join "101010"
                                            st_abc_no_selectors))))) 1
  = Some "Join_t_t_101010"
  /\ active_table (dm (snd (run_join "101010" st_abc_no_selectors)))
     = Some "Join_t_t_101010"
  /\ exists k,
       active_table
         (dm (snd (on_table_select
                     (table_list_entries
                        [] (dm (snd (run_join "101010" st_abc_no_selectors))))
                     [1%nat]
                     (snd (run_join "101010" st_abc_no_selectors)))))
       = Some k
       /\ k <> "Join_t_t_101010"
       /\ In k (dict_keys (tables (dm st_abc_no_selectors))).
Proof.
  refine (@join_result_not_selectable _ _ [] st_abc_no_selectors "101010"
            t_abc t_abc _ eq_refl eq_refl eq_refl eq_refl eq_refl _ _).
  - cbn. intros [H|[]]. discriminate H.
  - unfold no_icon_byte. cbn. repeat (constructor; [discriminate|]).
    constructor.
Defined.

Lemma load_file_failure_commits_nothing_witness :
  snd (load_file "dados/missing.csv" None "101010" (dm st_two_tables) [])
  = (dm st_two_tables, [])
  /\ snd (fst (load_file "dados/missing.csv" None "101010"
                         (dm st_two_tables) [])) = [].
Proof.
  apply (@load_file_failure_commits_nothing _ "dados/missing.csv" None
           "101010" (dm st_two_tables) []).
  reflexivity.
Defined.


Lemma load_file_same_second_overwrites_witness :
  snd (load_file "b/dados.csv" None "101010"
         (fst (snd (load_file "a/dados.csv" None "101010" (mkDM [] None) [])))
         (snd (snd (load_file "a/dados.csv" None "101010" (mkDM [] None) []))))
  = snd (load_file "b/dados.csv" None "101010" (mkDM [] None) [])
  /\ length (tables (fst (snd (load_file "b/dados.csv" None "101010"
         (fst (snd (load_file "a/dados.csv" None "101010" (mkDM [] None) [])))
         (snd (snd (load_file "a/dados.csv" None "101010"
                              (mkDM [] None) [])))))))
     = length (tables (fst (snd (load_file "a/dados.csv" None "101010"
                                           (mkDM [] None) [])))).
Proof.
  apply (@load_file_same_second_overwrites _ "a/dados.csv" "b/dados.csv"
           "101010" (mkDM [] None) [] t_abc t_abc);
    reflexivity.
Defined.

Lemma export_unknown_extension_witness :
  _save_dataframe t_12345 "saida.parquet" st_abc_no_selectors
  = (None,
     with_ui (ui st_abc_no_selectors
              ++ [Log ("Resultados salvos: " ++ basename "saida.parquet")
                      SUCCESS])
             st_abc_no_selectors)
  /\ fst (fst (save_data "saida.parquet" "1.0" st_abc_no_selectors))
     = Some (if endswith "saida.parquet" ".parquet" then "parquet"
             else "csv").
Proof.
  apply (@export_unknown_extension _ t_12345 t_abc "saida.parquet" "1.0"
           st_abc_no_selectors); reflexivity.
Defined.


Lemma fresh_filter_selects_all_witness :
  fst (choose_row_filter_mode "index" st_abc_no_selectors)
  = ("Linhas: " ++ str_of_nat (len t_abc) ++ " de " ++ str_of_nat (len t_abc)
     ++ " (após filtro)")%string
  /\ fst (_apply_row_filter t_abc
            (snd (choose_row_filter_mode "index" st_abc_no_selectors)))
     = Some t_abc.
Proof.
  apply (@fresh_filter_selects_all _ "index" st_abc_no_selectors t_abc).
  - reflexivity.
  - repeat constructor.
  - intros H. discriminate H.
Defined.

Lemma refreshed_selectors_give_numeric_columns_witness :
  fst (_get_filtered_df_for_stats
         (snd (refresh_stats_columns st_abc_rows_1_2)))
  = Some (dropna (select_number (iloc_slice 1 3 t_abc))).
Proof.
  apply (@refreshed_selectors_give_numeric_columns _ st_abc_rows_1_2 t_abc).
  - reflexivity.
  - repeat constructor; cbn; intuition discriminate.
  - reflexivity.
  - reflexivity.
Defined.

Lemma cleared_selectors_give_no_analysis_witness :
  fst (_get_filtered_df_for_stats (snd (_set_all_stats_cols false st_12345)))
  = None
  /\ fst (run_desc_stats (snd (_set_all_stats_cols false st_12345))) = None
  /\ fst (run_outliers_iqr (snd (_set_all_stats_cols false st_12345))) = None.
Proof.
  apply (@cleared_selectors_give_no_analysis _ st_12345).
  intros H. discriminate H.
Defined.

Lemma dropna_keeps_complete_rows_witness :
  columns (dropna t_with_null) = columns t_with_null
  /\ (forall j, (j < len (dropna t_with_null))%nat ->
        exists i, (i < len t_with_null)%nat
                  /\ row (dropna t_with_null) j = row t_with_null i)
  /\ (forall s c, In s (data (dropna t_with_null)) -> In c (values s) ->
                  is_null c = false)
  /\ ((forall s c, In s (data t_with_null) -> In c (values s) ->
                   is_null c = false)
      -> dropna t_with_null = t_with_null)
  /\ dropna (dropna t_with_null) = dropna t_with_null.
Proof.
  apply (@dropna_keeps_complete_rows t_with_null). repeat constructor.
Defined.



Lemma iqr_flags_outside_quartiles_witness :
  exists q1 q3,
    quantile (1 # 4) [1; 2; 3; 4; 100] = Some q1
    /\ quantile (3 # 4) [1; 2; 3; 4; 100] = Some q3
    /\ (qmin [1; 2; 3; 4; 100] <= q1)%Q /\ (q1 <= q3)%Q
    /\ (q3 <= qmax [1; 2; 3; 4; 100])%Q
    /\ Forall2 (fun x (b : bool) => b = true -> (x < q1)%Q \/ (q3 < x)%Q)
               [1; 2; 3; 4; 100]%Q (iqr_flags [1; 2; 3; 4; 100])
    /\ ((qmin [1; 2; 3; 4; 100] == qmax [1; 2; 3; 4; 100])%Q
        -> count_true (iqr_flags [1; 2; 3; 4; 100]) = 0%nat).
Proof.
  apply (@iqr_flags_outside_quartiles [1; 2; 3; 4; 100]%Q).
  intros H. discriminate H.
Defined.

Lemma regression_recovers_line_witness :
  exists coef intercept r2,
    linear_regression [1; 2; 3; 4]
                      (map (fun t => 2 * t + 1)%Q [1; 2; 3; 4]%Q)
    = Some (coef, intercept, r2)
    /\ (coef == 2)%Q /\ (intercept == 1)%Q
    /\ (~ (2 == 0)%Q -> exists r, r2 = Some r /\ (r == 1)%Q).
Proof.
  apply (@regression_recovers_line 2 1 [1; 2; 3; 4]%Q 1 2).
  - now left.
  - right. now left.
  - intros H. discriminate H.
Defined.


(** With a missing value the unit matters: the empty cell counts as 0
    in either unit, so the first row of 0, missing, 20 scores 0 and the
    first row of 32, missing, 68 scores 47.06. *)
Lemma rating_unit_matters_with_null :
  rating_scores ["x"] t_celsius_null
  = inr [0 # 100; 0 # 100; 10000 # 100]
  /\ rating_scores ["x"] t_fahrenheit_null
     = inr [4706 # 100; 0 # 100; 10000 # 100].
Proof. split; vm_compute; reflexivity. Qed.

Lemma score_to_color_well_formed_witness :
  is_color (score_to_color 75 (4 # 5)) = true
  /\ ((75 <= 0)%Q ->
      score_to_color 75 (4 # 5) = score_to_color 0 (4 # 5))
  /\ ((100 <= 75)%Q ->
      score_to_color 75 (4 # 5) = score_to_color 100 (4 # 5)).
Proof.
  apply (@score_to_color_well_formed 75 (4 # 5)); intros H; discriminate H.
Defined.

Lemma queries_run_on_previous_result_witness :
  dm (snd (run_sql "101011" (snd (run_sql "101010" st_abc_no_selectors))))
  = add_table ("SQL_" ++ "101011") t_abc
              (add_table ("SQL_" ++ "101010") t_abc (dm st_abc_no_selectors))
  /\ dm (snd (run_sql "101010" (snd (run_sql "101010" st_abc_no_selectors))))
     = add_table ("SQL_" ++ "101010") t_abc (dm st_abc_no_selectors).
Proof.
  apply (@queries_run_on_previous_result _ st_abc_no_selectors t_abc t_abc
           t_abc "101010" "101011"); reflexivity.
Defined.

Lemma engine_combos_then_join_witness :
  join_left (snd (update_engine_combos st_two_tables)) = "vendas.csv_101010"
  /\ join_right (snd (update_engine_combos st_two_tables))
     = "clientes.csv_101011"
  /\ exists df1 df2,
       dict_get "vendas.csv_101010" (tables (dm st_two_tables)) = Some df1
       /\ dict_get "clientes.csv_101011" (tables (dm st_two_tables))
          = Some df2
       /\ match pd_merge df1 df2 (join_key_a st_two_tables)
                         (join_key_b st_two_tables)
                         (join_type st_two_tables) with
          | inr res =>
              dm (snd (run_join "101012"
                         (snd (update_engine_combos st_two_tables))))
              = add_table ("Join_" ++ "vendas.csv_101010" ++ "_"
                           ++ "clientes.csv_101011" ++ "_" ++ "101012")
                          res (dm st_two_tables)
          | inl msg =>
              snd (run_join "101012"
                     (snd (update_engine_combos st_two_tables)))
              = with_ui (ui st_two_tables
                         ++ [Log ("Erro no Join: " ++ msg) ERROR])
                        (snd (update_engine_combos st_two_tables))
          end.
Proof.
  apply (@engine_combos_then_join _ st_two_tables "101012"
           "vendas.csv_101010" "clientes.csv_101011" []).
  - split; [cbn; now left|]. cbn. intros [H|[H|[]]]; discriminate H.
  - reflexivity.
Defined.

Lemma default_rating_succeeds_witness :
  selected_of (rating_vars (snd (refresh_rating_cols st_abc_no_selectors)))
  = columns (select_number t_abc)
  /\ exists scores,
       rating_scores (columns (select_number t_abc)) t_abc = inr scores
       /\ dm (snd (calculate_rating_thread "101010"
                     (snd (refresh_rating_cols st_abc_no_selectors))))
          = add_table ("Rating_" ++ "101010") (rating_result scores t_abc)
                      (dm st_abc_no_selectors).
Proof.
  apply (@default_rating_succeeds st_abc_no_selectors t_abc "101010").
  - reflexivity.
  - cbn. lia.
  - repeat constructor; cbn; intuition discriminate.
  - intros H. discriminate H.
  - repeat constructor; cbn; intros; discriminate.
Defined.

Lemma import_then_statistics_witness :
  dm (fst (load_file_thread "dados/vendas.csv" DialogCancel "101012"
                            (st_two_tables, [])))
  = add_table (basename "dados/vendas.csv" ++ "_" ++ "101012") t_abc
              (dm st_two_tables)
  /\ get_active_df
       (dm (fst (load_file_thread "dados/vendas.csv" DialogCancel "101012"
                                  (st_two_tables, []))))
     = Some t_abc
  /\ fst (_get_filtered_df_for_stats
            (fst (load_file_thread "dados/vendas.csv" DialogCancel "101012"
                                   (st_two_tables, []))))
     = Some (dropna (select_number t_abc)).
Proof.
  apply (@import_then_statistics _ _ _ "dados/vendas.csv" "101012"
           DialogCancel st_two_tables [] t_abc).
  - reflexivity.
  - reflexivity.
  - reflexivity.
  - repeat constructor.
  - repeat constructor; cbn; intuition discriminate.
  - reflexivity.
  - intros H. discriminate H.
Defined.

Lemma sheet_dialog_loads_chosen_sheet_witness :
  load_file_thread "dados/vendas.xlsx" DialogCancel "101012"
                   (st_two_tables, [])
  = (with_ui (ui st_two_tables
              ++ [Log "Seleção de sheet cancelada." INFO]) st_two_tables,
     [])
  /\ dm (fst (load_file_thread "dados/vendas.xlsx" (DialogOk (Some 1%nat))
                               "101012" (st_two_tables, [])))
     = add_table (basename "dados/vendas.xlsx" ++ "_" ++ "Plan2" ++ "_"
                  ++ "101012") t_abc (dm st_two_tables)
  /\ get_active_df
       (dm (fst (load_file_thread "dados/vendas.xlsx"
                                  (DialogOk (Some 1%nat)) "101012"
                                  (st_two_tables, []))))
     = Some t_abc
  /\ dict_get (basename "dados/vendas.xlsx" ++ "_" ++ "Plan2" ++ "_"
               ++ "101012")
              (snd (load_file_thread "dados/vendas.xlsx"
                                     (DialogOk (Some 1%nat)) "101012"
                                     (st_two_tables, [])))
     = Some (mkSheetInfo "dados/vendas.xlsx" ["Plan1"; "Plan2"] "Plan2").
Proof.
  apply (@sheet_dialog_loads_chosen_sheet _ _ _ "dados/vendas.xlsx" "101012"
           ["Plan1"; "Plan2"] 1 "Plan2" st_two_tables [] t_abc).
  - reflexivity.
  - reflexivity.
  - reflexivity.
  - cbn. lia.
  - reflexivity.
  - unfold no_icon_byte. cbn. repeat (constructor; [discriminate|]).
    constructor.
  - reflexivity.
  - reflexivity.
Defined.


End MoreExamples.
